(** * Access rules and entity life cycle of the task-management backend

    A shallow embedding of the FastAPI handlers of [routers/tasks.py],
    [routers/projects.py], [routers/comments.py] and [routers/tags.py] over
    the SQLAlchemy models of [migration/models.py].

    - A table is the list of its rows, in storage order.
    - A handler is a computation in the monad [M]: it reads and writes the
      session's view of the database, commits, and may raise.
    - [datetime] values are integers (a point on the time line); the clock
      reading [datetime.now()] is an argument [now] of the handlers that
      use it.
    - The DECIMAL columns [estimated_hours] and [actual_hours] are left out:
      no handler reads them and they are copied like [position]. *)

From Stdlib Require Import ZArith List String Bool Lia Permutation.
From Stdlib Require Import Decimal DecimalString.
From Stdlib Require Import Sorted.
From Stdlib Require Import Ascii.
Import ListNotations.

Open Scope string_scope.
Open Scope list_scope.
Open Scope Z_scope.

(** ** Python values *)

(** [if x:] on an [Optional[int]]: [None] and [0] are falsy. *)
Definition truthy_int (x : option Z) : bool :=
  match x with
  | Some n => negb (n =? 0)
  | None => false
  end.

(** [if s:] on an [Optional[str]]: [None] and the empty string are falsy. *)
Definition truthy_str (x : option string) : bool :=
  match x with
  | Some s => negb (s =? "")%string
  | None => false
  end.

(** [x == "lit"] where [x] is an [Optional[str]]. *)
Definition py_eq_str (x : option string) (lit : string) : bool :=
  match x with
  | Some s => (s =? lit)%string
  | None => false
  end.

(** [x in [a, b, ...]] on strings. *)
Definition py_in (x : string) (l : list string) : bool :=
  existsb (fun y => (x =? y)%string) l.

(** [str(n)] for a row count. *)
Definition py_str_of_nat (n : nat) : string :=
  NilEmpty.string_of_uint (Nat.to_uint n).

(** A pydantic field of an update schema: left out of the request body, or
    provided (possibly as an explicit [null]). *)
Inductive Field (A : Type) : Type :=
| Unset
| Provided (v : A).
Arguments Unset {A}.
Arguments Provided {A} v.

(** Attribute access on the parsed schema: an unset [Optional] field reads as
    its default [None]. *)
Definition field_value {A} (f : Field (option A)) : option A :=
  match f with
  | Unset => None
  | Provided v => v
  end.

(** ** migration/models.py *)

Module Project.
Record t := mk {
  id : Z;
  name : string;
  description : option string;
  color : string;
  owner_id : Z;
  is_archived : option bool;
  created_at : Z;
  updated_at : Z
}.

Definition set_name v (x : t) : t :=
  mk (id x) v (description x) (color x) (owner_id x) (is_archived x)
     (created_at x) (updated_at x).
Definition set_description v (x : t) : t :=
  mk (id x) (name x) v (color x) (owner_id x) (is_archived x)
     (created_at x) (updated_at x).
Definition set_color v (x : t) : t :=
  mk (id x) (name x) (description x) v (owner_id x) (is_archived x)
     (created_at x) (updated_at x).
Definition set_is_archived v (x : t) : t :=
  mk (id x) (name x) (description x) (color x) (owner_id x) v
     (created_at x) (updated_at x).
End Project.

Module ProjectMember.
Record t := mk {
  id : Z;
  project_id : Z;
  user_id : Z;
  role : string;
  joined_at : Z
}.
End ProjectMember.

Module Task.
Record t := mk {
  id : Z;
  title : option string;
  description : option string;
  project_id : Z;
  parent_task_id : option Z;
  assignee_id : option Z;
  creator_id : Z;
  priority : option string;
  status : string;
  start_date : option Z;
  due_date : option Z;
  completed_at : option Z;
  position : option Z;
  is_archived : option bool;
  created_at : Z;
  updated_at : Z
}.

Definition set_title v (x : t) : t :=
  mk (id x) v (description x) (project_id x) (parent_task_id x)
     (assignee_id x) (creator_id x) (priority x) (status x) (start_date x)
     (due_date x) (completed_at x) (position x) (is_archived x)
     (created_at x) (updated_at x).
Definition set_description v (x : t) : t :=
  mk (id x) (title x) v (project_id x) (parent_task_id x)
     (assignee_id x) (creator_id x) (priority x) (status x) (start_date x)
     (due_date x) (completed_at x) (position x) (is_archived x)
     (created_at x) (updated_at x).
Definition set_assignee_id v (x : t) : t :=
  mk (id x) (title x) (description x) (project_id x) (parent_task_id x)
     v (creator_id x) (priority x) (status x) (start_date x)
     (due_date x) (completed_at x) (position x) (is_archived x)
     (created_at x) (updated_at x).
Definition set_priority v (x : t) : t :=
  mk (id x) (title x) (description x) (project_id x) (parent_task_id x)
     (assignee_id x) (creator_id x) v (status x) (start_date x)
     (due_date x) (completed_at x) (position x) (is_archived x)
     (created_at x) (updated_at x).
Definition set_status v (x : t) : t :=
  mk (id x) (title x) (description x) (project_id x) (parent_task_id x)
     (assignee_id x) (creator_id x) (priority x) v (start_date x)
     (due_date x) (completed_at x) (position x) (is_archived x)
     (created_at x) (updated_at x).
Definition set_start_date v (x : t) : t :=
  mk (id x) (title x) (description x) (project_id x) (parent_task_id x)
     (assignee_id x) (creator_id x) (priority x) (status x) v
     (due_date x) (completed_at x) (position x) (is_archived x)
     (created_at x) (updated_at x).
Definition set_due_date v (x : t) : t :=
  mk (id x) (title x) (description x) (project_id x) (parent_task_id x)
     (assignee_id x) (creator_id x) (priority x) (status x) (start_date x)
     v (completed_at x) (position x) (is_archived x)
     (created_at x) (updated_at x).
Definition set_completed_at v (x : t) : t :=
  mk (id x) (title x) (description x) (project_id x) (parent_task_id x)
     (assignee_id x) (creator_id x) (priority x) (status x) (start_date x)
     (due_date x) v (position x) (is_archived x)
     (created_at x) (updated_at x).
Definition set_position v (x : t) : t :=
  mk (id x) (title x) (description x) (project_id x) (parent_task_id x)
     (assignee_id x) (creator_id x) (priority x) (status x) (start_date x)
     (due_date x) (completed_at x) v (is_archived x)
     (created_at x) (updated_at x).
Definition set_is_archived v (x : t) : t :=
  mk (id x) (title x) (description x) (project_id x) (parent_task_id x)
     (assignee_id x) (creator_id x) (priority x) (status x) (start_date x)
     (due_date x) (completed_at x) (position x) v
     (created_at x) (updated_at x).
End Task.

Module User.
Record t := mk {
  id : Z;
  name : string;
  login_id : string;
  email : string;
  password : string;
  avatar_url : option string;
  timezone : option string;
  notification_enabled : option bool;
  created_at : Z;
  updated_at : Z
}.
End User.

Module Tag.
Record t := mk {
  id : Z;
  name : string;
  color : string;
  project_id : option Z;
  created_by : Z;
  created_at : Z
}.
End Tag.

Module TaskTag.
Record t := mk {
  id : Z;
  task_id : Z;
  tag_id : Z;
  created_at : Z
}.
End TaskTag.

Module TaskComment.
Record t := mk {
  id : Z;
  task_id : Z;
  user_id : Z;
  content : string;
  is_edited : option bool;
  created_at : Z;
  updated_at : Z
}.

Definition set_content v (x : t) : t :=
  mk (id x) (task_id x) (user_id x) v (is_edited x) (created_at x)
     (updated_at x).
Definition set_is_edited v (x : t) : t :=
  mk (id x) (task_id x) (user_id x) (content x) v (created_at x)
     (updated_at x).
End TaskComment.

Module TaskAttachment.
Record t := mk {
  id : Z;
  task_id : Z;
  user_id : Z;
  filename : string;
  original_filename : string;
  file_path : string;
  file_size : Z;
  mime_type : option string;
  created_at : Z
}.
End TaskAttachment.

Module Notification.
Record t := mk {
  id : Z;
  user_id : Z;
  task_id : option Z;
  type : string;
  title : string;
  message : option string;
  is_read : option bool;
  scheduled_at : option Z;
  sent_at : option Z;
  created_at : Z
}.

Definition set_is_read v (x : t) : t :=
  mk (id x) (user_id x) (task_id x) (type x) (title x) (message x) v
     (scheduled_at x) (sent_at x) (created_at x).
End Notification.

(** The database: one list of rows per [__tablename__]. *)
Record Db := mkDb {
  projects : list Project.t;
  project_members : list ProjectMember.t;
  tasks : list Task.t;
  tags : list Tag.t;
  task_tags : list TaskTag.t;
  task_comments : list TaskComment.t;
  task_attachments : list TaskAttachment.t;
  notifications : list Notification.t
}.

Definition with_projects v (d : Db) : Db :=
  mkDb v (project_members d) (tasks d) (tags d) (task_tags d)
       (task_comments d) (task_attachments d) (notifications d).
Definition with_project_members v (d : Db) : Db :=
  mkDb (projects d) v (tasks d) (tags d) (task_tags d)
       (task_comments d) (task_attachments d) (notifications d).
Definition with_tasks v (d : Db) : Db :=
  mkDb (projects d) (project_members d) v (tags d) (task_tags d)
       (task_comments d) (task_attachments d) (notifications d).
Definition with_tags v (d : Db) : Db :=
  mkDb (projects d) (project_members d) (tasks d) v (task_tags d)
       (task_comments d) (task_attachments d) (notifications d).
Definition with_task_comments v (d : Db) : Db :=
  mkDb (projects d) (project_members d) (tasks d) (tags d) (task_tags d)
       v (task_attachments d) (notifications d).
Definition with_task_attachments v (d : Db) : Db :=
  mkDb (projects d) (project_members d) (tasks d) (tags d) (task_tags d)
       (task_comments d) v (notifications d).
Definition with_notifications v (d : Db) : Db :=
  mkDb (projects d) (project_members d) (tasks d) (tags d) (task_tags d)
       (task_comments d) (task_attachments d) v.

Definition empty_db : Db := mkDb [] [] [] [] [] [] [] [].

(** ** database.py and the SQLAlchemy session

    [get_db] opens a session per request and closes it when the handler
    returns or raises. The session works on its own view of the rows;
    [db.commit()] makes the view durable, and closing the session discards
    whatever was not committed. The store may refuse a commit: [faults]
    schedules the answer to each commit in turn ([true]: accepted), and a
    schedule that has run out accepts. Attachment blobs live on the file
    system ([disk]), outside the transaction. *)

Inductive Exn : Type :=
| HTTPException (status_code : Z) (detail : string)
| AttributeError (msg : string)
| FileNotFoundError
| DBAPIError.

Inductive Outcome (A : Type) : Type :=
| Return (a : A)
| Raise (e : Exn).
Arguments Return {A} a.
Arguments Raise {A} e.

Record Session := mkSession {
  durable : Db;
  view : Db;
  disk : list string;
  faults : list bool
}.

Definition M (A : Type) : Type := Session -> Outcome A * Session.

Definition ret {A} (a : A) : M A := fun s => (Return a, s).

Definition bind {A B} (m : M A) (k : A -> M B) : M B :=
  fun s =>
    match m s with
    | (Return a, s') => k a s'
    | (Raise e, s') => (Raise e, s')
    end.

Definition raise {A} (e : Exn) : M A := fun s => (Raise e, s).

Notation "x <- m ;; k" := (bind m (fun x => k))
  (at level 61, m at next level, right associativity).
Notation "m ;;; k" := (bind m (fun _ => k))
  (at level 61, right associativity).

(** A read through the session. *)
Definition query {A} (f : Db -> A) : M A := fun s => (Return (f (view s)), s).

(** A pending write: it changes the session's view only. *)
Definition modify (f : Db -> Db) : M unit :=
  fun s => (Return tt, mkSession (durable s) (f (view s)) (disk s) (faults s)).

(** [db.commit()]. *)
Definition commit : M unit :=
  fun s =>
    match faults s with
    | false :: rest =>
        (Raise DBAPIError, mkSession (durable s) (durable s) (disk s) rest)
    | true :: rest =>
        (Return tt, mkSession (view s) (view s) (disk s) rest)
    | [] =>
        (Return tt, mkSession (view s) (view s) (disk s) [])
    end.

(** [os.remove(path)]. *)
Definition os_remove (path : string) : M unit :=
  fun s =>
    if existsb (String.eqb path) (disk s)
    then (Return tt,
          mkSession (durable s) (view s)
                    (filter (fun p => negb (path =? p)%string) (disk s))
                    (faults s))
    else (Raise FileNotFoundError, s).

(** [try: m except FileNotFoundError: pass]. *)
Definition except_FileNotFoundError_pass (m : M unit) : M unit :=
  fun s =>
    match m s with
    | (Raise FileNotFoundError, s') => (Return tt, s')
    | r => r
    end.

(** What a request leaves behind: the durable rows and the files. *)
Record World := mkWorld {
  store : Db;
  files : list string
}.

(** One HTTP request: a fresh session on the store, the handler, and the
    session closed. *)
Definition request {A} (handler : M A) (w : World) (sched : list bool)
  : Outcome A * World :=
  let '(r, s) := handler (mkSession (store w) (store w) (files w) sched) in
  (r, mkWorld (durable s) (disk s)).

(** *** Query building blocks *)

(** [query.filter(...).first()]. *)
Definition first {A} (p : A -> bool) (rows : list A) : option A := find p rows.

(** SQL's three-valued conditions: [None] is UNKNOWN. *)
Definition sql_and (a b : option bool) : option bool :=
  match a, b with
  | Some false, _ | _, Some false => Some false
  | Some true, Some true => Some true
  | _, _ => None
  end.

Definition sql_or (a b : option bool) : option bool :=
  match a, b with
  | Some true, _ | _, Some true => Some true
  | Some false, Some false => Some false
  | _, _ => None
  end.

(** [column == value], [column >= value], [column <= value] on a nullable
    column. *)
Definition sql_eq_int (col : option Z) (v : Z) : option bool :=
  option_map (fun x => x =? v) col.
Definition sql_eq_str (col : option string) (v : string) : option bool :=
  option_map (fun x => (x =? v)%string) col.
Definition sql_eq_bool (col : option bool) (v : bool) : option bool :=
  option_map (fun x => Bool.eqb x v) col.
Definition sql_ge (col : option Z) (v : Z) : option bool :=
  option_map (fun x => v <=? x) col.
Definition sql_le (col : option Z) (v : Z) : option bool :=
  option_map (fun x => x <=? v) col.

(** A WHERE clause keeps the rows on which the condition is TRUE. *)
Definition is_true_sql (c : option bool) : bool :=
  match c with
  | Some true => true
  | _ => false
  end.

Definition where_ {A} (cond : A -> option bool) (rows : list A) : list A :=
  filter (fun r => is_true_sql (cond r)) rows.

(** ORDER BY, as a stable insertion sort on a "comes no later" test. *)
Fixpoint insert_by {A} (le : A -> A -> bool) (x : A) (l : list A) : list A :=
  match l with
  | [] => [x]
  | y :: l' => if le x y then x :: l else y :: insert_by le x l'
  end.

Definition order_by {A} (le : A -> A -> bool) (rows : list A) : list A :=
  fold_right (insert_by le) [] rows.

(** Ascending order on a nullable timestamp; PostgreSQL sorts NULL last. *)
Definition nulls_last_le (a b : option Z) : bool :=
  match a, b with
  | Some x, Some y => x <=? y
  | Some _, None => true
  | None, Some _ => false
  | None, None => true
  end.

Definition nulls_last_eq (a b : option Z) : bool :=
  match a, b with
  | Some x, Some y => x =? y
  | None, None => true
  | _, _ => false
  end.

(** The primary key the store gives to a new row: one not in the table. *)
Definition next_id (ids : list Z) : Z := 1 + fold_right Z.max 0 ids.

(** The project ids of [ProjectMember] rows of a user: the subquery
    [db.query(ProjectMember.project_id).filter(ProjectMember.user_id == u)]. *)
Definition accessible_projects (db : Db) (user_id : Z) : list Z :=
  map ProjectMember.project_id
      (filter (fun m => ProjectMember.user_id m =? user_id) (project_members db)).

(** [column.in_(subquery)] on a non-null column. *)
Definition in_ (x : Z) (ids : list Z) : bool := existsb (Z.eqb x) ids.

(** The membership row of a user in a project, if any. *)
Definition membership_of (project_id user_id : Z) (db : Db)
  : option ProjectMember.t :=
  first (fun m => (ProjectMember.project_id m =? project_id)
                  && (ProjectMember.user_id m =? user_id))
        (project_members db).

(** [membership.role] where [membership] may be [None]. *)
Definition role_of (membership : option ProjectMember.t) : M string :=
  match membership with
  | Some m => ret (ProjectMember.role m)
  | None => raise (AttributeError "'NoneType' object has no attribute 'role'")
  end.

(** [task.project_id] where [task] may be [None]. *)
Definition project_id_of (task : option Task.t) : M Z :=
  match task with
  | Some t => ret (Task.project_id t)
  | None =>
      raise (AttributeError "'NoneType' object has no attribute 'project_id'")
  end.

(** ** schemas.py *)

Module ProjectCreate.
Record t := mk {
  name : string;
  description : option string;
  color : string
}.
End ProjectCreate.

Module TaskCreate.
Record t := mk {
  title : string;
  description : option string;
  assignee_id : option Z;
  priority : string;
  status : string;
  start_date : option Z;
  due_date : option Z;
  position : option Z;
  project_id : Z;
  parent_task_id : option Z
}.
End TaskCreate.

Module TaskUpdate.
Record t := mk {
  title : Field (option string);
  description : Field (option string);
  assignee_id : Field (option Z);
  priority : Field (option string);
  status : Field (option string);
  start_date : Field (option Z);
  due_date : Field (option Z);
  position : Field (option Z);
  is_archived : Field (option bool)
}.

(** One entry of [task_update.dict(exclude_unset=True)]. *)
Inductive item : Type :=
| Title (v : option string)
| Description (v : option string)
| AssigneeId (v : option Z)
| Priority (v : option string)
| Status (v : option string)
| StartDate (v : option Z)
| DueDate (v : option Z)
| Position (v : option Z)
| IsArchived (v : option bool).

Definition entry {A} (mk_item : A -> item) (f : Field A) : list item :=
  match f with
  | Unset => []
  | Provided v => [mk_item v]
  end.

(** [dict(exclude_unset=True)]: the provided fields, in declaration
    order. *)
Definition dict_exclude_unset (u : t) : list item :=
  entry Title (title u) ++ entry Description (description u)
  ++ entry AssigneeId (assignee_id u) ++ entry Priority (priority u)
  ++ entry Status (status u) ++ entry StartDate (start_date u)
  ++ entry DueDate (due_date u) ++ entry Position (position u)
  ++ entry IsArchived (is_archived u).
End TaskUpdate.

Module ProjectUpdate.
(** [name] and [color] are strings when provided: the [Project] rows of this
    development hold them as strings, so a JSON [null] for either is outside
    the model. *)
Record t := mk {
  name : Field string;
  description : Field (option string);
  color : Field string;
  is_archived : Field (option bool)
}.

(** One entry of [project_update.dict(exclude_unset=True)]. *)
Inductive item : Type :=
| Name (v : string)
| Description (v : option string)
| Color (v : string)
| IsArchived (v : option bool).

Definition entry {A} (mk_item : A -> item) (f : Field A) : list item :=
  match f with
  | Unset => []
  | Provided v => [mk_item v]
  end.

Definition dict_exclude_unset (u : t) : list item :=
  entry Name (name u) ++ entry Description (description u)
  ++ entry Color (color u) ++ entry IsArchived (is_archived u).
End ProjectUpdate.

Module ProjectMemberCreate.
Record t := mk {
  user_id : Z;
  role : string
}.
End ProjectMemberCreate.

Module TaskCommentCreate.
Record t := mk {
  content : string;
  task_id : Z
}.
End TaskCommentCreate.

Module TaskCommentUpdate.
Record t := mk {
  content : option string
}.
End TaskCommentUpdate.

Module TagCreate.
Record t := mk {
  name : string;
  color : string;
  project_id : option Z
}.
End TagCreate.

(** fastapi's [UploadFile], read in full: its name, its declared content
    type and its bytes. *)
Module UploadFile.
Record t := mk {
  filename : string;
  content_type : option string;
  content : list Byte.byte
}.
End UploadFile.

(** ** routers/tasks.py *)

Module Tasks.

Definition check_project_access (project_id user_id : Z)
  : M ProjectMember.t :=
  membership <- query (membership_of project_id user_id) ;;
  match membership with
  | None => raise (HTTPException 403 "No access to this project")
  | Some m => ret m
  end.

Definition find_task (task_id : Z) (db : Db) : option Task.t :=
  first (fun t => Task.id t =? task_id) (tasks db).

(** The UPDATE that a commit emits for a changed [Task] object: the row
    with its primary key is rewritten. *)
Definition save_task (t' : Task.t) (db : Db) : Db :=
  with_tasks
    (map (fun t => if Task.id t =? Task.id t' then t' else t) (tasks db)) db.

Definition create_task (now : Z) (task_data : TaskCreate.t)
           (current_user : Z) : M Task.t :=
  check_project_access (TaskCreate.project_id task_data) current_user ;;;
  (match TaskCreate.parent_task_id task_data with
   | Some pid =>
       if negb (pid =? 0) then
         parent_task <- query (find_task pid) ;;
         match parent_task with
         | None =>
             raise (HTTPException 400
                      "Parent task not found or not in the same project")
         | Some p =>
             if negb (Task.project_id p =? TaskCreate.project_id task_data)
             then raise (HTTPException 400
                      "Parent task not found or not in the same project")
             else ret tt
         end
       else ret tt
   | None => ret tt
   end) ;;;
  (match TaskCreate.assignee_id task_data with
   | Some a =>
       if negb (a =? 0)
       then check_project_access (TaskCreate.project_id task_data) a ;;;
            ret tt
       else ret tt
   | None => ret tt
   end) ;;;
  db_task <- query (fun db =>
    Task.mk (next_id (map Task.id (tasks db)))
            (Some (TaskCreate.title task_data))
            (TaskCreate.description task_data)
            (TaskCreate.project_id task_data)
            (TaskCreate.parent_task_id task_data)
            (TaskCreate.assignee_id task_data)
            current_user
            (Some (TaskCreate.priority task_data))
            (TaskCreate.status task_data)
            (TaskCreate.start_date task_data)
            (TaskCreate.due_date task_data)
            None
            (TaskCreate.position task_data)
            (Some false)
            now now) ;;
  modify (fun db => with_tasks (tasks db ++ [db_task]) db) ;;;
  commit ;;;
  ret db_task.

(** The filters of [get_tasks] after the project filter, each applied
    when its query parameter is truthy. *)
Definition optional_filters (assignee_id : option Z)
           (status priority : option string) (parent_task_id : option Z)
           (rows : list Task.t) : list Task.t :=
  let rows :=
    match assignee_id with
    | Some a =>
        if negb (a =? 0)
        then where_ (fun t => sql_eq_int (Task.assignee_id t) a) rows
        else rows
    | None => rows
    end in
  let rows :=
    match status with
    | Some s =>
        if negb (s =? "")%string
        then where_ (fun t => Some (Task.status t =? s)%string) rows
        else rows
    | None => rows
    end in
  let rows :=
    match priority with
    | Some p =>
        if negb (p =? "")%string
        then where_ (fun t => sql_eq_str (Task.priority t) p) rows
        else rows
    | None => rows
    end in
  match parent_task_id with
  | Some p =>
      if negb (p =? 0)
      then where_ (fun t => sql_eq_int (Task.parent_task_id t) p) rows
      else rows
  | None => rows
  end.

Definition created_at_desc (a b : Task.t) : bool :=
  Task.created_at b <=? Task.created_at a.

Definition get_tasks (project_id assignee_id : option Z)
           (status priority : option string) (parent_task_id : option Z)
           (current_user : Z) : M (list Task.t) :=
  rows <-
    (match project_id with
     | Some pid =>
         if negb (pid =? 0) then
           check_project_access pid current_user ;;;
           query (fun db =>
                    where_ (fun t => Some (Task.project_id t =? pid))
                           (tasks db))
         else
           query (fun db =>
                    where_ (fun t => Some (in_ (Task.project_id t)
                                  (accessible_projects db current_user)))
                           (tasks db))
     | None =>
         query (fun db =>
                  where_ (fun t => Some (in_ (Task.project_id t)
                                (accessible_projects db current_user)))
                         (tasks db))
     end) ;;
  let rows := optional_filters assignee_id status priority parent_task_id
                               rows in
  let rows := where_ (fun t => sql_eq_bool (Task.is_archived t) false) rows in
  ret (order_by created_at_desc rows).

Definition get_task (task_id : Z) (current_user : Z) : M Task.t :=
  task <- query (find_task task_id) ;;
  match task with
  | None => raise (HTTPException 404 "Task not found")
  | Some task =>
      check_project_access (Task.project_id task) current_user ;;;
      ret task
  end.

(** Lines 156-159: the completion timestamp. *)
Definition stamp_completed_at (now : Z) (new_status : option string)
           (task : Task.t) : Task.t :=
  if py_eq_str new_status "done" && negb (Task.status task =? "done")%string
  then Task.set_completed_at (Some now) task
  else if negb (py_eq_str new_status "done")
          && (Task.status task =? "done")%string
  then Task.set_completed_at None task
  else task.

(** Lines 163-165: [setattr(task, field, value)] unless the field is
    [status]. *)
Definition apply_item (task : Task.t) (it : TaskUpdate.item) : Task.t :=
  match it with
  | TaskUpdate.Status _ => task
  | TaskUpdate.Title v => Task.set_title v task
  | TaskUpdate.Description v => Task.set_description v task
  | TaskUpdate.AssigneeId v => Task.set_assignee_id v task
  | TaskUpdate.Priority v => Task.set_priority v task
  | TaskUpdate.StartDate v => Task.set_start_date v task
  | TaskUpdate.DueDate v => Task.set_due_date v task
  | TaskUpdate.Position v => Task.set_position v task
  | TaskUpdate.IsArchived v => Task.set_is_archived v task
  end.

(** Lines 167-168: the new status, when truthy. *)
Definition apply_status (new_status : option string) (task : Task.t)
  : Task.t :=
  match new_status with
  | Some s => if negb (s =? "")%string then Task.set_status s task else task
  | None => task
  end.

(** Lines 155-168 on the loaded object. *)
Definition apply_update (now : Z) (task_update : TaskUpdate.t)
           (task : Task.t) : Task.t :=
  let new_status := field_value (TaskUpdate.status task_update) in
  let task := stamp_completed_at now new_status task in
  let task := fold_left apply_item
                        (TaskUpdate.dict_exclude_unset task_update) task in
  apply_status new_status task.

Definition update_task (now : Z) (task_id : Z) (task_update : TaskUpdate.t)
           (current_user : Z) : M Task.t :=
  task <- query (find_task task_id) ;;
  match task with
  | None => raise (HTTPException 404 "Task not found")
  | Some task =>
      check_project_access (Task.project_id task) current_user ;;;
      (match field_value (TaskUpdate.assignee_id task_update) with
       | Some a =>
           if negb (a =? 0)
           then check_project_access (Task.project_id task) a ;;; ret tt
           else ret tt
       | None => ret tt
       end) ;;;
      let task := apply_update now task_update task in
      modify (save_task task) ;;;
      commit ;;;
      ret task
  end.

Definition delete_task (task_id : Z) (current_user : Z) : M string :=
  task <- query (find_task task_id) ;;
  match task with
  | None => raise (HTTPException 404 "Task not found")
  | Some task =>
      check_project_access (Task.project_id task) current_user ;;;
      membership <- query (membership_of (Task.project_id task)
                                         current_user) ;;
      denied <-
        (if negb (Task.creator_id task =? current_user)
         then role <- role_of membership ;;
              ret (negb (py_in role ["owner"; "admin"]))
         else ret false) ;;
      if denied : bool
      then raise (HTTPException 403
                    "Insufficient permissions to delete this task")
      else
        modify (save_task (Task.set_is_archived (Some true) task)) ;;;
        commit ;;;
        ret "Task archived successfully"
  end.

(** The date condition of [get_calendar_tasks], lines 252-256. *)
Definition calendar_condition (start_date end_date : Z) (t : Task.t)
  : option bool :=
  sql_or
    (sql_or
       (sql_and (sql_ge (Task.start_date t) start_date)
                (sql_le (Task.start_date t) end_date))
       (sql_and (sql_ge (Task.due_date t) start_date)
                (sql_le (Task.due_date t) end_date)))
    (sql_and (sql_le (Task.start_date t) start_date)
             (sql_ge (Task.due_date t) end_date)).

Definition start_then_due (a b : Task.t) : bool :=
  if nulls_last_eq (Task.start_date a) (Task.start_date b)
  then nulls_last_le (Task.due_date a) (Task.due_date b)
  else nulls_last_le (Task.start_date a) (Task.start_date b).

Definition get_calendar_tasks (start_date end_date : Z) (current_user : Z)
  : M (list Task.t) :=
  rows <- query (fun db =>
    where_ (fun t =>
              sql_and
                (sql_and
                   (Some (in_ (Task.project_id t)
                              (accessible_projects db current_user)))
                   (sql_eq_bool (Task.is_archived t) false))
                (calendar_condition start_date end_date t))
           (tasks db)) ;;
  ret (order_by start_then_due rows).


(** ORDER BY position, created_at of [get_subtasks]. *)
Definition position_then_created (a b : Task.t) : bool :=
  if nulls_last_eq (Task.position a) (Task.position b)
  then Task.created_at a <=? Task.created_at b
  else nulls_last_le (Task.position a) (Task.position b).

Definition get_subtasks (task_id : Z) (current_user : Z)
  : M (list Task.t) :=
  parent_task <- query (find_task task_id) ;;
  match parent_task with
  | None => raise (HTTPException 404 "Parent task not found")
  | Some parent_task =>
      check_project_access (Task.project_id parent_task) current_user ;;;
      rows <- query (fun db =>
        where_ (fun t =>
                  sql_and (sql_eq_int (Task.parent_task_id t) task_id)
                          (sql_eq_bool (Task.is_archived t) false))
               (tasks db)) ;;
      ret (order_by position_then_created rows)
  end.

End Tasks.

(** ** main.py and the route table of routers/tasks.py

    [app.include_router(tasks.router, prefix="/api/v1")] adds the routes of
    [APIRouter(prefix="/tasks")] to the application, in the order of their
    decorators. Starlette hands a request to the first route whose path
    pattern and method both match. A path parameter [{name}] matches one
    non-empty segment without a slash, whatever type the handler declares
    for it; FastAPI then converts the matched text to the declared type and
    answers 422 when that fails, without calling the handler and without
    trying a later route. The requests are those of an authenticated user:
    the dependency [get_current_user] has passed. *)

Module Router.

Inductive Endpoint : Type :=
| create_task
| get_tasks
| get_task
| update_task
| delete_task
| get_subtasks
| get_calendar_tasks.

Record Route : Type := mkRoute {
  method : string;
  path : string;
  endpoint : Endpoint
}.

(** [APIRouter(prefix="/tasks")] under [prefix="/api/v1"]. *)
Definition prefix : string := "/api/v1" ++ "/tasks".

(** The decorators of tasks.py, lines 26, 70, 112, 132, 175, 210 and 235,
    in that order. *)
Definition routes : list Route :=
  [ mkRoute "POST" "" create_task;
    mkRoute "GET" "" get_tasks;
    mkRoute "GET" "/{task_id}" get_task;
    mkRoute "PUT" "/{task_id}" update_task;
    mkRoute "DELETE" "/{task_id}" delete_task;
    mkRoute "GET" "/{task_id}/subtasks" get_subtasks;
    mkRoute "GET" "/calendar" get_calendar_tasks ].

(** The pieces of a path between its slashes. *)
Fixpoint segments (s : string) : list string :=
  match s with
  | EmptyString => [EmptyString]
  | String c rest =>
      if Ascii.eqb c "/"%char
      then EmptyString :: segments rest
      else match segments rest with
           | seg :: segs => String c seg :: segs
           | [] => [String c EmptyString]
           end
  end.

(** [name] when the text is [name}]. *)
Fixpoint before_closing_brace (s : string) : option string :=
  match s with
  | EmptyString => None
  | String c EmptyString =>
      if Ascii.eqb c "}"%char then Some EmptyString else None
  | String c rest => option_map (String c) (before_closing_brace rest)
  end.

(** [name] when a piece of a route's path is the parameter [{name}]. *)
Definition param_name (piece : string) : option string :=
  match piece with
  | String c rest =>
      if Ascii.eqb c "{"%char then before_closing_brace rest else None
  | EmptyString => None
  end.

(** The regular expression Starlette compiles a route's path to: a literal
    piece matches itself, [{name}] matches [[^/]+]; the whole path must
    match. The result is the text of each parameter. *)
Fixpoint match_path (pattern request_path : list string)
  : option (list (string * string)) :=
  match pattern, request_path with
  | [], [] => Some []
  | piece :: pattern', seg :: request_path' =>
      match param_name piece with
      | Some name =>
          if (seg =? "")%string then None
          else option_map (cons (name, seg))
                          (match_path pattern' request_path')
      | None =>
          if (piece =? seg)%string
          then match_path pattern' request_path'
          else None
      end
  | _, _ => None
  end.

Definition path_params (r : Route) (request_path : string)
  : option (list (string * string)) :=
  match_path (segments (prefix ++ path r)) (segments request_path).

(** [Match.FULL]: the path and the method match. *)
Definition full_match (request_method request_path : string) (r : Route)
  : bool :=
  match path_params r request_path with
  | Some _ => (method r =? request_method)%string
  | None => false
  end.

(** [Match.PARTIAL] or [Match.FULL]: the path matches. *)
Definition path_match (request_path : string) (r : Route) : bool :=
  match path_params r request_path with
  | Some _ => true
  | None => false
  end.

(** The value of a path parameter declared [int]: decimal digits after an
    optional sign. (The validator also takes digits written with
    surrounding white space or with underscores between them; a text with
    a letter in it is refused either way.) *)
Definition int_of_str (s : string) : option Z :=
  match s with
  | String "+"%char rest => option_map Z.of_uint (NilZero.uint_of_string rest)
  | String "-"%char rest =>
      option_map (fun u => - Z.of_uint u) (NilZero.uint_of_string rest)
  | _ => option_map Z.of_uint (NilZero.uint_of_string s)
  end.

(** The parameters whose text is not an [int]. *)
Definition invalid_params (params : list (string * string))
  : list (string * string) :=
  filter (fun p => match int_of_str (snd p) with
                   | Some _ => false
                   | None => true
                   end) params.

Definition int_params (params : list (string * string))
  : list (string * Z) :=
  map (fun p => (fst p, match int_of_str (snd p) with
                        | Some n => n
                        | None => 0
                        end)) params.

(** What becomes of a request. *)
Inductive Routed : Type :=
| Call (e : Endpoint) (params : list (string * Z))
| RequestValidationError (e : Endpoint) (errors : list (string * string))
| MethodNotAllowed
| Unmatched.

(** The first fully matching route takes the request: its handler is called
    with the converted path parameters, or the request is answered 422.
    Without one, a route matching the path alone answers 405. A path that
    matches no route is not for these handlers: the application redirects
    it to the path with or without a final slash when that one matches, and
    answers 404 otherwise. *)
Definition dispatch (request_method request_path : string) : Routed :=
  match find (full_match request_method request_path) routes with
  | Some r =>
      match path_params r request_path with
      | Some params =>
          match invalid_params params with
          | [] => Call (endpoint r) (int_params params)
          | errors => RequestValidationError (endpoint r) errors
          end
      | None => Unmatched
      end
  | None =>
      if existsb (path_match request_path) routes
      then MethodNotAllowed
      else Unmatched
  end.

End Router.

(** ** routers/projects.py *)

Module Projects.

Definition create_project (now : Z) (project_data : ProjectCreate.t)
           (current_user : Z) : M Project.t :=
  db_project <- query (fun db =>
    Project.mk (next_id (map Project.id (projects db)))
               (ProjectCreate.name project_data)
               (ProjectCreate.description project_data)
               (ProjectCreate.color project_data)
               current_user
               (Some false)
               now now) ;;
  modify (fun db => with_projects (projects db ++ [db_project]) db) ;;;
  commit ;;;
  db_member <- query (fun db =>
    ProjectMember.mk (next_id (map ProjectMember.id (project_members db)))
                     (Project.id db_project)
                     current_user
                     "owner"
                     now) ;;
  modify (fun db =>
            with_project_members (project_members db ++ [db_member]) db) ;;;
  commit ;;;
  ret db_project.


Definition find_project (project_id : Z) (db : Db) : option Project.t :=
  first (fun p => Project.id p =? project_id) (projects db).

(** The UPDATE for a changed [Project] object. *)
Definition save_project (p' : Project.t) (db : Db) : Db :=
  with_projects
    (map (fun p => if Project.id p =? Project.id p' then p' else p)
         (projects db)) db.

(** The membership query of [update_project] and [add_project_member]:
    the row of the user in the project with role owner or admin. *)
Definition admin_membership_of (project_id user_id : Z) (db : Db)
  : option ProjectMember.t :=
  first (fun m => (ProjectMember.project_id m =? project_id)
                  && (ProjectMember.user_id m =? user_id)
                  && py_in (ProjectMember.role m) ["owner"; "admin"])
        (project_members db).

(** [db.query(Project).join(ProjectMember).filter(...)]: the join is on the
    foreign key [project_members.project_id], and the query returns each
    [Project] object once, so a project is kept when some membership row of
    the user joins it. *)
Definition get_user_projects (current_user : Z) : M (list Project.t) :=
  query (fun db =>
    where_ (fun p =>
              sql_and
                (Some (existsb
                         (fun m => (ProjectMember.project_id m =? Project.id p)
                                   && (ProjectMember.user_id m =? current_user))
                         (project_members db)))
                (sql_eq_bool (Project.is_archived p) false))
           (projects db)).

Definition get_project (project_id : Z) (current_user : Z) : M Project.t :=
  project <- query (find_project project_id) ;;
  match project with
  | None => raise (HTTPException 404 "Project not found")
  | Some project =>
      membership <- query (membership_of project_id current_user) ;;
      match membership with
      | None => raise (HTTPException 403 "Not a member of this project")
      | Some _ => ret project
      end
  end.

(** [setattr(project, field, value)]. *)
Definition apply_item (project : Project.t) (it : ProjectUpdate.item)
  : Project.t :=
  match it with
  | ProjectUpdate.Name v => Project.set_name v project
  | ProjectUpdate.Description v => Project.set_description v project
  | ProjectUpdate.Color v => Project.set_color v project
  | ProjectUpdate.IsArchived v => Project.set_is_archived v project
  end.

Definition update_project (project_id : Z) (project_update : ProjectUpdate.t)
           (current_user : Z) : M Project.t :=
  project <- query (find_project project_id) ;;
  match project with
  | None => raise (HTTPException 404 "Project not found")
  | Some project =>
      membership <- query (admin_membership_of project_id current_user) ;;
      match membership with
      | None => raise (HTTPException 403 "Insufficient permissions")
      | Some _ =>
          let project :=
            fold_left apply_item
                      (ProjectUpdate.dict_exclude_unset project_update)
                      project in
          modify (save_project project) ;;;
          commit ;;;
          ret project
      end
  end.

Definition delete_project (project_id : Z) (current_user : Z) : M string :=
  project <- query (find_project project_id) ;;
  match project with
  | None => raise (HTTPException 404 "Project not found")
  | Some project =>
      if negb (Project.owner_id project =? current_user)
      then raise (HTTPException 403
                    "Only project owner can delete the project")
      else
        modify (save_project (Project.set_is_archived (Some true) project)) ;;;
        commit ;;;
        ret "Project archived successfully"
  end.

(** [users] is the users table, which the handler only reads. *)
Definition add_project_member (users : list User.t) (now : Z)
           (project_id : Z) (member_data : ProjectMemberCreate.t)
           (current_user : Z) : M ProjectMember.t :=
  project <- query (find_project project_id) ;;
  match project with
  | None => raise (HTTPException 404 "Project not found")
  | Some _ =>
      membership <- query (admin_membership_of project_id current_user) ;;
      match membership with
      | None => raise (HTTPException 403 "Insufficient permissions")
      | Some _ =>
          existing_member <-
            query (membership_of project_id
                                 (ProjectMemberCreate.user_id member_data)) ;;
          match existing_member with
          | Some _ => raise (HTTPException 400 "User is already a member")
          | None =>
              match first (fun u => User.id u
                                    =? ProjectMemberCreate.user_id member_data)
                          users with
              | None => raise (HTTPException 404 "User not found")
              | Some _ =>
                  db_member <- query (fun db =>
                    ProjectMember.mk
                      (next_id (map ProjectMember.id (project_members db)))
                      project_id
                      (ProjectMemberCreate.user_id member_data)
                      (ProjectMemberCreate.role member_data)
                      now) ;;
                  modify (fun db =>
                    with_project_members (project_members db ++ [db_member])
                                         db) ;;;
                  commit ;;;
                  ret db_member
              end
          end
      end
  end.

Definition get_project_members (project_id : Z) (current_user : Z)
  : M (list ProjectMember.t) :=
  membership <- query (membership_of project_id current_user) ;;
  match membership with
  | None => raise (HTTPException 403 "Not a member of this project")
  | Some _ =>
      query (fun db =>
               where_ (fun m => Some (ProjectMember.project_id m =? project_id))
                      (project_members db))
  end.

End Projects.

(** ** routers/comments.py *)

Module Comments.

Definition find_comment (comment_id : Z) (db : Db) : option TaskComment.t :=
  first (fun c => TaskComment.id c =? comment_id) (task_comments db).

Definition find_attachment (attachment_id : Z) (db : Db)
  : option TaskAttachment.t :=
  first (fun a => TaskAttachment.id a =? attachment_id)
        (task_attachments db).

(** The DELETE that a commit emits for [db.delete(comment)]. *)
Definition drop_comment (c : TaskComment.t) (db : Db) : Db :=
  with_task_comments
    (filter (fun x => negb (TaskComment.id x =? TaskComment.id c))
            (task_comments db)) db.

Definition drop_attachment (a : TaskAttachment.t) (db : Db) : Db :=
  with_task_attachments
    (filter (fun x => negb (TaskAttachment.id x =? TaskAttachment.id a))
            (task_attachments db)) db.

(** [owner_id != current_user.id and membership.role not in
    ["owner", "admin"]], left to right with Python's short-circuit. *)
Definition not_owner_nor_admin (owner_id current_user : Z)
           (membership : option ProjectMember.t) : M bool :=
  if negb (owner_id =? current_user)
  then role <- role_of membership ;;
       ret (negb (py_in role ["owner"; "admin"]))
  else ret false.

Definition delete_comment (comment_id : Z) (current_user : Z) : M string :=
  comment <- query (find_comment comment_id) ;;
  match comment with
  | None => raise (HTTPException 404 "Comment not found")
  | Some comment =>
      task <- query (Tasks.find_task (TaskComment.task_id comment)) ;;
      project_id <- project_id_of task ;;
      membership <- query (membership_of project_id current_user) ;;
      denied <- not_owner_nor_admin (TaskComment.user_id comment)
                                    current_user membership ;;
      if denied : bool
      then raise (HTTPException 403
                    "Insufficient permissions to delete this comment")
      else
        modify (drop_comment comment) ;;;
        commit ;;;
        ret "Comment deleted successfully"
  end.

Definition delete_attachment (attachment_id : Z) (current_user : Z)
  : M string :=
  attachment <- query (find_attachment attachment_id) ;;
  match attachment with
  | None => raise (HTTPException 404 "Attachment not found")
  | Some attachment =>
      task <- query (Tasks.find_task (TaskAttachment.task_id attachment)) ;;
      project_id <- project_id_of task ;;
      membership <- query (membership_of project_id current_user) ;;
      denied <- not_owner_nor_admin (TaskAttachment.user_id attachment)
                                    current_user membership ;;
      if denied : bool
      then raise (HTTPException 403
                    "Insufficient permissions to delete this attachment")
      else
        except_FileNotFoundError_pass
          (os_remove (TaskAttachment.file_path attachment)) ;;;
        modify (drop_attachment attachment) ;;;
        commit ;;;
        ret "Attachment deleted successfully"
  end.


Definition check_task_access (task_id user_id : Z) : M Task.t :=
  task <- query (Tasks.find_task task_id) ;;
  match task with
  | None => raise (HTTPException 404 "Task not found")
  | Some task =>
      membership <- query (membership_of (Task.project_id task) user_id) ;;
      match membership with
      | None => raise (HTTPException 403 "No access to this task")
      | Some _ => ret task
      end
  end.

(** The UPDATE for a changed [TaskComment] object. *)
Definition save_comment (c' : TaskComment.t) (db : Db) : Db :=
  with_task_comments
    (map (fun c => if TaskComment.id c =? TaskComment.id c' then c' else c)
         (task_comments db)) db.

Definition create_comment (now : Z) (comment_data : TaskCommentCreate.t)
           (current_user : Z) : M TaskComment.t :=
  check_task_access (TaskCommentCreate.task_id comment_data) current_user ;;;
  db_comment <- query (fun db =>
    TaskComment.mk (next_id (map TaskComment.id (task_comments db)))
                   (TaskCommentCreate.task_id comment_data)
                   current_user
                   (TaskCommentCreate.content comment_data)
                   (Some false)
                   now now) ;;
  modify (fun db => with_task_comments (task_comments db ++ [db_comment]) db) ;;;
  commit ;;;
  ret db_comment.

Definition comment_created_at_asc (a b : TaskComment.t) : bool :=
  TaskComment.created_at a <=? TaskComment.created_at b.

Definition get_task_comments (task_id : Z) (current_user : Z)
  : M (list TaskComment.t) :=
  check_task_access task_id current_user ;;;
  rows <- query (fun db =>
    where_ (fun c => Some (TaskComment.task_id c =? task_id))
           (task_comments db)) ;;
  ret (order_by comment_created_at_asc rows).

(** Lines 99-101: a truthy new content replaces the old one and marks the
    comment as edited. *)
Definition apply_comment_update (comment_update : TaskCommentUpdate.t)
           (comment : TaskComment.t) : TaskComment.t :=
  match TaskCommentUpdate.content comment_update with
  | Some s =>
      if negb (s =? "")%string
      then TaskComment.set_is_edited (Some true)
             (TaskComment.set_content s comment)
      else comment
  | None => comment
  end.

Definition update_comment (comment_id : Z)
           (comment_update : TaskCommentUpdate.t) (current_user : Z)
  : M TaskComment.t :=
  comment <- query (find_comment comment_id) ;;
  match comment with
  | None => raise (HTTPException 404 "Comment not found")
  | Some comment =>
      if negb (TaskComment.user_id comment =? current_user)
      then raise (HTTPException 403 "Only comment author can edit")
      else
        check_task_access (TaskComment.task_id comment) current_user ;;;
        let comment := apply_comment_update comment_update comment in
        modify (save_comment comment) ;;;
        commit ;;;
        ret comment
  end.

(** [max_file_size], line 154. *)
Definition max_file_size : Z := 10 * 1024 * 1024.

(** [open(file_path, "wb")] and the write: the file exists afterwards. *)
Definition write_file (path : string) : M unit :=
  fun s =>
    (Return tt,
     mkSession (durable s) (view s)
               (if existsb (String.eqb path) (disk s)
                then disk s
                else disk s ++ [path])
               (faults s)).

(** [uuid] is the text of [uuid.uuid4()] and [file_extension] the value of
    [Path(file.filename).suffix]; both come from the libraries. *)
Definition upload_attachment (now : Z) (uuid file_extension : string)
           (task_id : Z) (file : UploadFile.t) (current_user : Z)
  : M TaskAttachment.t :=
  check_task_access task_id current_user ;;;
  let file_content := UploadFile.content file in
  if max_file_size <? Z.of_nat (List.length file_content)
  then raise (HTTPException 413 "File size too large. Maximum size is 10MB.")
  else
    let unique_filename := (uuid ++ file_extension)%string in
    let file_path := ("uploads/attachments/" ++ unique_filename)%string in
    write_file file_path ;;;
    db_attachment <- query (fun db =>
      TaskAttachment.mk
        (next_id (map TaskAttachment.id (task_attachments db)))
        task_id
        current_user
        unique_filename
        (UploadFile.filename file)
        file_path
        (Z.of_nat (List.length file_content))
        (UploadFile.content_type file)
        now) ;;
    modify (fun db =>
      with_task_attachments (task_attachments db ++ [db_attachment]) db) ;;;
    commit ;;;
    ret db_attachment.

Definition attachment_created_at_asc (a b : TaskAttachment.t) : bool :=
  TaskAttachment.created_at a <=? TaskAttachment.created_at b.

Definition get_task_attachments (task_id : Z) (current_user : Z)
  : M (list TaskAttachment.t) :=
  check_task_access task_id current_user ;;;
  rows <- query (fun db =>
    where_ (fun a => Some (TaskAttachment.task_id a =? task_id))
           (task_attachments db)) ;;
  ret (order_by attachment_created_at_asc rows).

End Comments.

(** ** routers/tags.py *)

Module Tags.

Definition find_tag (tag_id : Z) (db : Db) : option Tag.t :=
  first (fun t => Tag.id t =? tag_id) (tags db).

(** The DELETE for [db.delete(tag)]. The handler reaches it only when no
    [TaskTag] row refers to the tag, so the foreign key of
    [task_tags.tag_id] has no row to act on. *)
Definition drop_tag (t : Tag.t) (db : Db) : Db :=
  with_tags (filter (fun x => negb (Tag.id x =? Tag.id t)) (tags db)) db.

(** [db.query(TaskTag).filter(TaskTag.tag_id == tag_id).count()]. *)
Definition usage_count (tag_id : Z) (db : Db) : nat :=
  List.length (where_ (fun r => Some (TaskTag.tag_id r =? tag_id))
                      (task_tags db)).

(** [not membership or membership.role not in ["owner", "admin"]]. *)
Definition no_admin_membership (membership : option ProjectMember.t)
  : bool :=
  match membership with
  | None => true
  | Some m => negb (py_in (ProjectMember.role m) ["owner"; "admin"])
  end.

(** Lines 157-175: the permission check of [delete_tag]. *)
Definition check_delete_permission (tag : Tag.t) (current_user : Z)
  : M unit :=
  match Tag.project_id tag with
  | Some pid =>
      if negb (pid =? 0) then
        membership <- query (membership_of pid current_user) ;;
        if negb (Tag.created_by tag =? current_user)
           && no_admin_membership membership
        then raise (HTTPException 403
                      "Insufficient permissions to delete this tag")
        else ret tt
      else
        if negb (Tag.created_by tag =? current_user)
        then raise (HTTPException 403
                      "Only tag creator can delete this tag")
        else ret tt
  | None =>
      if negb (Tag.created_by tag =? current_user)
      then raise (HTTPException 403 "Only tag creator can delete this tag")
      else ret tt
  end.

(** The f-string of line 182. *)
Definition in_use_detail (n : nat) : string :=
  ("Tag is being used by " ++ py_str_of_nat n
     ++ " task(s). Cannot delete.")%string.

Definition delete_tag (tag_id : Z) (current_user : Z) : M string :=
  tag <- query (find_tag tag_id) ;;
  match tag with
  | None => raise (HTTPException 404 "Tag not found")
  | Some tag =>
      check_delete_permission tag current_user ;;;
      n <- query (usage_count tag_id) ;;
      if (0 <? n)%nat
      then raise (HTTPException 400 (in_use_detail n))
      else
        modify (drop_tag tag) ;;;
        commit ;;;
        ret "Tag deleted successfully"
  end.

(** The UPDATE for a changed [Notification] object. *)
Definition save_notification (n' : Notification.t) (db : Db) : Db :=
  with_notifications
    (map (fun n => if Notification.id n =? Notification.id n' then n' else n)
         (notifications db)) db.

Definition mark_notification_read (notification_id : Z) (current_user : Z)
  : M string :=
  notification <- query (fun db =>
    first (fun n => (Notification.id n =? notification_id)
                    && (Notification.user_id n =? current_user))
          (notifications db)) ;;
  match notification with
  | None => raise (HTTPException 404 "Notification not found")
  | Some notification =>
      modify (save_notification
                (Notification.set_is_read (Some true) notification)) ;;;
      commit ;;;
      ret "Notification marked as read"
  end.

(** The rows selected by the bulk UPDATE of [mark_all_notifications_read]:
    [user_id == current_user.id AND is_read == False]. *)
Definition unread_of (current_user : Z) (n : Notification.t) : bool :=
  is_true_sql
    (sql_and (Some (Notification.user_id n =? current_user))
             (sql_eq_bool (Notification.is_read n) false)).

Definition mark_all_rows (current_user : Z) (rows : list Notification.t)
  : list Notification.t :=
  map (fun n => if unread_of current_user n
                then Notification.set_is_read (Some true) n
                else n) rows.

Definition mark_all_notifications_read (current_user : Z) : M string :=
  modify (fun db =>
            with_notifications
              (mark_all_rows current_user (notifications db)) db) ;;;
  commit ;;;
  ret "All notifications marked as read".


(** [Tag.project_id == value]: SQLAlchemy writes [IS NULL] when the value
    is [None], and an equality otherwise. *)
Definition project_id_is (col : option Z) (value : option Z) : option bool :=
  match value with
  | None => Some (match col with None => true | Some _ => false end)
  | Some v => sql_eq_int col v
  end.

(** [column.is_(None)]. *)
Definition is_null (col : option Z) : option bool :=
  Some (match col with None => true | Some _ => false end).

(** [column.in_(subquery)] on a nullable column. *)
Definition sql_in (col : option Z) (ids : list Z) : option bool :=
  option_map (fun x => in_ x ids) col.

Definition create_tag (now : Z) (tag_data : TagCreate.t) (current_user : Z)
  : M Tag.t :=
  (match TagCreate.project_id tag_data with
   | Some pid =>
       if negb (pid =? 0) then
         membership <- query (membership_of pid current_user) ;;
         match membership with
         | None => raise (HTTPException 403 "No access to this project")
         | Some _ => ret tt
         end
       else ret tt
   | None => ret tt
   end) ;;;
  existing_tag <- query (fun db =>
    first (fun t =>
             is_true_sql
               (sql_and (Some (Tag.name t =? TagCreate.name tag_data)%string)
                        (project_id_is (Tag.project_id t)
                                       (TagCreate.project_id tag_data))))
          (tags db)) ;;
  match existing_tag with
  | Some _ =>
      raise (HTTPException 400
               "Tag with this name already exists in this project")
  | None =>
      db_tag <- query (fun db =>
        Tag.mk (next_id (map Tag.id (tags db)))
               (TagCreate.name tag_data)
               (TagCreate.color tag_data)
               (TagCreate.project_id tag_data)
               current_user
               now) ;;
      modify (fun db => with_tags (tags db ++ [db_tag]) db) ;;;
      commit ;;;
      ret db_tag
  end.

Definition name_asc (a b : Tag.t) : bool := String.leb (Tag.name a) (Tag.name b).

(** The tags of the user's projects and the global ones: the [else] branch
    of [get_tags]. *)
Definition accessible_tags (current_user : Z) (db : Db) : list Tag.t :=
  where_ (fun t => sql_or (sql_in (Tag.project_id t)
                                  (accessible_projects db current_user))
                          (is_null (Tag.project_id t)))
         (tags db).

Definition get_tags (project_id : option Z) (current_user : Z)
  : M (list Tag.t) :=
  rows <-
    (match project_id with
     | Some pid =>
         if negb (pid =? 0) then
           membership <- query (membership_of pid current_user) ;;
           match membership with
           | None => raise (HTTPException 403 "No access to this project")
           | Some _ =>
               query (fun db =>
                 where_ (fun t => sql_or (sql_eq_int (Tag.project_id t) pid)
                                         (is_null (Tag.project_id t)))
                        (tags db))
           end
         else query (accessible_tags current_user)
     | None => query (accessible_tags current_user)
     end) ;;
  ret (order_by name_asc rows).

Definition notification_created_at_desc (a b : Notification.t) : bool :=
  Notification.created_at b <=? Notification.created_at a.

Definition get_notifications (unread_only : bool) (current_user : Z)
  : M (list Notification.t) :=
  rows <- query (fun db =>
    where_ (fun n => Some (Notification.user_id n =? current_user))
           (notifications db)) ;;
  let rows :=
    if unread_only
    then where_ (fun n => sql_eq_bool (Notification.is_read n) false) rows
    else rows in
  ret (order_by notification_created_at_desc rows).

End Tags.

(** ** Vocabulary of the properties *)

(** A request with no refused commit. *)
Definition run {A} (handler : M A) (w : World) : Outcome A * World :=
  request handler w [].

(** The assignee check of [update_task], lines 152-153, passes. *)
Definition assignee_accepted (u : TaskUpdate.t) (t : Task.t) (db : Db)
  : Prop :=
  match field_value (TaskUpdate.assignee_id u) with
  | Some a => a = 0 \/ membership_of (Task.project_id t) a db <> None
  | None => True
  end.

(** The PUT body [{"is_archived": true}]: one field provided. *)
Definition archive_body : TaskUpdate.t :=
  TaskUpdate.mk Unset Unset Unset Unset Unset Unset Unset Unset
                (Provided (Some true)).

(** The data-model invariant on a task: done exactly when stamped. *)
Definition done_iff_completed (t : Task.t) : Prop :=
  Task.status t = "done" <-> Task.completed_at t <> None.

(** The foreign key of [project_members.project_id]: every membership row
    refers to a stored project. *)
Definition members_reference_projects (db : Db) : Prop :=
  forall m, In m (project_members db) ->
            In (ProjectMember.project_id m) (map Project.id (projects db)).

(** The membership rows of a project. *)
Definition members_in (project_id : Z) (db : Db) : list ProjectMember.t :=
  filter (fun m => ProjectMember.project_id m =? project_id)
         (project_members db).

(** The store's answer to the n-th commit of a request (counted from 0). *)
Definition accepted (sched : list bool) (n : nat) : bool := nth n sched true.

(** Atomic creation, between the store before and after the request:
    either nothing was added, or one project and one owner membership of
    its creator were. *)
Definition both_or_neither (creator : Z) (before after : Db) : Prop :=
  (projects after = projects before
   /\ project_members after = project_members before)
  \/ (exists p m,
         projects after = projects before ++ [p]
         /\ project_members after = project_members before ++ [m]
         /\ ProjectMember.project_id m = Project.id p
         /\ ProjectMember.user_id m = creator
         /\ ProjectMember.role m = "owner").

(** The rows that [create_project] builds on a store. *)
Definition new_project_row (now : Z) (data : ProjectCreate.t) (creator : Z)
           (db : Db) : Project.t :=
  Project.mk (next_id (map Project.id (projects db)))
             (ProjectCreate.name data) (ProjectCreate.description data)
             (ProjectCreate.color data) creator (Some false) now now.

Definition owner_row (now : Z) (project_id creator : Z) (db : Db)
  : ProjectMember.t :=
  ProjectMember.mk (next_id (map ProjectMember.id (project_members db)))
                   project_id creator "owner" now.

(** What Python raises for [membership.role] when [membership] is [None]. *)
Definition role_of_None : Exn :=
  AttributeError "'NoneType' object has no attribute 'role'".

(** The delete rule for comments and attachments in the policy's words:
    allow iff the actor is the author, or holds role owner or admin. *)
Definition allowed_to_delete (author user : Z)
           (membership : option ProjectMember.t) : bool :=
  (author =? user)
  || match membership with
     | Some m => py_in (ProjectMember.role m) ["owner"; "admin"]
     | None => false
     end.

(** The files left by [os.remove(path)] with a missing file ignored. *)
Definition without_file (path : string) (fs : list string) : list string :=
  if existsb (String.eqb path) fs
  then filter (fun p => negb (path =? p)%string) fs
  else fs.

(** The calendar rule in the words of the specification: a date falls
    inside the window, a task spans it, a task overlaps it. A date that is
    NULL falls nowhere. *)
Definition falls_inside (d : option Z) (from to : Z) : bool :=
  match d with
  | Some x => (from <=? x) && (x <=? to)
  | None => false
  end.

Definition spans (t : Task.t) (from to : Z) : bool :=
  match Task.start_date t, Task.due_date t with
  | Some x, Some y => (x <=? from) && (to <=? y)
  | _, _ => false
  end.

Definition overlaps_window (t : Task.t) (from to : Z) : bool :=
  falls_inside (Task.start_date t) from to
  || falls_inside (Task.due_date t) from to
  || spans t from to.

Definition not_archived (t : Task.t) : bool :=
  match Task.is_archived t with
  | Some false => true
  | _ => false
  end.

(** The user has a membership in the project. *)
Definition has_membership (db : Db) (user project_id : Z) : Prop :=
  exists m, In m (project_members db)
            /\ ProjectMember.user_id m = user
            /\ ProjectMember.project_id m = project_id.

(** The tasks the calendar is specified to show. *)
Definition calendar_view (db : Db) (user from to : Z) : list Task.t :=
  filter (fun t => in_ (Task.project_id t) (accessible_projects db user)
                   && not_archived t
                   && overlaps_window t from to)
         (tasks db).

(** The permission rule of tag deletion in the policy's words: a tag of a
    project may be deleted by its creator or by an owner or admin of the
    project, a global tag by its creator only. A [project_id] of 0 counts
    as none, as in the handler's truth test. *)
Definition may_delete_tag (tag : Tag.t) (user : Z) (db : Db) : bool :=
  (Tag.created_by tag =? user)
  || match Tag.project_id tag with
     | Some pid =>
         negb (pid =? 0)
         && match membership_of pid user db with
            | Some m => py_in (ProjectMember.role m) ["owner"; "admin"]
            | None => false
            end
     | None => false
     end.

(** A message includes a text. *)
Definition mentions (needle hay : string) : Prop :=
  exists pre post, hay = (pre ++ needle ++ post)%string.

(** The test for it: the text is a prefix of some suffix of the message. *)
Fixpoint contains (needle hay : string) : bool :=
  prefix needle hay
  || match hay with
     | EmptyString => false
     | String _ hay' => contains needle hay'
     end.

(** Two notification rows that agree on every column but [is_read]. *)
Definition same_but_is_read (n n' : Notification.t) : Prop :=
  Notification.id n' = Notification.id n
  /\ Notification.user_id n' = Notification.user_id n
  /\ Notification.task_id n' = Notification.task_id n
  /\ Notification.type n' = Notification.type n
  /\ Notification.title n' = Notification.title n
  /\ Notification.message n' = Notification.message n
  /\ Notification.scheduled_at n' = Notification.scheduled_at n
  /\ Notification.sent_at n' = Notification.sent_at n
  /\ Notification.created_at n' = Notification.created_at n.

(** ** A small world to run the handlers on

    Project 1 belongs to alice; bob is a member, dave a viewer, and carol
    has no membership at all. *)

Module Example.

Definition alice : Z := 1.
Definition bob : Z := 2.
Definition carol : Z := 3.
Definition dave : Z := 4.

Definition project : Project.t :=
  Project.mk 1 "Launch" None "#3498db" alice (Some false) 5 5.

Definition members : list ProjectMember.t :=
  [ ProjectMember.mk 1 1 alice "owner" 5;
    ProjectMember.mk 2 1 bob "member" 6;
    ProjectMember.mk 3 1 dave "viewer" 7 ].

(** A finished task, stamped at time 100. *)
Definition done_task : Task.t :=
  Task.mk 1 (Some "Write report") None 1 None None alice (Some "medium")
          "done" None None (Some 100) None (Some false) 10 10.

(** An open task planned from 10 to 20. *)
Definition open_task : Task.t :=
  Task.mk 2 (Some "Review report") None 1 None (Some bob) alice
          (Some "high") "todo" (Some 10) (Some 20) None None (Some false)
          11 11.

(** A task archived earlier. *)
Definition archived_task : Task.t :=
  Task.mk 3 (Some "Old draft") None 1 None None alice (Some "low")
          "todo" (Some 12) (Some 14) None None (Some true) 9 9.

Definition comment : TaskComment.t :=
  TaskComment.mk 1 1 bob "Looks good" (Some false) 12 12.

Definition attachment : TaskAttachment.t :=
  TaskAttachment.mk 1 1 bob "f3a1.txt" "notes.txt"
                    "uploads/attachments/f3a1.txt" 42 (Some "text/plain") 13.

Definition tag : Tag.t := Tag.mk 1 "urgent" "#95a5a6" (Some 1) alice 14.

(** A global tag of bob's that no task carries. *)
Definition spare_tag : Tag.t := Tag.mk 2 "idea" "#95a5a6" None bob 19.

Definition task_tag : TaskTag.t := TaskTag.mk 1 1 1 15.

Definition inbox : list Notification.t :=
  [ Notification.mk 1 alice (Some 1) "task_due" "Due soon" None
                    (Some false) None None 16;
    Notification.mk 2 alice None "comment_added" "New comment" None
                    (Some true) None None 17;
    Notification.mk 3 bob (Some 2) "task_assigned" "Assigned" None
                    (Some false) None None 18 ].

Definition db : Db :=
  mkDb [project] members [done_task; open_task; archived_task]
       [tag; spare_tag] [task_tag]
       [comment] [attachment] inbox.

Definition world : World := mkWorld db ["uploads/attachments/f3a1.txt"].

(** PUT body [{"title": "Final report"}]: no [status] key. *)
Definition rename_only : TaskUpdate.t :=
  TaskUpdate.mk (Provided (Some "Final report")) Unset Unset Unset Unset
                Unset Unset Unset Unset.

(** POST body of a task created as already done. *)
Definition created_done : TaskCreate.t :=
  TaskCreate.mk "Imported task" None None "medium" "done" None None None
                1 None.

Definition new_project : ProjectCreate.t :=
  ProjectCreate.mk "Side project" None "#3498db".

End Example.

(** ** Vocabulary of the further properties *)

(** The row that [create_task] builds on a store. *)
Definition new_task_row (now : Z) (data : TaskCreate.t) (creator : Z)
           (db : Db) : Task.t :=
  Task.mk (next_id (map Task.id (tasks db)))
          (Some (TaskCreate.title data)) (TaskCreate.description data)
          (TaskCreate.project_id data) (TaskCreate.parent_task_id data)
          (TaskCreate.assignee_id data) creator
          (Some (TaskCreate.priority data)) (TaskCreate.status data)
          (TaskCreate.start_date data) (TaskCreate.due_date data) None
          (TaskCreate.position data) (Some false) now now.

(** The columns of a task that no update may change. *)
Definition same_identity (t t' : Task.t) : Prop :=
  Task.id t' = Task.id t
  /\ Task.project_id t' = Task.project_id t
  /\ Task.creator_id t' = Task.creator_id t
  /\ Task.parent_task_id t' = Task.parent_task_id t
  /\ Task.created_at t' = Task.created_at t.

(** Every tables but [tasks] agree. *)
Definition same_but_tasks (db db' : Db) : Prop :=
  projects db' = projects db
  /\ project_members db' = project_members db
  /\ tags db' = tags db
  /\ task_tags db' = task_tags db
  /\ task_comments db' = task_comments db
  /\ task_attachments db' = task_attachments db
  /\ notifications db' = notifications db.

(** A subtask lives in the project of its parent: every non-zero
    [parent_task_id] names a stored task of the same project. *)
Definition parents_in_same_project (db : Db) : Prop :=
  forall t p,
    In t (tasks db) -> Task.parent_task_id t = Some p -> p <> 0 ->
    exists q, In q (tasks db) /\ Task.id q = p
              /\ Task.project_id q = Task.project_id t.

(** A query parameter of [get_tasks], when truthy, is met by the column. *)
Definition meets_int (param col : option Z) : Prop :=
  truthy_int param = true -> col = param.

Definition meets_str (param col : option string) : Prop :=
  truthy_str param = true -> col = param.

(** Newest first. *)
Definition newer_or_same (a b : Task.t) : Prop :=
  Task.created_at b <= Task.created_at a.

(** The user has a membership row in the project. *)
Definition is_member (project_id user : Z) (db : Db) : bool :=
  match membership_of project_id user db with
  | Some _ => true
  | None => false
  end.

(** The parent named by a [TaskCreate] passes lines 37-43: none, zero, or a
    stored task of the same project. *)
Definition parent_accepted (data : TaskCreate.t) (db : Db) : bool :=
  match TaskCreate.parent_task_id data with
  | Some pid =>
      (pid =? 0)
      || match Tasks.find_task pid db with
         | Some p => Task.project_id p =? TaskCreate.project_id data
         | None => false
         end
  | None => true
  end.

(** An assignee passes the membership check: none, zero, or a member. *)
Definition assignee_is_member (project_id : Z) (assignee : option Z)
           (db : Db) : bool :=
  match assignee with
  | Some a => (a =? 0) || is_member project_id a db
  | None => true
  end.

(** Every assigned task is assigned to a member of its project. *)
Definition assignees_are_members (db : Db) : Prop :=
  forall t a,
    In t (tasks db) -> Task.assignee_id t = Some a -> a <> 0 ->
    has_membership db a (Task.project_id t).

(** What [get_tasks] returns from the rows that passed its project
    filter. *)
Definition listing (assignee_id : option Z) (status priority : option string)
           (parent_task_id : option Z) (rows : list Task.t) : list Task.t :=
  order_by Tasks.created_at_desc
    (where_ (fun t => sql_eq_bool (Task.is_archived t) false)
            (Tasks.optional_filters assignee_id status priority
                                    parent_task_id rows)).

(** The user has a membership row with role owner or admin in the
    project. *)
Definition is_admin (project_id user : Z) (db : Db) : bool :=
  match Projects.admin_membership_of project_id user db with
  | Some _ => true
  | None => false
  end.

Definition has_admin_membership (db : Db) (user project_id : Z) : Prop :=
  exists m, In m (project_members db)
            /\ ProjectMember.user_id m = user
            /\ ProjectMember.project_id m = project_id
            /\ (ProjectMember.role m = "owner"
                \/ ProjectMember.role m = "admin").

(** The user is in the users table. *)
Definition user_exists (users : list User.t) (user : Z) : bool :=
  match first (fun u => User.id u =? user) users with
  | Some _ => true
  | None => false
  end.

(** The row that [add_project_member] builds on a store. *)
Definition new_member_row (now project_id : Z)
           (member_data : ProjectMemberCreate.t) (db : Db)
  : ProjectMember.t :=
  ProjectMember.mk (next_id (map ProjectMember.id (project_members db)))
                   project_id (ProjectMemberCreate.user_id member_data)
                   (ProjectMemberCreate.role member_data) now.

(** The PUT body [{"is_archived": true}] of a project. *)
Definition archive_project_body : ProjectUpdate.t :=
  ProjectUpdate.mk Unset Unset Unset (Provided (Some true)).

(** [check_task_access] passes: the task is stored and the user has a
    membership in its project. *)
Definition task_accessible (task_id user : Z) (db : Db) : bool :=
  match Tasks.find_task task_id db with
  | Some t => is_member (Task.project_id t) user db
  | None => false
  end.

(** What [check_task_access] raises when it does not pass. *)
Definition task_access_error (task_id : Z) (db : Db) : Exn :=
  match Tasks.find_task task_id db with
  | Some _ => HTTPException 403 "No access to this task"
  | None => HTTPException 404 "Task not found"
  end.

(** The rows that [create_comment] and [upload_attachment] build. *)
Definition new_comment_row (now : Z) (data : TaskCommentCreate.t) (user : Z)
           (db : Db) : TaskComment.t :=
  TaskComment.mk (next_id (map TaskComment.id (task_comments db)))
                 (TaskCommentCreate.task_id data) user
                 (TaskCommentCreate.content data) (Some false) now now.

Definition upload_path (uuid file_extension : string) : string :=
  ("uploads/attachments/" ++ uuid ++ file_extension)%string.

Definition new_attachment_row (now : Z) (uuid file_extension : string)
           (task_id : Z) (file : UploadFile.t) (user : Z) (db : Db)
  : TaskAttachment.t :=
  TaskAttachment.mk
    (next_id (map TaskAttachment.id (task_attachments db)))
    task_id user (uuid ++ file_extension)%string (UploadFile.filename file)
    (upload_path uuid file_extension)
    (Z.of_nat (List.length (UploadFile.content file)))
    (UploadFile.content_type file) now.

(** The files after [open(path, "wb")]. *)
Definition with_file (path : string) (fs : list string) : list string :=
  if existsb (String.eqb path) fs then fs else fs ++ [path].

(** The uniqueness key of a tag: its name within its scope. *)
Definition tag_key (t : Tag.t) : string * option Z :=
  (Tag.name t, Tag.project_id t).

Definition tag_keys (db : Db) : list (string * option Z) :=
  map tag_key (tags db).

(** The scope of a new tag is open to the user: global, zero, or a project
    with the user as a member. *)
Definition tag_scope_open (project_id : option Z) (user : Z) (db : Db)
  : bool :=
  match project_id with
  | Some p => (p =? 0) || is_member p user db
  | None => true
  end.

(** Some stored tag has this name in this scope: the query of lines
    32-35. *)
Definition tag_taken (name : string) (project_id : option Z) (db : Db)
  : bool :=
  match first (fun t =>
                 is_true_sql
                   (sql_and (Some (Tag.name t =? name)%string)
                            (Tags.project_id_is (Tag.project_id t)
                                                project_id)))
              (tags db) with
  | Some _ => true
  | None => false
  end.

Definition new_tag_row (now : Z) (data : TagCreate.t) (user : Z) (db : Db)
  : Tag.t :=
  Tag.mk (next_id (map Tag.id (tags db))) (TagCreate.name data)
         (TagCreate.color data) (TagCreate.project_id data) user now.

(** *** The writing requests and the worlds they lead to *)

(** A request to one of the writing handlers modelled here, with its
    arguments. *)
Inductive Write : Type :=
| CreateProject (now : Z) (data : ProjectCreate.t) (user : Z)
| UpdateProject (project_id : Z) (u : ProjectUpdate.t) (user : Z)
| DeleteProject (project_id user : Z)
| AddProjectMember (users : list User.t) (now project_id : Z)
                   (data : ProjectMemberCreate.t) (user : Z)
| CreateTask (now : Z) (data : TaskCreate.t) (user : Z)
| UpdateTask (now task_id : Z) (u : TaskUpdate.t) (user : Z)
| DeleteTask (task_id user : Z)
| CreateComment (now : Z) (data : TaskCommentCreate.t) (user : Z)
| UpdateComment (comment_id : Z) (u : TaskCommentUpdate.t) (user : Z)
| DeleteComment (comment_id user : Z)
| UploadAttachment (now : Z) (uuid file_extension : string) (task_id : Z)
                   (file : UploadFile.t) (user : Z)
| DeleteAttachment (attachment_id user : Z)
| CreateTag (now : Z) (data : TagCreate.t) (user : Z)
| DeleteTag (tag_id user : Z)
| MarkNotificationRead (notification_id user : Z)
| MarkAllNotificationsRead (user : Z).

(** The world a request leaves, under a schedule of the store's answers. *)
Definition perform (r : Write) (w : World) (sched : list bool) : World :=
  match r with
  | CreateProject now data user =>
      snd (request (Projects.create_project now data user) w sched)
  | UpdateProject project_id u user =>
      snd (request (Projects.update_project project_id u user) w sched)
  | DeleteProject project_id user =>
      snd (request (Projects.delete_project project_id user) w sched)
  | AddProjectMember users now project_id data user =>
      snd (request (Projects.add_project_member users now project_id data
                                                user) w sched)
  | CreateTask now data user =>
      snd (request (Tasks.create_task now data user) w sched)
  | UpdateTask now task_id u user =>
      snd (request (Tasks.update_task now task_id u user) w sched)
  | DeleteTask task_id user =>
      snd (request (Tasks.delete_task task_id user) w sched)
  | CreateComment now data user =>
      snd (request (Comments.create_comment now data user) w sched)
  | UpdateComment comment_id u user =>
      snd (request (Comments.update_comment comment_id u user) w sched)
  | DeleteComment comment_id user =>
      snd (request (Comments.delete_comment comment_id user) w sched)
  | UploadAttachment now uuid file_extension task_id file user =>
      snd (request (Comments.upload_attachment now uuid file_extension
                                               task_id file user) w sched)
  | DeleteAttachment attachment_id user =>
      snd (request (Comments.delete_attachment attachment_id user) w sched)
  | CreateTag now data user =>
      snd (request (Tags.create_tag now data user) w sched)
  | DeleteTag tag_id user =>
      snd (request (Tags.delete_tag tag_id user) w sched)
  | MarkNotificationRead notification_id user =>
      snd (request (Tags.mark_notification_read notification_id user) w sched)
  | MarkAllNotificationsRead user =>
      snd (request (Tags.mark_all_notifications_read user) w sched)
  end.

(** A history: requests in order, each with the store's answers to it. *)
Definition perform_all (history : list (Write * list bool)) (w : World)
  : World :=
  fold_left (fun w' step => perform (fst step) w' (snd step)) history w.

(** The project and user of each membership row. *)
Definition membership_pairs (db : Db) : list (Z * Z) :=
  map (fun m => (ProjectMember.project_id m, ProjectMember.user_id m))
      (project_members db).

(** What the handlers keep true of the rows they write. *)
Record well_formed (db : Db) : Prop := mk_well_formed {
  project_ids_unique : NoDup (map Project.id (projects db));
  member_ids_unique : NoDup (map ProjectMember.id (project_members db));
  task_ids_unique : NoDup (map Task.id (tasks db));
  comment_ids_unique : NoDup (map TaskComment.id (task_comments db));
  attachment_ids_unique :
    NoDup (map TaskAttachment.id (task_attachments db));
  tag_ids_unique : NoDup (map Tag.id (tags db));
  members_of_stored_projects : members_reference_projects db;
  one_membership_per_user : NoDup (membership_pairs db);
  tasks_of_stored_projects :
    forall t, In t (tasks db) ->
              In (Task.project_id t) (map Project.id (projects db));
  subtasks_with_their_parent : parents_in_same_project db;
  assignees_in_the_project : assignees_are_members db;
  comments_on_stored_tasks :
    forall c, In c (task_comments db) ->
              In (TaskComment.task_id c) (map Task.id (tasks db));
  attachments_on_stored_tasks :
    forall a, In a (task_attachments db) ->
              In (TaskAttachment.task_id a) (map Task.id (tasks db))
}.

(** ** A second world: two projects, an admin and a subtask

    The first world with erin as admin of project 1, frank's project 2 with
    a task and a tag of its own, and a subtask of the open task. *)

Module Example2.

Definition erin : Z := 5.
Definition frank : Z := 6.
Definition grace : Z := 7.

Definition project2 : Project.t :=
  Project.mk 2 "Archive" None "#34495e" frank (Some false) 20 20.

Definition members : list ProjectMember.t :=
  Example.members
  ++ [ ProjectMember.mk 4 1 erin "admin" 21;
       ProjectMember.mk 5 2 frank "owner" 22 ].

Definition subtask : Task.t :=
  Task.mk 4 (Some "Collect figures") None 1 (Some 2) (Some Example.bob)
          Example.alice (Some "medium") "todo" None None None (Some 1)
          (Some false) 23 23.

Definition foreign_task : Task.t :=
  Task.mk 5 (Some "Scan letters") None 2 None None frank (Some "low")
          "todo" None None None None (Some false) 24 24.

Definition foreign_tag : Tag.t := Tag.mk 3 "paper" "#95a5a6" (Some 2) frank 25.

Definition db : Db :=
  mkDb [Example.project; project2] members
       [Example.done_task; Example.open_task; Example.archived_task;
        subtask; foreign_task]
       [Example.tag; Example.spare_tag; foreign_tag] [Example.task_tag]
       [Example.comment] [Example.attachment] Example.inbox.

Definition world : World := mkWorld db ["uploads/attachments/f3a1.txt"].

Definition user_row (id : Z) (name : string) : User.t :=
  User.mk id name name (name ++ "@example.org") "$2b$12$hash" None
          (Some "Asia/Tokyo") (Some true) 1 1.

(** The users table: everybody named so far, and grace, who belongs to no
    project. *)
Definition users : list User.t :=
  [ user_row Example.alice "alice"; user_row Example.bob "bob";
    user_row Example.carol "carol"; user_row Example.dave "dave";
    user_row erin "erin"; user_row frank "frank"; user_row grace "grace" ].

End Example2.

(** ** Proof steps shared by the handlers *)

(** Reduce the projections of a session or world built in place. *)
Ltac step_session :=
  cbn [view durable disk faults store files fst snd].

(** Open the monad's operations at the head of a request. *)
Ltac run_handler :=
  unfold request, bind, query, ret, raise, modify, commit; step_session.

(** Follow every branch of a handler that ended in [Return]. *)
Ltac destruct_matches :=
  repeat match goal with
         | H : (_, _) = (_, _) |- _ => injection H as ? ?; subst
         | H : Return _ = Return _ |- _ => injection H as ?; subst
         | H : Raise _ = Return _ |- _ => discriminate H
         | H : context [match ?x with _ => _ end] |- _ =>
             let E := fresh "E" in destruct x eqn:E
         end.

(** Open a request down to the session's fields. *)
Ltac open_handler :=
  cbv [request bind query ret raise modify commit];
  cbn [view durable disk faults store files fst snd negb].

(** Case analysis on the innermost undecided test of the goal. *)
Ltac split_atom x :=
  lazymatch x with
  | negb ?y => split_atom y
  | orb ?a ?b => first [split_atom a | split_atom b]
  | andb ?a ?b => first [split_atom a | split_atom b]
  | context [match ?y with _ => _ end] => split_atom y
  | _ => destruct x eqn:?
  end.

Ltac split_on_scrutinee :=
  match goal with
  | |- context [match ?x with _ => _ end] => split_atom x
  end.

(** Follow every branch of both sides of an equation between outcomes. *)
Ltac crunch :=
  repeat (cbn [view durable disk faults store files fst snd negb andb orb];
          try reflexivity; try congruence; split_on_scrutinee).

(** * Properties *)

(** ** Facts about the query building blocks *)

Lemma where_In {A} (cond : A -> option bool) (rows : list A) (x : A) :
  In x (where_ cond rows) <-> In x rows /\ cond x = Some true.
Proof.
  unfold where_. rewrite filter_In. unfold is_true_sql.
  split; intros [Hin Hc]; split; auto.
  - destruct (cond x) as [[|]|]; congruence.
  - now rewrite Hc.
Qed.

Lemma insert_by_perm {A} (le : A -> A -> bool) (x : A) (l : list A) :
  Permutation (insert_by le x l) (x :: l).
Proof.
  induction l as [|y l IH]; simpl.
  - apply Permutation_refl.
  - destruct (le x y).
    + apply Permutation_refl.
    + eapply Permutation_trans; [apply perm_skip, IH | apply perm_swap].
Qed.

Lemma order_by_perm {A} (le : A -> A -> bool) (rows : list A) :
  Permutation (order_by le rows) rows.
Proof.
  induction rows as [|x rows IH]; simpl.
  - apply perm_nil.
  - eapply Permutation_trans; [apply insert_by_perm | now apply perm_skip].
Qed.

Lemma order_by_In {A} (le : A -> A -> bool) (rows : list A) (x : A) :
  In x (order_by le rows) <-> In x rows.
Proof.
  split; apply Permutation_in;
    [apply order_by_perm | apply Permutation_sym, order_by_perm].
Qed.

Lemma in_spec (x : Z) (ids : list Z) : in_ x ids = true <-> In x ids.
Proof.
  unfold in_. rewrite existsb_exists. split.
  - intros [y [Hy He]]. apply Z.eqb_eq in He. now subst.
  - intros H. exists x. split; [assumption | apply Z.eqb_refl].
Qed.

Lemma accessible_projects_spec (db : Db) (user_id pid : Z) :
  In pid (accessible_projects db user_id) <->
  exists m, In m (project_members db)
            /\ ProjectMember.user_id m = user_id
            /\ ProjectMember.project_id m = pid.
Proof.
  unfold accessible_projects. rewrite in_map_iff. split.
  - intros [m [Hp Hm]]. apply filter_In in Hm. destruct Hm as [Hin Hu].
    apply Z.eqb_eq in Hu. now exists m.
  - intros [m [Hin [Hu Hp]]]. exists m. split; [assumption|].
    apply filter_In. split; [assumption | now apply Z.eqb_eq].
Qed.




(** With a primary key, looking a stored row up by its id finds that row. *)
Lemma find_task_primary_key (db : Db) (t : Task.t) :
  NoDup (map Task.id (tasks db)) ->
  In t (tasks db) ->
  Tasks.find_task (Task.id t) db = Some t.
Proof.
  unfold Tasks.find_task, first.
  induction (tasks db) as [|x l IH]; simpl; intros Hnd Hin; [contradiction|].
  inversion Hnd as [|? ? Hx Hl]; subst.
  destruct Hin as [->|Hin].
  - now rewrite Z.eqb_refl.
  - destruct (Task.id x =? Task.id t) eqn:E.
    + apply Z.eqb_eq in E. exfalso. apply Hx. rewrite E.
      now apply in_map.
    + now apply IH.
Qed.

(** After the UPDATE of a row found by id, the same lookup finds the new
    row. *)
Lemma find_task_save_task (db : Db) (task_id : Z) (t t' : Task.t) :
  Tasks.find_task task_id db = Some t ->
  Task.id t' = Task.id t ->
  Tasks.find_task task_id (Tasks.save_task t' db) = Some t'.
Proof.
  unfold Tasks.find_task, Tasks.save_task, first. simpl.
  induction (tasks db) as [|x l IH]; simpl; intros H Hid; [discriminate|].
  destruct (Task.id x =? task_id) eqn:E.
  - injection H as ->. rewrite Hid, Z.eqb_refl.
    apply Z.eqb_eq in E. now rewrite Hid, E, Z.eqb_refl.
  - destruct (Task.id x =? Task.id t') eqn:E'.
    + apply Z.eqb_eq in E'. apply find_some in H. destruct H as [_ Hb].
      apply Z.eqb_eq in Hb. rewrite E', Hid, Hb, Z.eqb_refl in E.
      discriminate.
    + rewrite E. now apply IH.
Qed.

(** ** Stepping through a handler *)

Lemma check_project_access_Some (pid uid : Z) (m : ProjectMember.t)
      (s : Session) :
  membership_of pid uid (view s) = Some m ->
  Tasks.check_project_access pid uid s = (Return m, s).
Proof.
  intros H. unfold Tasks.check_project_access. run_handler. now rewrite H.
Qed.


(** ** update_task: the fields written by lines 155-168 *)

Lemma apply_item_keeps (t : Task.t) (it : TaskUpdate.item) :
  Task.completed_at (Tasks.apply_item t it) = Task.completed_at t
  /\ Task.status (Tasks.apply_item t it) = Task.status t
  /\ Task.id (Tasks.apply_item t it) = Task.id t.
Proof. destruct it; simpl; auto. Qed.

Lemma apply_items_keep (items : list TaskUpdate.item) (t : Task.t) :
  Task.completed_at (fold_left Tasks.apply_item items t) = Task.completed_at t
  /\ Task.status (fold_left Tasks.apply_item items t) = Task.status t
  /\ Task.id (fold_left Tasks.apply_item items t) = Task.id t.
Proof.
  revert t. induction items as [|it items IH]; intros t; simpl; [auto|].
  destruct (IH (Tasks.apply_item t it)) as [Hc [Hs Hi]].
  destruct (apply_item_keeps t it) as [Hc' [Hs' Hi']].
  rewrite Hc, Hs, Hi. auto.
Qed.

Lemma apply_status_keeps (new_status : option string) (t : Task.t) :
  Task.completed_at (Tasks.apply_status new_status t) = Task.completed_at t
  /\ Task.id (Tasks.apply_status new_status t) = Task.id t.
Proof.
  unfold Tasks.apply_status.
  destruct new_status as [s|]; [destruct (negb (s =? "")%string)|]; auto.
Qed.

Lemma stamp_completed_at_keeps (now : Z) (new_status : option string)
      (t : Task.t) :
  Task.status (Tasks.stamp_completed_at now new_status t) = Task.status t
  /\ Task.id (Tasks.stamp_completed_at now new_status t) = Task.id t.
Proof.
  unfold Tasks.stamp_completed_at.
  destruct (_ && _); [auto|]. destruct (_ && _); auto.
Qed.

Lemma apply_update_id (now : Z) (u : TaskUpdate.t) (t : Task.t) :
  Task.id (Tasks.apply_update now u t) = Task.id t.
Proof.
  unfold Tasks.apply_update.
  rewrite (proj2 (apply_status_keeps _ _)).
  rewrite (proj2 (proj2 (apply_items_keep _ _))).
  apply stamp_completed_at_keeps.
Qed.

(** The timestamp after an update, as the code computes it: the test of
    line 158 reads the update's status, which is [None] when the request
    gives none. *)
Lemma apply_update_completed_at (now : Z) (u : TaskUpdate.t) (t : Task.t) :
  Task.completed_at (Tasks.apply_update now u t) =
  let new_status := field_value (TaskUpdate.status u) in
  if py_eq_str new_status "done" && negb (Task.status t =? "done")%string
  then Some now
  else if negb (py_eq_str new_status "done")
          && (Task.status t =? "done")%string
  then None
  else Task.completed_at t.
Proof.
  unfold Tasks.apply_update.
  rewrite (proj1 (apply_status_keeps _ _)).
  rewrite (proj1 (apply_items_keep _ _)).
  unfold Tasks.stamp_completed_at. cbv zeta.
  destruct (_ && _); [reflexivity|]. destruct (_ && _); reflexivity.
Qed.

(** The status after an update: replaced only by a truthy new status. *)
Lemma apply_update_status (now : Z) (u : TaskUpdate.t) (t : Task.t) :
  Task.status (Tasks.apply_update now u t) =
  match field_value (TaskUpdate.status u) with
  | Some s => if (s =? "")%string then Task.status t else s
  | None => Task.status t
  end.
Proof.
  unfold Tasks.apply_update, Tasks.apply_status.
  destruct (field_value (TaskUpdate.status u)) as [s|].
  - destruct (s =? "")%string; simpl; [|reflexivity].
    rewrite (proj1 (proj2 (apply_items_keep _ _))).
    apply stamp_completed_at_keeps.
  - rewrite (proj1 (proj2 (apply_items_keep _ _))).
    apply stamp_completed_at_keeps.
Qed.

(** An update of an existing task by a member of its project, with an
    acceptable assignee and no refused commit, stores and returns the
    object as changed by lines 155-168. *)
Lemma update_task_run (w : World) (now task_id : Z) (u : TaskUpdate.t)
      (user : Z) (t : Task.t) (m : ProjectMember.t) :
  Tasks.find_task task_id (store w) = Some t ->
  membership_of (Task.project_id t) user (store w) = Some m ->
  assignee_accepted u t (store w) ->
  run (Tasks.update_task now task_id u user) w
  = (Return (Tasks.apply_update now u t),
     mkWorld (Tasks.save_task (Tasks.apply_update now u t) (store w))
             (files w)).
Proof.
  intros Hfind Hmem Hass. unfold run, request, Tasks.update_task.
  unfold bind at 1. unfold query at 1. step_session. rewrite Hfind.
  unfold bind at 1. rewrite (check_project_access_Some _ _ m) by exact Hmem.
  unfold assignee_accepted in Hass.
  destruct (field_value (TaskUpdate.assignee_id u)) as [a|].
  - destruct (a =? 0) eqn:Ea; simpl negb; cbv iota.
    + run_handler. reflexivity.
    + destruct Hass as [Ha|Ha]; [apply Z.eqb_neq in Ea; contradiction|].
      destruct (membership_of (Task.project_id t) a (store w)) as [ma|] eqn:Em;
        [|contradiction].
      unfold bind at 1. unfold bind at 1.
      rewrite (check_project_access_Some _ _ ma) by exact Em.
      run_handler. reflexivity.
  - run_handler. reflexivity.
Qed.

(** A done task updated by a request whose status reads as [None] or as the
    empty string keeps its status and loses its timestamp. *)
Lemma apply_update_falsy_status_on_done (now : Z) (u : TaskUpdate.t)
      (t : Task.t) :
  truthy_str (field_value (TaskUpdate.status u)) = false ->
  Task.status t = "done" ->
  Task.status (Tasks.apply_update now u t) = "done"
  /\ Task.completed_at (Tasks.apply_update now u t) = None.
Proof.
  intros Hf Hd. rewrite apply_update_status, apply_update_completed_at.
  cbv zeta. rewrite Hd. unfold truthy_str in Hf.
  destruct (field_value (TaskUpdate.status u)) as [s|]; simpl.
  - apply negb_false_iff in Hf. rewrite Hf.
    apply String.eqb_eq in Hf. subst s. simpl. auto.
  - auto.
Qed.

(** With a truthy new status the update keeps the invariant. *)
Lemma apply_update_truthy_status_invariant (now : Z) (u : TaskUpdate.t)
      (t : Task.t) :
  truthy_str (field_value (TaskUpdate.status u)) = true ->
  done_iff_completed t ->
  done_iff_completed (Tasks.apply_update now u t).
Proof.
  unfold done_iff_completed. intros Ht Hinv.
  rewrite apply_update_status, apply_update_completed_at. cbv zeta.
  unfold truthy_str in Ht.
  destruct (field_value (TaskUpdate.status u)) as [s|]; [|discriminate].
  apply negb_true_iff in Ht. rewrite Ht. simpl py_eq_str.
  destruct (s =? "done")%string eqn:Es;
    destruct (Task.status t =? "done")%string eqn:Eo; simpl.
  - apply String.eqb_eq in Es. apply String.eqb_eq in Eo. tauto.
  - apply String.eqb_eq in Es. split; [discriminate | auto].
  - apply String.eqb_neq in Es. split; [contradiction | congruence].
  - apply String.eqb_neq in Es. apply String.eqb_neq in Eo.
    split; [contradiction | intros H; apply Hinv in H; contradiction].
Qed.

(** C1, where the code departs from the specification. A member renames a
    done task with the body [{"title": ...}], which has no status: the update
    succeeds, the stored task is still done, and its [completed_at], 100
    before the call, is now NULL. The test of line 158 compares the absent
    status, [None], with ["done"]. *)
Theorem update_task_without_status_clears_completed_at :
  let t' := Task.set_title (Some "Final report")
              (Task.set_completed_at None Example.done_task) in
  Tasks.find_task 1 Example.db = Some Example.done_task
  /\ Task.status Example.done_task = "done"
  /\ Task.completed_at Example.done_task = Some 100
  /\ run (Tasks.update_task 200 1 Example.rename_only Example.bob)
         Example.world
     = (Return t',
        mkWorld (Tasks.save_task t' Example.db) (files Example.world))
  /\ Tasks.find_task 1 (Tasks.save_task t' Example.db) = Some t'
  /\ Task.status t' = "done"
  /\ Task.completed_at t' = None.
Proof.
  cbv zeta. repeat split.
Qed.

(** ** create_task *)

(** Whatever status the caller supplies, the created row carries it and has
    no completion timestamp. *)
Lemma create_task_unstamped (now : Z) (data : TaskCreate.t) (user : Z)
      (s s' : Session) (t : Task.t) :
  Tasks.create_task now data user s = (Return t, s') ->
  Task.status t = TaskCreate.status data /\ Task.completed_at t = None.
Proof.
  unfold Tasks.create_task, Tasks.check_project_access.
  unfold bind, query, ret, raise, modify, commit. intros H.
  destruct_matches; simpl; auto.
Qed.

(** C2, where the code departs from the specification. Alice creates a
    task in her project with status ["done"]: the request succeeds and the
    stored row is done with a NULL [completed_at], so the invariant fails
    right after creation. *)
Theorem create_task_done_breaks_invariant :
  let t := Task.mk 4 (Some "Imported task") None 1 None None Example.alice
                   (Some "medium") "done" None None None None (Some false)
                   50 50 in
  let db' := with_tasks (tasks Example.db ++ [t]) Example.db in
  run (Tasks.create_task 50 Example.created_done Example.alice) Example.world
  = (Return t, mkWorld db' (files Example.world))
  /\ Tasks.find_task 4 db' = Some t
  /\ Task.status t = "done"
  /\ Task.completed_at t = None
  /\ ~ done_iff_completed t.
Proof.
  cbv zeta. repeat split.
  unfold done_iff_completed. simpl. intros [H _]. now apply H.
Qed.

(** ** create_project *)

Lemma fold_max_upper (ids : list Z) (x : Z) :
  In x ids -> x <= fold_right Z.max 0 ids.
Proof.
  induction ids as [|y ids IH]; simpl; [contradiction|].
  intros [->|H]; [lia|]. specialize (IH H). lia.
Qed.

Lemma next_id_fresh (ids : list Z) : ~ In (next_id ids) ids.
Proof.
  unfold next_id. intros H. apply fold_max_upper in H. lia.
Qed.

Lemma members_in_fresh_project (db : Db) :
  members_reference_projects db ->
  members_in (next_id (map Project.id (projects db))) db = [].
Proof.
  intros Hfk. unfold members_in.
  assert (Hall : forall m, In m (project_members db) ->
            ProjectMember.project_id m
            <> next_id (map Project.id (projects db))).
  { intros m Hin Heq. apply Hfk in Hin. rewrite Heq in Hin.
    now apply next_id_fresh in Hin. }
  induction (project_members db) as [|m l IH]; simpl; [reflexivity|].
  destruct (ProjectMember.project_id m =? _) eqn:E.
  - apply Z.eqb_eq in E. exfalso. apply (Hall m); [now left | exact E].
  - apply IH. intros m' Hin. apply Hall. now right.
Qed.


(** C3, counterexample. The store accepts the first commit of
    [create_project] and refuses the second: the request fails, the project
    row is stored and nobody is a member of it. *)
Lemma create_project_not_atomic :
  let after := store (snd (request
                 (Projects.create_project 30 Example.new_project Example.carol)
                 Example.world [true; false])) in
  projects after = projects Example.db
                   ++ [new_project_row 30 Example.new_project Example.carol
                                       Example.db]
  /\ members_in 2 after = []
  /\ ~ both_or_neither Example.carol Example.db after.
Proof.
  cbv zeta. split; [reflexivity|]. split; [reflexivity|].
  intros [[Hp _] | [p [m [_ [Hm _]]]]].
  - vm_compute in Hp. discriminate Hp.
  - vm_compute in Hm. discriminate Hm.
Qed.

(** C3, as amended. [create_project] commits twice. If the store refuses
    the first commit nothing is stored; if it accepts the first and refuses
    the second, the project is stored without any membership; if it accepts
    both, the request returns the project, and the stored memberships of
    that project are exactly one row, with role owner, for the creator. *)
Theorem create_project_two_commits (now : Z) (data : ProjectCreate.t)
        (creator : Z) (w : World) (sched : list bool) :
  members_reference_projects (store w) ->
  let p := new_project_row now data creator (store w) in
  let m := owner_row now (Project.id p) creator (store w) in
  let with_project := with_projects (projects (store w) ++ [p]) (store w) in
  let with_both :=
    with_project_members (project_members (store w) ++ [m]) with_project in
  let result := request (Projects.create_project now data creator) w sched in
  (accepted sched 0 = false -> result = (Raise DBAPIError, w))
  /\ (accepted sched 0 = true -> accepted sched 1 = false ->
      result = (Raise DBAPIError, mkWorld with_project (files w))
      /\ members_in (Project.id p) with_project = [])
  /\ (accepted sched 0 = true -> accepted sched 1 = true ->
      result = (Return p, mkWorld with_both (files w))
      /\ members_in (Project.id p) with_both = [m]
      /\ ProjectMember.user_id m = creator
      /\ ProjectMember.role m = "owner").
Proof.
  intros Hfk. cbv zeta. destruct w as [db fs]. simpl store in *. simpl files.
  pose proof (members_in_fresh_project db Hfk) as Hnone.
  unfold accepted. split; [|split].
  - destruct sched as [|[|] rest]; simpl; intros H; try discriminate.
    reflexivity.
  - destruct sched as [|[|] [|[|] rest]]; simpl; intros H0 H1;
      try discriminate; (split; [reflexivity | exact Hnone]).
  - intros H0 H1. split; [|split; [|split; reflexivity]].
    + destruct sched as [|[|] [|[|] rest]]; simpl in *;
        try discriminate; reflexivity.
    + unfold members_in in *. cbn [project_members with_project_members].
      rewrite filter_app. cbn [new_project_row Project.id] in *.
      rewrite Hnone. simpl. now rewrite Z.eqb_refl.
Qed.

(** C3, witness: in the example world every membership refers to project 1;
    carol's project gets id 2 and carol as its one member, an owner. *)
Lemma create_project_two_commits_witness :
  members_reference_projects Example.db
  /\ members_in 2 (store (snd (run
        (Projects.create_project 30 Example.new_project Example.carol)
        Example.world)))
     = [ProjectMember.mk 4 2 Example.carol "owner" 30].
Proof.
  assert (Hfk : members_reference_projects Example.db).
  { intros m Hin. simpl in Hin.
    destruct Hin as [<-|[<-|[<-|[]]]]; simpl; auto. }
  split; [exact Hfk|].
  destruct (create_project_two_commits 30 Example.new_project Example.carol
              Example.world [] Hfk) as [_ [_ H]].
  destruct (H eq_refl eq_refl) as [Hres [Hm _]].
  unfold run. rewrite Hres. exact Hm.
Defined.

(** ** delete_comment and delete_attachment *)

Lemma not_owner_nor_admin_None (author user : Z) (s : Session) :
  author <> user ->
  Comments.not_owner_nor_admin author user None s = (Raise role_of_None, s).
Proof.
  intros H. unfold Comments.not_owner_nor_admin.
  apply Z.eqb_neq in H. rewrite H. reflexivity.
Qed.

Lemma not_owner_nor_admin_decided (author user : Z)
      (membership : option ProjectMember.t) (s : Session) :
  author = user \/ membership <> None ->
  Comments.not_owner_nor_admin author user membership s
  = (Return (negb (allowed_to_delete author user membership)), s).
Proof.
  intros H. unfold Comments.not_owner_nor_admin, allowed_to_delete.
  destruct (author =? user) eqn:E; simpl; [reflexivity|].
  destruct membership as [m|].
  - reflexivity.
  - destruct H as [H|H]; [|contradiction].
    apply Z.eqb_neq in E. contradiction.
Qed.

(** C4, where the code departs from the specification. Carol is neither the author of
    comment 1 nor a member of its task's project. Her DELETE does not get
    the 403 denial: the handler raises Python's [AttributeError] on
    [membership.role]. The comment row stays. *)
Theorem delete_comment_by_outsider_raises_AttributeError :
  Comments.find_comment 1 Example.db = Some Example.comment
  /\ TaskComment.user_id Example.comment <> Example.carol
  /\ membership_of 1 Example.carol Example.db = None
  /\ run (Comments.delete_comment 1 Example.carol) Example.world
     = (Raise (AttributeError "'NoneType' object has no attribute 'role'"),
        Example.world).
Proof.
  repeat split. discriminate.
Qed.

(** C6. For an actor who is neither the author (the uploader) nor a member
    of the task's project, [delete_comment] and [delete_attachment] raise
    the [AttributeError] of [None.role], whatever the store would answer,
    and leave rows and files as they were: the 403 branch is not reached.
    When the actor is the author or has a membership row, the decision is
    the policy's: deletion if allowed, the 403 denial otherwise. *)
Theorem delete_reads_role_of_missing_membership (w : World) (user : Z) :
  (forall comment_id c t sched,
      Comments.find_comment comment_id (store w) = Some c ->
      Tasks.find_task (TaskComment.task_id c) (store w) = Some t ->
      let membership := membership_of (Task.project_id t) user (store w) in
      (TaskComment.user_id c <> user -> membership = None ->
       request (Comments.delete_comment comment_id user) w sched
       = (Raise role_of_None, w))
      /\ (TaskComment.user_id c = user \/ membership <> None ->
          run (Comments.delete_comment comment_id user) w
          = if allowed_to_delete (TaskComment.user_id c) user membership
            then (Return "Comment deleted successfully",
                  mkWorld (Comments.drop_comment c (store w)) (files w))
            else (Raise (HTTPException 403
                    "Insufficient permissions to delete this comment"), w)))
  /\ (forall attachment_id a t sched,
      Comments.find_attachment attachment_id (store w) = Some a ->
      Tasks.find_task (TaskAttachment.task_id a) (store w) = Some t ->
      let membership := membership_of (Task.project_id t) user (store w) in
      (TaskAttachment.user_id a <> user -> membership = None ->
       request (Comments.delete_attachment attachment_id user) w sched
       = (Raise role_of_None, w))
      /\ (TaskAttachment.user_id a = user \/ membership <> None ->
          run (Comments.delete_attachment attachment_id user) w
          = if allowed_to_delete (TaskAttachment.user_id a) user membership
            then (Return "Attachment deleted successfully",
                  mkWorld (Comments.drop_attachment a (store w))
                          (without_file (TaskAttachment.file_path a)
                                        (files w)))
            else (Raise (HTTPException 403
                    "Insufficient permissions to delete this attachment"),
                  w))).
Proof.
  destruct w as [db fs]. simpl store. simpl files. split.
  - intros comment_id c t sched Hc Ht membership. split.
    + intros Hne Hnone. unfold request, Comments.delete_comment.
      unfold bind at 1. unfold query at 1. step_session. rewrite Hc.
      unfold bind at 1. unfold query at 1. step_session. rewrite Ht.
      unfold bind at 1. unfold project_id_of, ret at 1.
      unfold bind at 1. unfold query at 1. step_session.
      fold membership. rewrite Hnone.
      unfold bind at 1. rewrite not_owner_nor_admin_None by exact Hne.
      reflexivity.
    + intros Hdec. unfold run, request, Comments.delete_comment.
      unfold bind at 1. unfold query at 1. step_session. rewrite Hc.
      unfold bind at 1. unfold query at 1. step_session. rewrite Ht.
      unfold bind at 1. unfold project_id_of, ret at 1.
      unfold bind at 1. unfold query at 1. step_session.
      fold membership.
      unfold bind at 1. rewrite not_owner_nor_admin_decided by exact Hdec.
      destruct (allowed_to_delete _ _ _); reflexivity.
  - intros attachment_id a t sched Ha Ht membership. split.
    + intros Hne Hnone. unfold request, Comments.delete_attachment.
      unfold bind at 1. unfold query at 1. step_session. rewrite Ha.
      unfold bind at 1. unfold query at 1. step_session. rewrite Ht.
      unfold bind at 1. unfold project_id_of, ret at 1.
      unfold bind at 1. unfold query at 1. step_session.
      fold membership. rewrite Hnone.
      unfold bind at 1. rewrite not_owner_nor_admin_None by exact Hne.
      reflexivity.
    + intros Hdec. unfold run, request, Comments.delete_attachment.
      unfold bind at 1. unfold query at 1. step_session. rewrite Ha.
      unfold bind at 1. unfold query at 1. step_session. rewrite Ht.
      unfold bind at 1. unfold project_id_of, ret at 1.
      unfold bind at 1. unfold query at 1. step_session.
      fold membership.
      unfold bind at 1. rewrite not_owner_nor_admin_decided by exact Hdec.
      destruct (allowed_to_delete _ _ _); [|reflexivity].
      unfold bind, except_FileNotFoundError_pass, os_remove, without_file,
        modify, commit, ret.
      cbn [negb view durable disk faults].
      destruct (existsb (String.eqb (TaskAttachment.file_path a)) fs);
        reflexivity.
Qed.

(** C6, witness: carol, an outsider, on comment 1 and on attachment 1 of the
    example world, both written by bob. *)
Lemma delete_reads_role_of_missing_membership_witness :
  request (Comments.delete_comment 1 Example.carol) Example.world [true]
  = (Raise role_of_None, Example.world)
  /\ request (Comments.delete_attachment 1 Example.carol) Example.world [true]
     = (Raise role_of_None, Example.world).
Proof.
  destruct (delete_reads_role_of_missing_membership Example.world
              Example.carol) as [Hc Ha].
  split.
  - apply (proj1 (Hc 1 Example.comment Example.done_task [true]
                     eq_refl eq_refl)).
    + discriminate.
    + reflexivity.
  - apply (proj1 (Ha 1 Example.attachment Example.done_task [true]
                     eq_refl eq_refl)).
    + discriminate.
    + reflexivity.
Defined.

(** ** update_task and delete_task on archiving *)

(** C5. A member or viewer of the project who did not create the task
    archives it through PUT with [{"is_archived": true}]: the request
    succeeds and the stored task has [is_archived] true, while DELETE of the
    same task by the same actor is denied with 403 and changes nothing. *)
Theorem update_task_archives_for_any_member (w : World) (now task_id : Z)
        (user : Z) (t : Task.t) (m : ProjectMember.t) :
  Tasks.find_task task_id (store w) = Some t ->
  membership_of (Task.project_id t) user (store w) = Some m ->
  ProjectMember.role m = "member" \/ ProjectMember.role m = "viewer" ->
  Task.creator_id t <> user ->
  let t' := Tasks.apply_update now archive_body t in
  run (Tasks.update_task now task_id archive_body user) w
  = (Return t', mkWorld (Tasks.save_task t' (store w)) (files w))
  /\ Task.is_archived t' = Some true
  /\ Tasks.find_task task_id (Tasks.save_task t' (store w)) = Some t'
  /\ run (Tasks.delete_task task_id user) w
     = (Raise (HTTPException 403
                 "Insufficient permissions to delete this task"), w).
Proof.
  intros Hfind Hmem Hrole Hcreator t'. split; [|split; [|split]].
  - apply (update_task_run w now task_id archive_body user t m);
      [assumption | assumption | exact I].
  - reflexivity.
  - apply (find_task_save_task _ _ t); [assumption | apply apply_update_id].
  - destruct w as [db fs]. simpl store in *.
    unfold run, request, Tasks.delete_task.
    unfold bind at 1. unfold query at 1. step_session. rewrite Hfind.
    unfold bind at 1. rewrite (check_project_access_Some _ _ m) by exact Hmem.
    unfold bind at 1. unfold query at 1. step_session. rewrite Hmem.
    apply Z.eqb_neq in Hcreator. rewrite Hcreator.
    unfold bind, role_of, ret, raise. step_session.
    destruct Hrole as [-> | ->]; reflexivity.
Qed.

(** C5, witness: dave, a viewer, archives alice's open task. *)
Lemma update_task_archives_for_any_member_witness :
  exists t',
    run (Tasks.update_task 60 2 archive_body Example.dave)
        Example.world
    = (Return t', mkWorld (Tasks.save_task t' Example.db)
                          (files Example.world))
    /\ Task.is_archived t' = Some true
    /\ Task.creator_id Example.open_task <> Example.dave.
Proof.
  assert (Hc : Task.creator_id Example.open_task <> Example.dave)
    by discriminate.
  destruct (update_task_archives_for_any_member Example.world 60 2
              Example.dave Example.open_task
              (ProjectMember.mk 3 1 Example.dave "viewer" 7)
              eq_refl eq_refl (or_intror eq_refl) Hc) as [Hrun [Harch _]].
  eexists. split; [exact Hrun|]. split; [exact Harch | exact Hc].
Defined.

(** ** get_calendar_tasks *)

Lemma calendar_condition_overlaps (from to : Z) (t : Task.t) :
  is_true_sql (Tasks.calendar_condition from to t) = overlaps_window t from to.
Proof.
  unfold Tasks.calendar_condition, overlaps_window, falls_inside, spans,
    sql_ge, sql_le.
  destruct (Task.start_date t) as [x|], (Task.due_date t) as [y|]; simpl.
  - destruct (from <=? x), (x <=? to), (from <=? y), (y <=? to),
      (x <=? from), (to <=? y); reflexivity.
  - destruct (from <=? x), (x <=? to), (x <=? from); reflexivity.
  - destruct (from <=? y), (y <=? to), (to <=? y); reflexivity.
  - reflexivity.
Qed.

Lemma calendar_where_clause (db : Db) (user from to : Z) (t : Task.t) :
  is_true_sql
    (sql_and
       (sql_and (Some (in_ (Task.project_id t) (accessible_projects db user)))
                (sql_eq_bool (Task.is_archived t) false))
       (Tasks.calendar_condition from to t))
  = in_ (Task.project_id t) (accessible_projects db user)
    && not_archived t && overlaps_window t from to.
Proof.
  rewrite <- calendar_condition_overlaps. unfold not_archived, sql_eq_bool.
  destruct (in_ _ _), (Task.is_archived t) as [[|]|],
    (Tasks.calendar_condition from to t) as [[|]|]; reflexivity.
Qed.

Lemma falls_inside_spec (d : option Z) (from to : Z) :
  falls_inside d from to = true <-> exists x, d = Some x /\ from <= x <= to.
Proof.
  unfold falls_inside. destruct d as [x|].
  - rewrite andb_true_iff, !Z.leb_le. split.
    + intros H. exists x. auto.
    + intros [y [Hy H]]. injection Hy as <-. exact H.
  - split; [discriminate | intros [x [H _]]; discriminate].
Qed.

Lemma spans_spec (t : Task.t) (from to : Z) :
  spans t from to = true <->
  exists x y, Task.start_date t = Some x /\ Task.due_date t = Some y
              /\ x <= from /\ to <= y.
Proof.
  unfold spans.
  destruct (Task.start_date t) as [x|], (Task.due_date t) as [y|].
  - rewrite andb_true_iff, !Z.leb_le. split.
    + intros H. exists x, y. tauto.
    + intros [x' [y' [Hx [Hy H]]]]. injection Hx as <-. injection Hy as <-.
      exact H.
  - split; [discriminate | intros [x' [y' [_ [H _]]]]; discriminate].
  - split; [discriminate | intros [x' [y' [H _]]]; discriminate].
  - split; [discriminate | intros [x' [y' [H _]]]; discriminate].
Qed.

(** The handler [get_calendar_tasks], called directly, returns, whatever
    the store would answer and without writing anything, a reordering of the specified calendar view:
    a task is returned exactly when it is stored, its project is one the
    user has a membership in, it is not archived, and its start falls
    inside [from, to], or its due date does, or it starts no later than
    [from] and is due no earlier than [to]; all bounds inclusive. *)
Theorem get_calendar_tasks_returns_overlapping (w : World)
        (sched : list bool) (from to user : Z) :
  exists rows,
    request (Tasks.get_calendar_tasks from to user) w sched = (Return rows, w)
    /\ Permutation rows (calendar_view (store w) user from to)
    /\ forall t,
        In t rows <->
        In t (tasks (store w))
        /\ has_membership (store w) user (Task.project_id t)
        /\ Task.is_archived t = Some false
        /\ ((exists x, Task.start_date t = Some x /\ from <= x <= to)
            \/ (exists y, Task.due_date t = Some y /\ from <= y <= to)
            \/ (exists x y, Task.start_date t = Some x
                            /\ Task.due_date t = Some y
                            /\ x <= from /\ to <= y)).
Proof.
  destruct w as [db fs].
  assert (Hrows :
    where_ (fun t =>
              sql_and
                (sql_and
                   (Some (in_ (Task.project_id t)
                              (accessible_projects db user)))
                   (sql_eq_bool (Task.is_archived t) false))
                (Tasks.calendar_condition from to t)) (tasks db)
    = calendar_view db user from to).
  { unfold where_, calendar_view. apply filter_ext. intros t.
    apply calendar_where_clause. }
  eexists. split; [|split].
  - unfold request, Tasks.get_calendar_tasks. run_handler. reflexivity.
  - simpl store. rewrite Hrows. apply order_by_perm.
  - intros t. simpl store. rewrite order_by_In, Hrows.
    unfold calendar_view. rewrite filter_In, !andb_true_iff.
    rewrite in_spec, accessible_projects_spec.
    unfold overlaps_window. rewrite !orb_true_iff.
    rewrite !falls_inside_spec, spans_spec.
    unfold has_membership, not_archived.
    split.
    + intros [Hin [[Hm Ha] Ho]]. repeat split; try assumption.
      * destruct (Task.is_archived t) as [[|]|]; congruence.
      * tauto.
    + intros [Hin [Hm [Ha Ho]]]. rewrite Ha. tauto.
Qed.

(** *** The route of the calendar *)

Lemma calendar_path_is_a_task_path (request_path : string) :
  Router.path_match request_path
    (Router.mkRoute "GET" "/calendar" Router.get_calendar_tasks) = true ->
  Router.path_match request_path
    (Router.mkRoute "GET" "/{task_id}" Router.get_task) = true.
Proof.
  unfold Router.path_match, Router.path_params.
  change (Router.segments (Router.prefix ++ Router.path
            (Router.mkRoute "GET" "/calendar" Router.get_calendar_tasks)))
    with [""; "api"; "v1"; "tasks"; "calendar"]%string.
  change (Router.segments (Router.prefix ++ Router.path
            (Router.mkRoute "GET" "/{task_id}" Router.get_task)))
    with [""; "api"; "v1"; "tasks"; "{task_id}"]%string.
  destruct (Router.segments request_path)
    as [|s0 [|s1 [|s2 [|s3 [|s4 [|s5 rest]]]]]];
    cbn [Router.match_path];
    change (Router.param_name "") with (@None string);
    change (Router.param_name "api") with (@None string);
    change (Router.param_name "v1") with (@None string);
    change (Router.param_name "tasks") with (@None string);
    change (Router.param_name "calendar") with (@None string);
    change (Router.param_name "{task_id}") with (Some "task_id");
    cbv iota;
    repeat match goal with
           | |- context [String.eqb ?a ?b] =>
               is_var b; destruct (String.eqb a b) eqn:?
           end;
    try (intros H; discriminate H).
  all: match goal with
       | H : ("calendar" =? ?s)%string = true |- _ =>
           apply String.eqb_eq in H; subst s
       end.
  all: intros _; reflexivity.
Qed.

(** C7. GET /tasks/calendar never reaches [get_calendar_tasks]: the route
    of [get_task], registered first, takes the request, and the text
    "calendar" is not an [int], so the answer is 422, where a path with a
    number goes on to [get_task]. In the example world the calendar of
    alice from 20 to 30 is specified to show the open task. No request at
    all, whatever its method and path, is handed to
    [get_calendar_tasks]. *)
Theorem get_calendar_tasks_route_is_shadowed :
  Router.dispatch "GET" "/api/v1/tasks/calendar"
  = Router.RequestValidationError Router.get_task [("task_id", "calendar")]
  /\ Router.dispatch "GET" "/api/v1/tasks/2"
     = Router.Call Router.get_task [("task_id", 2)]
  /\ calendar_view (store Example.world) Example.alice 20 30
     = [Example.open_task]
  /\ forall request_method request_path params,
      Router.dispatch request_method request_path
      <> Router.Call Router.get_calendar_tasks params.
Proof.
  split; [reflexivity|]. split; [reflexivity|]. split; [reflexivity|].
  intros m p params. unfold Router.dispatch.
  destruct (find (Router.full_match m p) Router.routes) as [r|] eqn:Ef.
  - assert (Hr : Router.endpoint r <> Router.get_calendar_tasks).
    { intros He. unfold Router.routes in Ef. cbn [find] in Ef.
      repeat match type of Ef with
             | (if ?b then _ else _) = _ =>
                 let E := fresh "E" in
                 destruct b eqn:E;
                 [injection Ef as <-; try discriminate He|]
             | None = Some _ => discriminate Ef
             end.
      match goal with
      | E3 : Router.full_match m p
               (Router.mkRoute "GET" "/{task_id}" Router.get_task) = false,
        E7 : Router.full_match m p
               (Router.mkRoute "GET" "/calendar" Router.get_calendar_tasks)
             = true |- _ =>
          unfold Router.full_match in E3, E7;
          pose proof (calendar_path_is_a_task_path p) as Hp;
          unfold Router.path_match in Hp;
          destruct (Router.path_params
                      (Router.mkRoute "GET" "/calendar"
                                      Router.get_calendar_tasks) p);
          [|discriminate E7];
          specialize (Hp eq_refl);
          destruct (Router.path_params
                      (Router.mkRoute "GET" "/{task_id}" Router.get_task) p);
          [|discriminate Hp];
          cbn [Router.method] in E3, E7; congruence
      end. }
    destruct (Router.path_params r p) as [ps|]; [|discriminate].
    destruct (Router.invalid_params ps); [|discriminate].
    intros [= He _]. contradiction.
  - destruct (existsb _ _); discriminate.
Qed.

(** ** get_tasks and get_task on archived tasks *)

Lemma optional_filters_In (assignee_id : option Z)
      (status priority : option string) (parent_task_id : option Z)
      (rows : list Task.t) (t : Task.t) :
  In t (Tasks.optional_filters assignee_id status priority parent_task_id rows)
  -> In t rows.
Proof.
  unfold Tasks.optional_filters. cbv zeta. intros H.
  repeat match type of H with
         | In _ (match ?x with _ => _ end) => destruct x
         | In _ (if ?b then _ else _) => destruct b
         | In _ (where_ _ _) => apply where_In in H; destruct H as [H _]
         end; exact H.
Qed.

Lemma get_tasks_rows_not_archived (project_id assignee_id : option Z)
      (status priority : option string) (parent_task_id : option Z)
      (user : Z) (s s' : Session) (rows : list Task.t) (t : Task.t) :
  Tasks.get_tasks project_id assignee_id status priority parent_task_id user s
  = (Return rows, s') ->
  In t rows -> Task.is_archived t = Some false.
Proof.
  unfold Tasks.get_tasks. unfold bind at 1. intros H Hin.
  match type of H with
  | match ?m with _ => _ end = _ => destruct m as [[base|e] s1]
  end; [|discriminate].
  unfold ret in H. injection H as <- <-.
  apply order_by_In in Hin. apply where_In in Hin. destruct Hin as [_ Ha].
  unfold sql_eq_bool in Ha.
  destruct (Task.is_archived t) as [[|]|]; simpl in Ha; congruence.
Qed.

(** C9. A stored task with [is_archived] true is in no result of
    [get_tasks], whatever the filters; [get_task] on its id, called by a
    user with a membership in its project, returns it. *)
Theorem archived_task_hidden_from_list_not_from_get (w : World) (user : Z)
        (t : Task.t) :
  NoDup (map Task.id (tasks (store w))) ->
  In t (tasks (store w)) ->
  Task.is_archived t = Some true ->
  (forall project_id assignee_id status priority parent_task_id sched rows w',
      request (Tasks.get_tasks project_id assignee_id status priority
                               parent_task_id user) w sched
      = (Return rows, w') ->
      ~ In t rows)
  /\ (forall m sched,
      membership_of (Task.project_id t) user (store w) = Some m ->
      request (Tasks.get_task (Task.id t) user) w sched = (Return t, w)).
Proof.
  intros Hpk Hin Harch. split.
  - intros project_id assignee_id status priority parent_task_id sched rows w'
           Hreq Hrow.
    unfold request in Hreq.
    destruct (Tasks.get_tasks _ _ _ _ _ _ _) as [[rows'|e] s'] eqn:E;
      [|discriminate].
    injection Hreq as <- _.
    apply (get_tasks_rows_not_archived _ _ _ _ _ _ _ _ _ t E) in Hrow.
    congruence.
  - intros m sched Hmem. destruct w as [db fs]. simpl store in *.
    unfold request, Tasks.get_task.
    unfold bind at 1. unfold query at 1. step_session.
    rewrite (find_task_primary_key db t Hpk Hin).
    unfold bind at 1. rewrite (check_project_access_Some _ _ m) by exact Hmem.
    reflexivity.
Qed.

(** C9, witness: the archived task of the example world, seen by bob. It is
    missing from his unfiltered list and returned by id. *)
Lemma archived_task_hidden_from_list_not_from_get_witness :
  (exists rows,
      run (Tasks.get_tasks None None None None None Example.bob) Example.world
      = (Return rows, Example.world)
      /\ ~ In Example.archived_task rows)
  /\ run (Tasks.get_task 3 Example.bob) Example.world
     = (Return Example.archived_task, Example.world).
Proof.
  assert (Hpk : NoDup (map Task.id (tasks (store Example.world)))).
  { simpl. repeat constructor; simpl; intuition discriminate. }
  assert (Hin : In Example.archived_task (tasks (store Example.world))).
  { simpl. auto. }
  destruct (archived_task_hidden_from_list_not_from_get Example.world
              Example.bob Example.archived_task Hpk Hin eq_refl)
    as [Hlist Hget].
  split.
  - eexists. split; [reflexivity|].
    apply (Hlist None None None None None [] _ Example.world eq_refl).
  - apply (Hget (ProjectMember.mk 2 1 Example.bob "member" 6) []).
    reflexivity.
Defined.

(** ** delete_tag *)

Lemma prefix_app (needle post : string) :
  prefix needle (needle ++ post)%string = true.
Proof.
  induction needle as [|c needle IH]; simpl.
  - now destruct post.
  - destruct (Ascii.ascii_dec c c) as [_|Hc]; [exact IH | now elim Hc].
Qed.

Lemma prefix_split (needle hay : string) :
  prefix needle hay = true -> exists post, hay = (needle ++ post)%string.
Proof.
  revert hay. induction needle as [|c needle IH]; intros hay H.
  - exists hay. reflexivity.
  - destruct hay as [|d hay]; simpl in H; [discriminate|].
    destruct (Ascii.ascii_dec c d) as [<-|]; [|discriminate].
    destruct (IH hay H) as [post ->]. now exists post.
Qed.

Lemma contains_prefix (needle hay : string) :
  prefix needle hay = true -> contains needle hay = true.
Proof.
  intros H. destruct hay; unfold contains; fold contains; now rewrite H.
Qed.

Lemma mentions_contains (needle hay : string) :
  mentions needle hay <-> contains needle hay = true.
Proof.
  split.
  - intros [pre [post ->]]. induction pre as [|c pre IH].
    + apply contains_prefix. exact (prefix_app needle post).
    + simpl. rewrite IH. apply orb_true_r.
  - induction hay as [|c hay IH]; intros H;
      unfold contains in H; fold contains in H.
    + rewrite orb_false_r in H. apply prefix_split in H.
      destruct H as [post ->]. now exists EmptyString, post.
    + apply orb_true_iff in H. destruct H as [H|H].
      * apply prefix_split in H. destruct H as [post ->].
        now exists EmptyString, post.
      * destruct (IH H) as [pre [post ->]]. now exists (String c pre), post.
Qed.

Lemma check_delete_permission_spec (tag : Tag.t) (user : Z) (s : Session) :
  if may_delete_tag tag user (view s)
  then Tags.check_delete_permission tag user s = (Return tt, s)
  else exists detail,
      Tags.check_delete_permission tag user s
      = (Raise (HTTPException 403 detail), s).
Proof.
  unfold may_delete_tag, Tags.check_delete_permission, Tags.no_admin_membership.
  destruct (Tag.project_id tag) as [pid|].
  - destruct (pid =? 0); cbn [negb andb].
    + rewrite orb_false_r.
      destruct (Tag.created_by tag =? user); cbn [negb];
        [reflexivity | eexists; reflexivity].
    + unfold bind, query.
      destruct (Tag.created_by tag =? user); cbn [negb andb orb].
      * reflexivity.
      * destruct (membership_of pid user (view s)) as [m|];
          [destruct (py_in (ProjectMember.role m) ["owner"; "admin"])|];
          cbn [negb]; first [reflexivity | eexists; reflexivity].
  - rewrite orb_false_r.
    destruct (Tag.created_by tag =? user); simpl;
      [reflexivity | eexists; reflexivity].
Qed.

Lemma find_tag_drop_tag (db : Db) (tag_id : Z) (tag : Tag.t) :
  Tags.find_tag tag_id db = Some tag ->
  Tags.find_tag tag_id (Tags.drop_tag tag db) = None.
Proof.
  unfold Tags.find_tag, Tags.drop_tag, first. simpl. intros H.
  apply find_some in H. destruct H as [_ Hid]. apply Z.eqb_eq in Hid.
  destruct (find _ (filter _ _)) as [x|] eqn:E; [|reflexivity].
  apply find_some in E. destruct E as [Hin Hx].
  apply filter_In in Hin. destruct Hin as [_ Hne].
  apply Z.eqb_eq in Hx. rewrite Hx, Hid, Z.eqb_refl in Hne. discriminate.
Qed.

(** C8, counterexample. Tag 1 is used by one task. Carol, who neither
    created it nor belongs to its project, asks to delete it: the request
    fails on the permission check, and the 403 message has no count in
    it. *)
Lemma delete_tag_denied_without_count :
  Tags.usage_count 1 Example.db = 1%nat
  /\ run (Tags.delete_tag 1 Example.carol) Example.world
     = (Raise (HTTPException 403
                 "Insufficient permissions to delete this tag"),
        Example.world)
  /\ ~ mentions (py_str_of_nat 1)
                "Insufficient permissions to delete this tag".
Proof.
  split; [reflexivity|]. split; [reflexivity|].
  rewrite mentions_contains. vm_compute. discriminate.
Qed.

(** C8, as amended. On a stored tag referenced by [n > 0] [TaskTag] rows,
    [delete_tag] fails for every actor and leaves every row in place; for
    an actor who passes the permission check the error is the 400 whose
    message includes [n]. When [n = 0] and the actor passes the permission
    check, the tag row is deleted and no [TaskTag] row is touched. *)
Theorem delete_tag_in_use_or_not (w : World) (tag_id user : Z) (tag : Tag.t)
        (sched : list bool) :
  Tags.find_tag tag_id (store w) = Some tag ->
  let n := Tags.usage_count tag_id (store w) in
  ((0 < n)%nat ->
   exists e, request (Tags.delete_tag tag_id user) w sched = (Raise e, w))
  /\ ((0 < n)%nat -> may_delete_tag tag user (store w) = true ->
      request (Tags.delete_tag tag_id user) w sched
      = (Raise (HTTPException 400 (Tags.in_use_detail n)), w)
      /\ mentions (py_str_of_nat n) (Tags.in_use_detail n))
  /\ (n = 0%nat -> may_delete_tag tag user (store w) = true ->
      run (Tags.delete_tag tag_id user) w
      = (Return "Tag deleted successfully",
         mkWorld (Tags.drop_tag tag (store w)) (files w))
      /\ Tags.find_tag tag_id (Tags.drop_tag tag (store w)) = None
      /\ task_tags (Tags.drop_tag tag (store w)) = task_tags (store w)).
Proof.
  intros Hfind n. destruct w as [db fs]. simpl store in *. simpl files.
  assert (Hstart : forall sch,
    request (Tags.delete_tag tag_id user) (mkWorld db fs) sch
    = let s := mkSession db db fs sch in
      let '(r, s') :=
        (Tags.check_delete_permission tag user ;;;
         k <- query (Tags.usage_count tag_id) ;;
         if (0 <? k)%nat
         then raise (HTTPException 400 (Tags.in_use_detail k))
         else modify (Tags.drop_tag tag) ;;; commit ;;;
              ret "Tag deleted successfully") s in
      (r, mkWorld (durable s') (disk s'))).
  { intros sch. unfold request, Tags.delete_tag.
    unfold bind at 1. unfold query at 1. step_session. now rewrite Hfind. }
  pose proof (fun sch =>
    check_delete_permission_spec tag user (mkSession db db fs sch)) as Hperm.
  simpl view in Hperm.
  split; [|split].
  - intros Hn. rewrite Hstart. cbv zeta. unfold bind at 1.
    specialize (Hperm sched).
    destruct (may_delete_tag tag user db).
    + rewrite Hperm. unfold bind, query, raise. step_session. fold n.
      apply Nat.ltb_lt in Hn. rewrite Hn. eauto.
    + destruct Hperm as [detail ->]. eauto.
  - intros Hn Hmay. split.
    + rewrite Hstart. cbv zeta. unfold bind at 1.
      specialize (Hperm sched). rewrite Hmay in Hperm. rewrite Hperm.
      unfold bind, query, raise. step_session. fold n.
      apply Nat.ltb_lt in Hn. now rewrite Hn.
    + unfold Tags.in_use_detail. now eexists _, _.
  - intros Hn Hmay. split; [|split].
    + unfold run. rewrite Hstart. cbv zeta. unfold bind at 1.
      specialize (Hperm []). rewrite Hmay in Hperm. rewrite Hperm.
      unfold bind, query, modify, commit, ret. step_session. fold n.
      rewrite Hn. reflexivity.
    + now apply find_tag_drop_tag.
    + reflexivity.
Qed.

(** C8, witness: alice, who created tag 1, is told that one task uses it;
    bob deletes his unused global tag. *)
Lemma delete_tag_in_use_or_not_witness :
  run (Tags.delete_tag 1 Example.alice) Example.world
  = (Raise (HTTPException 400
              "Tag is being used by 1 task(s). Cannot delete."),
     Example.world)
  /\ run (Tags.delete_tag 2 Example.bob) Example.world
     = (Return "Tag deleted successfully",
        mkWorld (Tags.drop_tag Example.spare_tag Example.db)
                (files Example.world)).
Proof.
  split.
  - destruct (delete_tag_in_use_or_not Example.world 1 Example.alice
                Example.tag [] eq_refl) as [_ [H _]].
    apply H.
    + apply Nat.ltb_lt. reflexivity.
    + reflexivity.
  - destruct (delete_tag_in_use_or_not Example.world 2 Example.bob
                Example.spare_tag [] eq_refl) as [_ [_ H]].
    apply H; reflexivity.
Defined.

(** ** Notifications *)

Lemma set_is_read_same (v : option bool) (n : Notification.t) :
  same_but_is_read n (Notification.set_is_read v n).
Proof. unfold same_but_is_read. simpl. repeat split. Qed.

Lemma mark_all_rows_idempotent (user : Z) (rows : list Notification.t) :
  Tags.mark_all_rows user (Tags.mark_all_rows user rows)
  = Tags.mark_all_rows user rows.
Proof.
  unfold Tags.mark_all_rows. rewrite map_map. apply map_ext. intros n.
  destruct (Tags.unread_of user n) eqn:E; [|now rewrite E].
  unfold Tags.unread_of, sql_eq_bool. simpl.
  destruct (Notification.user_id n =? user); reflexivity.
Qed.

Lemma unread_of_spec (user : Z) (n : Notification.t) :
  Tags.unread_of user n = true <->
  Notification.user_id n = user /\ Notification.is_read n = Some false.
Proof.
  unfold Tags.unread_of, sql_eq_bool.
  destruct (Notification.user_id n =? user) eqn:Eu;
    destruct (Notification.is_read n) as [[|]|]; simpl;
    (apply Z.eqb_eq in Eu || apply Z.eqb_neq in Eu);
    split; try discriminate; try tauto; intros [? ?]; congruence.
Qed.

Lemma mark_all_rows_effect (user : Z) (rows : list Notification.t) :
  Forall2 (fun n n' =>
             same_but_is_read n n'
             /\ (Notification.user_id n = user
                 /\ Notification.is_read n = Some false ->
                 Notification.is_read n' = Some true)
             /\ (~ (Notification.user_id n = user
                    /\ Notification.is_read n = Some false) ->
                 n' = n))
          rows (Tags.mark_all_rows user rows).
Proof.
  induction rows as [|n rows IH]; simpl; constructor; [|exact IH].
  destruct (Tags.unread_of user n) eqn:E.
  - split; [apply set_is_read_same|]. split; [reflexivity|].
    intros Hn. apply unread_of_spec in E. contradiction.
  - split; [unfold same_but_is_read; repeat split|].
    split; [|reflexivity].
    intros Hn. apply unread_of_spec in Hn. congruence.
Qed.

(** After the UPDATE of the row found by [(id, user_id)], the same lookup
    finds the updated row. *)
Lemma first_after_mark (nid user : Z) (rows : list Notification.t)
      (n : Notification.t) :
  let p := fun x => (Notification.id x =? nid)
                    && (Notification.user_id x =? user) in
  let n' := Notification.set_is_read (Some true) n in
  first p rows = Some n ->
  first p (map (fun x => if Notification.id x =? Notification.id n'
                         then n' else x) rows)
  = Some n'.
Proof.
  intros p n' H. unfold first in *.
  assert (Hp : p n' = true).
  { apply find_some in H. exact (proj2 H). }
  induction rows as [|x rows IH]; simpl in *; [discriminate|].
  destruct (Notification.id x =? Notification.id n) eqn:Ex.
  - fold n'. now rewrite Hp.
  - destruct (p x) eqn:Epx.
    + injection H as ->. rewrite Z.eqb_refl in Ex. discriminate.
    + now apply IH.
Qed.

Lemma save_notification_twice (n' : Notification.t) (db : Db) :
  Tags.save_notification n' (Tags.save_notification n' db)
  = Tags.save_notification n' db.
Proof.
  unfold Tags.save_notification, with_notifications. simpl. f_equal.
  rewrite map_map. apply map_ext. intros x.
  destruct (Notification.id x =? Notification.id n') eqn:E.
  - now rewrite Z.eqb_refl.
  - now rewrite E.
Qed.

Lemma mark_notification_read_run (w : World) (nid user : Z) :
  run (Tags.mark_notification_read nid user) w
  = match first (fun n => (Notification.id n =? nid)
                          && (Notification.user_id n =? user))
                (notifications (store w)) with
    | Some n =>
        (Return "Notification marked as read",
         mkWorld (Tags.save_notification
                    (Notification.set_is_read (Some true) n) (store w))
                 (files w))
    | None => (Raise (HTTPException 404 "Notification not found"), w)
    end.
Proof.
  destruct w as [db fs]. unfold run, request, Tags.mark_notification_read.
  unfold bind at 1. unfold query at 1. step_session.
  destruct (first _ (notifications db)); reflexivity.
Qed.

(** C10. With no refused commit: marking a notification read twice gives
    the outcome and the world of marking it once, and so does marking all
    read. [mark_all_notifications_read] rewrites the notification table row
    by row and no other table: a row of the acting user whose [is_read] is
    false gets [is_read] true and keeps its other columns; every other row
    is unchanged. *)
Theorem mark_read_idempotent_and_scoped (w : World) (user : Z) :
  (forall notification_id,
      let once := run (Tags.mark_notification_read notification_id user) w in
      run (Tags.mark_notification_read notification_id user) (snd once)
      = once)
  /\ (let once := run (Tags.mark_all_notifications_read user) w in
      run (Tags.mark_all_notifications_read user) (snd once) = once)
  /\ (exists rows',
      run (Tags.mark_all_notifications_read user) w
      = (Return "All notifications marked as read",
         mkWorld (with_notifications rows' (store w)) (files w))
      /\ Forall2 (fun n n' =>
                    same_but_is_read n n'
                    /\ (Notification.user_id n = user
                        /\ Notification.is_read n = Some false ->
                        Notification.is_read n' = Some true)
                    /\ (~ (Notification.user_id n = user
                           /\ Notification.is_read n = Some false) ->
                        n' = n))
                 (notifications (store w)) rows').
Proof.
  destruct w as [db fs]. split; [|split].
  - intros nid. cbv zeta. rewrite (mark_notification_read_run (mkWorld db fs)).
    cbn [store files].
    destruct (first _ (notifications db)) as [n|] eqn:E; cbn [snd].
    + rewrite mark_notification_read_run. cbn [store files].
      unfold Tags.save_notification at 1.
      cbn [notifications with_notifications].
      rewrite (first_after_mark nid user (notifications db) n E).
      change (Notification.set_is_read (Some true)
                (Notification.set_is_read (Some true) n))
        with (Notification.set_is_read (Some true) n).
      now rewrite save_notification_twice.
    + rewrite mark_notification_read_run. cbn [store files]. now rewrite E.
  - cbv zeta. unfold run, request, Tags.mark_all_notifications_read.
    run_handler. unfold with_notifications. simpl.
    now rewrite mark_all_rows_idempotent.
  - exists (Tags.mark_all_rows user (notifications db)). split.
    + reflexivity.
    + apply mark_all_rows_effect.
Qed.

(** * Further properties of the handlers *)

(** ** Lookups in a table that grew or was rewritten *)

Lemma find_app_fresh {A} (p : A -> bool) (l : list A) (x : A) :
  find p (l ++ [x])
  = match find p l with
    | Some y => Some y
    | None => if p x then Some x else None
    end.
Proof.
  induction l as [|y l IH]; simpl; [reflexivity|].
  destruct (p y); [reflexivity | exact IH].
Qed.

Lemma find_none_fresh_id {A} (key : A -> Z) (l : list A) :
  find (fun y => key y =? next_id (map key l)) l = None.
Proof.
  destruct (find _ l) as [y|] eqn:E; [|reflexivity].
  apply find_some in E. destruct E as [Hin He]. apply Z.eqb_eq in He.
  exfalso. apply (next_id_fresh (map key l)). rewrite <- He.
  now apply in_map.
Qed.

Lemma filter_drop_fresh {A} (key : A -> Z) (l : list A) (k : Z) :
  ~ In k (map key l) ->
  filter (fun y => negb (key y =? k)) l = l.
Proof.
  induction l as [|y l IH]; simpl; intros H; [reflexivity|].
  destruct (key y =? k) eqn:E.
  - apply Z.eqb_eq in E. exfalso. apply H. now left.
  - simpl. f_equal. apply IH. intros Hin. apply H. now right.
Qed.

Lemma map_id_rewrite {A} (key : A -> Z) (x' : A) (l : list A) :
  map key (map (fun x => if key x =? key x' then x' else x) l) = map key l.
Proof.
  rewrite map_map. apply map_ext. intros x.
  destruct (key x =? key x') eqn:E; [|reflexivity].
  apply Z.eqb_eq in E. now rewrite E.
Qed.

(** ** The outcomes of the task handlers *)

Lemma create_task_outcome (w : World) (sched : list bool) (now : Z)
      (data : TaskCreate.t) (user : Z) :
  request (Tasks.create_task now data user) w sched
  = if negb (is_member (TaskCreate.project_id data) user (store w))
    then (Raise (HTTPException 403 "No access to this project"), w)
    else if negb (parent_accepted data (store w))
    then (Raise (HTTPException 400
                   "Parent task not found or not in the same project"), w)
    else if negb (assignee_is_member (TaskCreate.project_id data)
                    (TaskCreate.assignee_id data) (store w))
    then (Raise (HTTPException 403 "No access to this project"), w)
    else if accepted sched 0
    then let t := new_task_row now data user (store w) in
         (Return t,
          mkWorld (with_tasks (tasks (store w) ++ [t]) (store w)) (files w))
    else (Raise DBAPIError, w).
Proof.
  destruct w as [db fs].
  unfold Tasks.create_task, Tasks.check_project_access,
    parent_accepted, assignee_is_member, is_member, accepted, new_task_row.
  open_handler. crunch.
Qed.

Lemma update_task_outcome (w : World) (sched : list bool) (now task_id : Z)
      (u : TaskUpdate.t) (user : Z) :
  request (Tasks.update_task now task_id u user) w sched
  = match Tasks.find_task task_id (store w) with
    | None => (Raise (HTTPException 404 "Task not found"), w)
    | Some t =>
        if negb (is_member (Task.project_id t) user (store w))
        then (Raise (HTTPException 403 "No access to this project"), w)
        else if negb (assignee_is_member (Task.project_id t)
                        (field_value (TaskUpdate.assignee_id u)) (store w))
        then (Raise (HTTPException 403 "No access to this project"), w)
        else if accepted sched 0
        then let t' := Tasks.apply_update now u t in
             (Return t', mkWorld (Tasks.save_task t' (store w)) (files w))
        else (Raise DBAPIError, w)
    end.
Proof.
  destruct w as [db fs].
  unfold Tasks.update_task, Tasks.check_project_access,
    assignee_is_member, is_member, accepted.
  open_handler. crunch.
Qed.

Lemma delete_task_outcome (w : World) (sched : list bool) (task_id : Z)
      (user : Z) :
  request (Tasks.delete_task task_id user) w sched
  = match Tasks.find_task task_id (store w) with
    | None => (Raise (HTTPException 404 "Task not found"), w)
    | Some t =>
        match membership_of (Task.project_id t) user (store w) with
        | None => (Raise (HTTPException 403 "No access to this project"), w)
        | Some m =>
            if (Task.creator_id t =? user)
               || py_in (ProjectMember.role m) ["owner"; "admin"]
            then if accepted sched 0
                 then (Return "Task archived successfully",
                       mkWorld (Tasks.save_task
                                  (Task.set_is_archived (Some true) t)
                                  (store w)) (files w))
                 else (Raise DBAPIError, w)
            else (Raise (HTTPException 403
                           "Insufficient permissions to delete this task"), w)
        end
    end.
Proof.
  destruct w as [db fs].
  unfold Tasks.delete_task, Tasks.check_project_access, role_of, accepted.
  open_handler. crunch.
Qed.

Lemma get_task_outcome (w : World) (sched : list bool) (task_id user : Z) :
  request (Tasks.get_task task_id user) w sched
  = match Tasks.find_task task_id (store w) with
    | None => (Raise (HTTPException 404 "Task not found"), w)
    | Some t =>
        if is_member (Task.project_id t) user (store w)
        then (Return t, w)
        else (Raise (HTTPException 403 "No access to this project"), w)
    end.
Proof.
  destruct w as [db fs].
  unfold Tasks.get_task, Tasks.check_project_access, is_member.
  open_handler. crunch.
Qed.

Lemma get_subtasks_outcome (w : World) (sched : list bool)
      (task_id user : Z) :
  request (Tasks.get_subtasks task_id user) w sched
  = match Tasks.find_task task_id (store w) with
    | None => (Raise (HTTPException 404 "Parent task not found"), w)
    | Some p =>
        if is_member (Task.project_id p) user (store w)
        then (Return
                (order_by Tasks.position_then_created
                   (where_ (fun t =>
                              sql_and
                                (sql_eq_int (Task.parent_task_id t) task_id)
                                (sql_eq_bool (Task.is_archived t) false))
                           (tasks (store w)))), w)
        else (Raise (HTTPException 403 "No access to this project"), w)
    end.
Proof.
  destruct w as [db fs].
  unfold Tasks.get_subtasks, Tasks.check_project_access, is_member.
  open_handler. crunch.
Qed.

Lemma is_member_spec (db : Db) (pid user : Z) :
  is_member pid user db = true <-> has_membership db user pid.
Proof.
  unfold is_member, has_membership, membership_of, first. split.
  - destruct (find _ _) as [m|] eqn:E; [|discriminate]. intros _.
    apply find_some in E. destruct E as [Hin Hb].
    apply andb_true_iff in Hb. destruct Hb as [Hp Hu].
    apply Z.eqb_eq in Hp. apply Z.eqb_eq in Hu. now exists m.
  - intros [m [Hin [Hu Hp]]].
    destruct (find _ _) as [m'|] eqn:E; [reflexivity|].
    apply (find_none _ _ E) in Hin.
    rewrite Hu, Hp, !Z.eqb_refl in Hin. discriminate.
Qed.
(** ** create_task: what is checked and what is stored *)

Lemma same_but_tasks_with_tasks (rows : list Task.t) (db : Db) :
  same_but_tasks db (with_tasks rows db).
Proof. unfold same_but_tasks. simpl. repeat split. Qed.

Lemma same_but_tasks_refl (db : Db) : same_but_tasks db db.
Proof. unfold same_but_tasks. repeat split. Qed.

(** X1. A task is created only by a member of its project, with a parent
    (when one is named) stored in the same project and an assignee (when one
    is named) who is a member; it gets an unused id, its creator is the
    caller, it is not archived, and it is appended to the table while
    nothing else changes. A refused creation changes nothing. *)
Theorem create_task_checks_and_stores (w : World) (sched : list bool)
        (now : Z) (data : TaskCreate.t) (user : Z) :
  match request (Tasks.create_task now data user) w sched with
  | (Return t, w') =>
      has_membership (store w) user (Task.project_id t)
      /\ Task.creator_id t = user
      /\ Task.is_archived t = Some false
      /\ ~ In (Task.id t) (map Task.id (tasks (store w)))
      /\ (forall p, Task.parent_task_id t = Some p -> p <> 0 ->
          exists q, In q (tasks (store w)) /\ Task.id q = p
                    /\ Task.project_id q = Task.project_id t)
      /\ (forall a, Task.assignee_id t = Some a -> a <> 0 ->
          has_membership (store w) a (Task.project_id t))
      /\ tasks (store w') = tasks (store w) ++ [t]
      /\ same_but_tasks (store w) (store w')
      /\ files w' = files w
  | (Raise e, w') => w' = w
  end.
Proof.
  rewrite create_task_outcome.
  destruct (is_member _ user _) eqn:Em; cbn [negb]; [|reflexivity].
  destruct (parent_accepted data (store w)) eqn:Ep; cbn [negb];
    [|reflexivity].
  destruct (assignee_is_member _ _ _) eqn:Ea; cbn [negb]; [|reflexivity].
  destruct (accepted sched 0); [|reflexivity].
  cbv zeta. cbn [store files].
  cbn [new_task_row Task.project_id Task.creator_id Task.is_archived Task.id
       Task.parent_task_id Task.assignee_id].
  split; [now apply is_member_spec|].
  split; [reflexivity|]. split; [reflexivity|].
  split; [apply next_id_fresh|].
  split; [|split; [|split; [reflexivity|split;
    [apply same_but_tasks_with_tasks | reflexivity]]]].
  - intros p Hp Hne. unfold parent_accepted in Ep. rewrite Hp in Ep.
    apply Z.eqb_neq in Hne. rewrite Hne in Ep. cbn [orb] in Ep.
    destruct (Tasks.find_task p (store w)) as [q|] eqn:Eq; [|discriminate].
    apply Z.eqb_eq in Ep. apply find_some in Eq. destruct Eq as [Hin Hid].
    apply Z.eqb_eq in Hid. now exists q.
  - intros a Ha Hne. unfold assignee_is_member in Ea. rewrite Ha in Ea.
    apply Z.eqb_neq in Hne. rewrite Hne in Ea. cbn [orb] in Ea.
    now apply is_member_spec.
Qed.

Lemma membership_of_with_tasks (rows : list Task.t) (db : Db) (p u : Z) :
  membership_of p u (with_tasks rows db) = membership_of p u db.
Proof. reflexivity. Qed.

Lemma find_task_appended_new (db : Db) (t : Task.t) :
  Task.id t = next_id (map Task.id (tasks db)) ->
  Tasks.find_task (Task.id t) (with_tasks (tasks db ++ [t]) db) = Some t.
Proof.
  intros Hid. unfold Tasks.find_task, first. cbn [tasks with_tasks].
  rewrite find_app_fresh, Hid.
  rewrite (find_none_fresh_id Task.id). now rewrite Z.eqb_refl.
Qed.

Lemma find_task_appended_old (db : Db) (t p : Task.t) (pid : Z) :
  Tasks.find_task pid db = Some p ->
  Tasks.find_task pid (with_tasks (tasks db ++ [t]) db) = Some p.
Proof.
  unfold Tasks.find_task, first. cbn [tasks with_tasks]. intros H.
  now rewrite find_app_fresh, H.
Qed.

Lemma create_task_Return (w w' : World) (sched : list bool) (now : Z)
      (data : TaskCreate.t) (user : Z) (t : Task.t) :
  request (Tasks.create_task now data user) w sched = (Return t, w') ->
  is_member (TaskCreate.project_id data) user (store w) = true
  /\ parent_accepted data (store w) = true
  /\ t = new_task_row now data user (store w)
  /\ w' = mkWorld (with_tasks (tasks (store w) ++ [t]) (store w)) (files w).
Proof.
  rewrite create_task_outcome.
  destruct (is_member _ user _); cbn [negb]; [|discriminate].
  destruct (parent_accepted data (store w)); cbn [negb]; [|discriminate].
  destruct (assignee_is_member _ _ _); cbn [negb]; [|discriminate].
  destruct (accepted sched 0); [|discriminate].
  cbv zeta. intros [= <- <-]. auto.
Qed.

(** X2. Insert then look up: after a successful [create_task], [get_task]
    on the new id, by the creator, returns the created task and changes
    nothing. *)
Theorem create_task_then_get_task (w w' : World) (sched sched' : list bool)
        (now : Z) (data : TaskCreate.t) (user : Z) (t : Task.t) :
  request (Tasks.create_task now data user) w sched = (Return t, w') ->
  request (Tasks.get_task (Task.id t) user) w' sched' = (Return t, w').
Proof.
  intros H. apply create_task_Return in H.
  destruct H as [Hm [_ [Ht ->]]].
  rewrite get_task_outcome. cbn [store].
  rewrite find_task_appended_new by (now rewrite Ht).
  unfold is_member in *. rewrite membership_of_with_tasks.
  rewrite Ht at 1. cbn [new_task_row Task.project_id].
  destruct (membership_of _ user (store w)); [reflexivity | discriminate].
Qed.

(** X2, witness: alice's task of the example world, created and fetched. *)
Lemma create_task_then_get_task_witness :
  let t := new_task_row 50 Example.created_done Example.alice Example.db in
  let w' := mkWorld (with_tasks (tasks Example.db ++ [t]) Example.db)
                    (files Example.world) in
  run (Tasks.create_task 50 Example.created_done Example.alice) Example.world
  = (Return t, w')
  /\ run (Tasks.get_task 4 Example.alice) w' = (Return t, w').
Proof.
  cbv zeta. split; [reflexivity|].
  apply (create_task_then_get_task Example.world
           (mkWorld (with_tasks
                       (tasks Example.db
                        ++ [new_task_row 50 Example.created_done
                                         Example.alice Example.db])
                       Example.db)
                    (files Example.world))
           [] [] 50 Example.created_done Example.alice
           (new_task_row 50 Example.created_done Example.alice Example.db)).
  reflexivity.
Defined.

(** X3. A task created under a parent shows up among the parent's
    subtasks: after a successful [create_task] naming a non-zero parent,
    [get_subtasks] of that parent, by the creator, succeeds and contains the
    new task. *)
Theorem create_task_then_get_subtasks (w w' : World)
        (sched sched' : list bool) (now : Z) (data : TaskCreate.t)
        (user parent : Z) (t : Task.t) :
  request (Tasks.create_task now data user) w sched = (Return t, w') ->
  TaskCreate.parent_task_id data = Some parent ->
  parent <> 0 ->
  exists rows,
    request (Tasks.get_subtasks parent user) w' sched' = (Return rows, w')
    /\ In t rows.
Proof.
  intros H Hp Hne. apply create_task_Return in H.
  destruct H as [Hm [Hpa [Ht ->]]].
  unfold parent_accepted in Hpa. rewrite Hp in Hpa.
  apply Z.eqb_neq in Hne. rewrite Hne in Hpa. cbn [orb] in Hpa.
  destruct (Tasks.find_task parent (store w)) as [q|] eqn:Eq; [|discriminate].
  apply Z.eqb_eq in Hpa.
  rewrite get_subtasks_outcome. cbn [store].
  rewrite (find_task_appended_old _ _ q) by exact Eq.
  unfold is_member in *. rewrite membership_of_with_tasks, Hpa.
  destruct (membership_of _ user (store w)); [|discriminate].
  eexists. split; [reflexivity|].
  apply order_by_In, where_In. cbn [tasks with_tasks]. split.
  - apply in_or_app. right. now left.
  - rewrite Ht. cbn [new_task_row Task.parent_task_id Task.is_archived].
    rewrite Hp. unfold sql_eq_int, sql_eq_bool. simpl.
    now rewrite Z.eqb_refl.
Qed.

(** X3, witness: alice adds a subtask to the open task of the example. *)
Lemma create_task_then_get_subtasks_witness :
  let data := TaskCreate.mk "Collect figures" None None "medium" "todo" None
                            None None 1 (Some 2) in
  let t := new_task_row 50 data Example.alice Example.db in
  let w' := mkWorld (with_tasks (tasks Example.db ++ [t]) Example.db)
                    (files Example.world) in
  exists rows,
    run (Tasks.get_subtasks 2 Example.alice) w' = (Return rows, w')
    /\ In t rows.
Proof.
  cbv zeta.
  apply (create_task_then_get_subtasks Example.world _ [] [] 50
           (TaskCreate.mk "Collect figures" None None "medium" "todo" None
                          None None 1 (Some 2))
           Example.alice 2).
  - reflexivity.
  - reflexivity.
  - discriminate.
Defined.
(** ** update_task and delete_task: what they may change *)

Lemma apply_item_same_identity (t : Task.t) (it : TaskUpdate.item) :
  same_identity t (Tasks.apply_item t it).
Proof. unfold same_identity. destruct it; simpl; auto. Qed.

Lemma same_identity_trans (a b c : Task.t) :
  same_identity a b -> same_identity b c -> same_identity a c.
Proof.
  unfold same_identity.
  intros [H1 [H2 [H3 [H4 H5]]]] [K1 [K2 [K3 [K4 K5]]]].
  repeat split; congruence.
Qed.

Lemma same_identity_refl (a : Task.t) : same_identity a a.
Proof. unfold same_identity. auto. Qed.

Lemma apply_items_same_identity (items : list TaskUpdate.item) (t : Task.t) :
  same_identity t (fold_left Tasks.apply_item items t).
Proof.
  revert t. induction items as [|it items IH]; intros t; simpl.
  - apply same_identity_refl.
  - eapply same_identity_trans; [apply apply_item_same_identity | apply IH].
Qed.

Lemma apply_update_same_identity (now : Z) (u : TaskUpdate.t) (t : Task.t) :
  same_identity t (Tasks.apply_update now u t).
Proof.
  unfold Tasks.apply_update.
  eapply same_identity_trans; [|eapply same_identity_trans].
  - instantiate (1 := Tasks.stamp_completed_at now
                        (field_value (TaskUpdate.status u)) t).
    unfold Tasks.stamp_completed_at, same_identity.
    destruct (_ && _); [simpl; auto|]. destruct (_ && _); simpl; auto.
  - apply apply_items_same_identity.
  - unfold Tasks.apply_status, same_identity.
    destruct (field_value (TaskUpdate.status u)) as [s|];
      [destruct (negb _)|]; simpl; auto.
Qed.

Lemma find_task_id (db : Db) (task_id : Z) (t : Task.t) :
  Tasks.find_task task_id db = Some t -> Task.id t = task_id.
Proof.
  unfold Tasks.find_task, first. intros H. apply find_some in H.
  now apply Z.eqb_eq.
Qed.

Lemma find_task_unique (db : Db) (task_id : Z) (t x : Task.t) :
  NoDup (map Task.id (tasks db)) ->
  Tasks.find_task task_id db = Some t ->
  In x (tasks db) -> Task.id x = task_id -> x = t.
Proof.
  intros Hpk Hf Hin Hid.
  rewrite <- Hid in Hf. rewrite (find_task_primary_key db x Hpk Hin) in Hf.
  congruence.
Qed.

(** The rows of the task table after the UPDATE of a row found by id. *)
Lemma save_task_rows (db : Db) (task_id : Z) (t t' : Task.t) :
  NoDup (map Task.id (tasks db)) ->
  Tasks.find_task task_id db = Some t ->
  same_identity t t' ->
  Forall2 (fun x x' => (x = t /\ x' = t') \/ (Task.id x <> task_id /\ x' = x))
          (tasks db) (tasks (Tasks.save_task t' db)).
Proof.
  intros Hpk Hf Hsame. unfold Tasks.save_task. cbn [tasks with_tasks].
  assert (Hall : forall x, In x (tasks db) -> Task.id x = task_id -> x = t)
    by (intros x; apply (find_task_unique db task_id t x Hpk Hf)).
  destruct Hsame as [Hid _]. apply find_task_id in Hf. clear Hpk.
  revert Hall. induction (tasks db) as [|x l IH]; intros Hall; simpl;
    constructor.
  - destruct (Task.id x =? Task.id t') eqn:E.
    + left. apply Z.eqb_eq in E. split; [|reflexivity].
      apply Hall; [now left | congruence].
    + right. apply Z.eqb_neq in E. split; [congruence | reflexivity].
  - apply IH. intros y Hy. apply Hall. now right.
Qed.

Lemma Forall2_same {A} (R : A -> A -> Prop) (l : list A) :
  (forall x, In x l -> R x x) -> Forall2 R l l.
Proof.
  induction l as [|x l IH]; intros H; constructor.
  - apply H. now left.
  - apply IH. intros y Hy. apply H. now right.
Qed.

(** X4. Under the primary key on task ids, [update_task] and [delete_task]
    keep the table row for row: no task changes its id, project, creator,
    parent or creation time, a task with another id is not touched, and no
    other table nor any file changes. *)
Theorem task_writes_keep_identity (w : World) (sched : list bool)
        (now task_id : Z) (u : TaskUpdate.t) (user : Z) :
  NoDup (map Task.id (tasks (store w))) ->
  forall w',
    w' = snd (request (Tasks.update_task now task_id u user) w sched)
    \/ w' = snd (request (Tasks.delete_task task_id user) w sched) ->
    Forall2 (fun t t' => same_identity t t'
                         /\ (Task.id t <> task_id -> t' = t))
            (tasks (store w)) (tasks (store w'))
    /\ same_but_tasks (store w) (store w')
    /\ files w' = files w.
Proof.
  intros Hpk w' Hw'.
  assert (Hcases :
    w' = w
    \/ exists t t', Tasks.find_task task_id (store w) = Some t
                    /\ same_identity t t'
                    /\ w' = mkWorld (Tasks.save_task t' (store w)) (files w)).
  { destruct Hw' as [-> | ->].
    - rewrite update_task_outcome.
      destruct (Tasks.find_task task_id (store w)) as [t|] eqn:Ef;
        [|now left].
      destruct (negb (is_member _ _ _)); [now left|].
      destruct (negb (assignee_is_member _ _ _)); [now left|].
      destruct (accepted sched 0); [|now left].
      right. exists t, (Tasks.apply_update now u t).
      split; [reflexivity|]. split; [apply apply_update_same_identity|].
      reflexivity.
    - rewrite delete_task_outcome.
      destruct (Tasks.find_task task_id (store w)) as [t|] eqn:Ef;
        [|now left].
      destruct (membership_of _ _ _) as [m|]; [|now left].
      destruct (_ || _); [|now left].
      destruct (accepted sched 0); [|now left].
      right. exists t, (Task.set_is_archived (Some true) t).
      split; [reflexivity|]. split; [|reflexivity].
      unfold same_identity. simpl. auto. }
  destruct Hcases as [-> | [t [t' [Hf [Hsame ->]]]]].
  - split; [|split; [apply same_but_tasks_refl | reflexivity]].
    apply Forall2_same. intros x _. split; [apply same_identity_refl | auto].
  - cbn [store files].
    split; [|split; [apply same_but_tasks_with_tasks | reflexivity]].
    eapply Forall2_impl; [|apply (save_task_rows _ task_id t t' Hpk Hf Hsame)].
    intros x x' [[-> ->] | [Hne ->]].
    + split; [exact Hsame|]. intros Hne. apply find_task_id in Hf.
      contradiction.
    + split; [apply same_identity_refl | auto].
Qed.

(** X4, witness: bob moves the open task of the example to review. *)
Lemma task_writes_keep_identity_witness :
  let u := TaskUpdate.mk Unset Unset Unset Unset (Provided (Some "review"))
                         Unset Unset Unset Unset in
  let w' := snd (run (Tasks.update_task 70 2 u Example.bob) Example.world) in
  Tasks.find_task 2 (store w')
  = Some (Task.set_status "review" Example.open_task)
  /\ Forall2 (fun t t' => same_identity t t' /\ (Task.id t <> 2 -> t' = t))
             (tasks Example.db) (tasks (store w')).
Proof.
  cbv zeta. split; [reflexivity|].
  refine (proj1 (task_writes_keep_identity Example.world [] 70 2 _
                   Example.bob _ _ (or_introl eq_refl))).
  simpl. repeat constructor; simpl; intuition discriminate.
Defined.
(** ** update_task: the assignee *)

Lemma apply_update_assignee (now : Z) (u : TaskUpdate.t) (t : Task.t) :
  Task.assignee_id (Tasks.apply_update now u t)
  = match TaskUpdate.assignee_id u with
    | Provided v => v
    | Unset => Task.assignee_id t
    end.
Proof.
  unfold Tasks.apply_update.
  assert (Hs : forall ns x, Task.assignee_id (Tasks.apply_status ns x)
                            = Task.assignee_id x).
  { intros [s|] x; unfold Tasks.apply_status;
      [destruct (negb _)|]; reflexivity. }
  assert (Hc : forall ns x, Task.assignee_id (Tasks.stamp_completed_at now ns x)
                            = Task.assignee_id x).
  { intros ns x. unfold Tasks.stamp_completed_at.
    destruct (_ && _); [reflexivity|]. destruct (_ && _); reflexivity. }
  rewrite Hs.
  generalize (Tasks.stamp_completed_at now
                (field_value (TaskUpdate.status u)) t) (Hc (field_value (TaskUpdate.status u)) t).
  intros x Hx. rewrite <- Hx. clear Hx Hs Hc.
  destruct u as [f1 f2 f3 f4 f5 f6 f7 f8 f9].
  unfold TaskUpdate.dict_exclude_unset. cbn [TaskUpdate.title
    TaskUpdate.description TaskUpdate.assignee_id TaskUpdate.priority
    TaskUpdate.status TaskUpdate.start_date TaskUpdate.due_date
    TaskUpdate.position TaskUpdate.is_archived].
  destruct f1, f2, f3, f4, f5, f6, f7, f8, f9; reflexivity.
Qed.

(** X5. An update goes through only for a stored task, a caller who is a
    member of its project and, when the request names a non-zero assignee,
    an assignee who is a member too; the stored task then has that
    assignee. A refused update changes nothing. *)
Theorem update_task_checks (w : World) (sched : list bool) (now task_id : Z)
        (u : TaskUpdate.t) (user : Z) :
  match request (Tasks.update_task now task_id u user) w sched with
  | (Return t', w') =>
      exists t,
        Tasks.find_task task_id (store w) = Some t
        /\ has_membership (store w) user (Task.project_id t)
        /\ (forall a, field_value (TaskUpdate.assignee_id u) = Some a ->
                      a <> 0 ->
                      has_membership (store w) a (Task.project_id t)
                      /\ Task.assignee_id t' = Some a)
        /\ Tasks.find_task task_id (store w') = Some t'
  | (Raise e, w') => w' = w
  end.
Proof.
  rewrite update_task_outcome.
  destruct (Tasks.find_task task_id (store w)) as [t|] eqn:Ef; [|reflexivity].
  destruct (is_member _ user _) eqn:Em; cbn [negb]; [|reflexivity].
  destruct (assignee_is_member _ _ _) eqn:Ea; cbn [negb]; [|reflexivity].
  destruct (accepted sched 0); [|reflexivity].
  cbv zeta. exists t. split; [reflexivity|].
  split; [now apply is_member_spec|]. split.
  - intros a Ha Hne. unfold assignee_is_member in Ea. rewrite Ha in Ea.
    apply Z.eqb_neq in Hne. rewrite Hne in Ea. cbn [orb] in Ea.
    split; [now apply is_member_spec|].
    rewrite apply_update_assignee.
    destruct (TaskUpdate.assignee_id u) as [|v]; [discriminate|].
    exact Ha.
  - cbn [store]. apply (find_task_save_task _ _ t); [exact Ef|].
    apply apply_update_id.
Qed.

(** ** delete_task: who may archive *)

(** X6. [delete_task] never fails on a missing membership row: it raises no
    [AttributeError]. For a stored task and a caller with a membership in
    its project, it archives the task when the caller created it or has
    role owner or admin, and answers 403 otherwise; the archived task is
    what a later lookup by id finds. *)
Theorem delete_task_decision (w : World) (task_id user : Z) :
  (forall sched msg,
      fst (request (Tasks.delete_task task_id user) w sched)
      <> Raise (AttributeError msg))
  /\ (forall t m,
      Tasks.find_task task_id (store w) = Some t ->
      membership_of (Task.project_id t) user (store w) = Some m ->
      let t' := Task.set_is_archived (Some true) t in
      if (Task.creator_id t =? user)
         || py_in (ProjectMember.role m) ["owner"; "admin"]
      then run (Tasks.delete_task task_id user) w
           = (Return "Task archived successfully",
              mkWorld (Tasks.save_task t' (store w)) (files w))
           /\ Tasks.find_task task_id (Tasks.save_task t' (store w)) = Some t'
      else run (Tasks.delete_task task_id user) w
           = (Raise (HTTPException 403
                       "Insufficient permissions to delete this task"), w)).
Proof.
  split.
  - intros sched msg. rewrite delete_task_outcome.
    destruct (Tasks.find_task task_id (store w)) as [t|]; [|discriminate].
    destruct (membership_of _ _ _) as [m|]; [|discriminate].
    destruct (_ || _); [|discriminate].
    destruct (accepted sched 0); discriminate.
  - intros t m Hf Hm t'. unfold run. rewrite delete_task_outcome, Hf, Hm.
    destruct (_ || _); [|reflexivity].
    split; [reflexivity|].
    now apply (find_task_save_task _ _ t).
Qed.

(** X6, witness: alice, owner of the project, archives the open task;
    dave, a viewer who did not create it, is refused. *)
Lemma delete_task_decision_witness :
  run (Tasks.delete_task 2 Example.alice) Example.world
  = (Return "Task archived successfully",
     mkWorld (Tasks.save_task
                (Task.set_is_archived (Some true) Example.open_task)
                Example.db) (files Example.world))
  /\ run (Tasks.delete_task 2 Example.dave) Example.world
     = (Raise (HTTPException 403
                 "Insufficient permissions to delete this task"),
        Example.world).
Proof.
  split.
  - exact (proj1 (proj2 (delete_task_decision Example.world 2 Example.alice)
                    Example.open_task
                    (ProjectMember.mk 1 1 Example.alice "owner" 5)
                    eq_refl eq_refl)).
  - exact (proj2 (delete_task_decision Example.world 2 Example.dave)
                 Example.open_task
                 (ProjectMember.mk 3 1 Example.dave "viewer" 7)
                 eq_refl eq_refl).
Defined.

(** ** get_task *)

(** X7. [get_task] writes nothing. It returns a task only to a user with a
    membership in the task's project; an unknown id gives 404 and a stored
    task of a project without the user gives 403. *)
Theorem get_task_guard (w : World) (sched : list bool) (task_id user : Z) :
  match request (Tasks.get_task task_id user) w sched with
  | (Return t, w') =>
      w' = w
      /\ In t (tasks (store w)) /\ Task.id t = task_id
      /\ has_membership (store w) user (Task.project_id t)
  | (Raise e, w') =>
      w' = w
      /\ ((e = HTTPException 404 "Task not found"
           /\ forall t, In t (tasks (store w)) -> Task.id t <> task_id)
          \/ (e = HTTPException 403 "No access to this project"
              /\ exists t, Tasks.find_task task_id (store w) = Some t
                           /\ ~ has_membership (store w) user
                                               (Task.project_id t)))
  end.
Proof.
  rewrite get_task_outcome.
  destruct (Tasks.find_task task_id (store w)) as [t|] eqn:Ef.
  - destruct (is_member _ user _) eqn:Em.
    + split; [reflexivity|]. unfold Tasks.find_task, first in Ef.
      apply find_some in Ef. destruct Ef as [Hin Hid].
      apply Z.eqb_eq in Hid. split; [exact Hin|]. split; [exact Hid|].
      now apply is_member_spec.
    + split; [reflexivity|]. right. split; [reflexivity|].
      exists t. split; [reflexivity|]. rewrite <- is_member_spec.
      congruence.
  - split; [reflexivity|]. left. split; [reflexivity|].
    intros t Hin Hid. unfold Tasks.find_task, first in Ef.
    apply (find_none _ _ Ef) in Hin. apply Z.eqb_neq in Hin. contradiction.
Qed.
(** ** get_tasks: scope, filters and order *)

Lemma get_tasks_outcome (w : World) (sched : list bool)
      (project_id assignee_id : option Z) (status priority : option string)
      (parent_task_id : option Z) (user : Z) :
  request (Tasks.get_tasks project_id assignee_id status priority
                           parent_task_id user) w sched
  = if truthy_int project_id
    then match project_id with
         | Some pid =>
             if is_member pid user (store w)
             then (Return
                     (listing assignee_id status priority parent_task_id
                        (where_ (fun t => Some (Task.project_id t =? pid))
                                (tasks (store w)))), w)
             else (Raise (HTTPException 403 "No access to this project"), w)
         | None => (Raise DBAPIError, w)
         end
    else (Return
            (listing assignee_id status priority parent_task_id
               (where_ (fun t => Some (in_ (Task.project_id t)
                             (accessible_projects (store w) user)))
                       (tasks (store w)))), w).
Proof.
  destruct w as [db fs].
  unfold Tasks.get_tasks, Tasks.check_project_access, is_member, listing,
    truthy_int.
  open_handler. crunch.
Qed.

Lemma filter_stage_int (col : Task.t -> option Z) (param : option Z)
      (rows : list Task.t) (t : Task.t) :
  In t (match param with
        | Some a => if negb (a =? 0)
                    then where_ (fun t => sql_eq_int (col t) a) rows
                    else rows
        | None => rows
        end)
  <-> In t rows /\ meets_int param (col t).
Proof.
  unfold meets_int, truthy_int. destruct param as [a|].
  - destruct (a =? 0); cbn [negb].
    + split; [intros H; split; [exact H | discriminate] | tauto].
    + rewrite where_In. unfold sql_eq_int. split; intros [Hin H].
      * split; [exact Hin|]. intros _.
        destruct (col t) as [x|]; simpl in H; [|discriminate].
        injection H as H. apply Z.eqb_eq in H. now subst.
      * split; [exact Hin|]. rewrite (H eq_refl). simpl.
        now rewrite Z.eqb_refl.
  - split; [intros H; split; [exact H | discriminate] | tauto].
Qed.

Lemma filter_stage_str (col : Task.t -> option string) (param : option string)
      (rows : list Task.t) (t : Task.t) :
  In t (match param with
        | Some a => if negb (a =? "")%string
                    then where_ (fun t => sql_eq_str (col t) a) rows
                    else rows
        | None => rows
        end)
  <-> In t rows /\ meets_str param (col t).
Proof.
  unfold meets_str, truthy_str. destruct param as [a|].
  - destruct (a =? "")%string; cbn [negb].
    + split; [intros H; split; [exact H | discriminate] | tauto].
    + rewrite where_In. unfold sql_eq_str. split; intros [Hin H].
      * split; [exact Hin|]. intros _.
        destruct (col t) as [x|]; simpl in H; [|discriminate].
        injection H as H. apply String.eqb_eq in H. now subst.
      * split; [exact Hin|]. rewrite (H eq_refl). simpl.
        now rewrite String.eqb_refl.
  - split; [intros H; split; [exact H | discriminate] | tauto].
Qed.

Lemma filter_stage_status (param : option string) (rows : list Task.t)
      (t : Task.t) :
  In t (match param with
        | Some a => if negb (a =? "")%string
                    then where_ (fun t => Some (Task.status t =? a)%string)
                                rows
                    else rows
        | None => rows
        end)
  <-> In t rows /\ meets_str param (Some (Task.status t)).
Proof.
  apply (filter_stage_str (fun t => Some (Task.status t))).
Qed.

Lemma optional_filters_spec (assignee_id : option Z)
      (status priority : option string) (parent_task_id : option Z)
      (rows : list Task.t) (t : Task.t) :
  In t (Tasks.optional_filters assignee_id status priority parent_task_id rows)
  <-> In t rows
      /\ meets_int assignee_id (Task.assignee_id t)
      /\ meets_str status (Some (Task.status t))
      /\ meets_str priority (Task.priority t)
      /\ meets_int parent_task_id (Task.parent_task_id t).
Proof.
  unfold Tasks.optional_filters. cbv zeta.
  rewrite (filter_stage_int Task.parent_task_id).
  rewrite (filter_stage_str Task.priority).
  rewrite filter_stage_status.
  rewrite (filter_stage_int Task.assignee_id).
  tauto.
Qed.

Lemma listing_spec (assignee_id : option Z) (status priority : option string)
      (parent_task_id : option Z) (rows : list Task.t) (t : Task.t) :
  In t (listing assignee_id status priority parent_task_id rows)
  <-> In t rows
      /\ meets_int assignee_id (Task.assignee_id t)
      /\ meets_str status (Some (Task.status t))
      /\ meets_str priority (Task.priority t)
      /\ meets_int parent_task_id (Task.parent_task_id t)
      /\ Task.is_archived t = Some false.
Proof.
  unfold listing. rewrite order_by_In, where_In, optional_filters_spec.
  unfold sql_eq_bool.
  destruct (Task.is_archived t) as [[|]|]; simpl; intuition congruence.
Qed.

(** X8. [get_tasks] writes nothing and fails only with 403, exactly when a
    non-zero project filter names a project without the caller: it raises
    only then, and it returns only when the filter is absent, zero, or names
    a project the caller has a membership in. Otherwise a task is
    in the result exactly when it is stored, the caller has a membership in
    its project, it is not archived, and it meets every filter that is set:
    project, assignee, status, priority, parent. A filter given as 0 or as
    the empty string counts as not set. *)
Theorem get_tasks_scope (w : World) (sched : list bool)
        (project_id assignee_id : option Z) (status priority : option string)
        (parent_task_id : option Z) (user : Z) :
  match request (Tasks.get_tasks project_id assignee_id status priority
                                 parent_task_id user) w sched with
  | (Return rows, w') =>
      w' = w
      /\ (forall pid, project_id = Some pid -> pid <> 0 ->
                      has_membership (store w) user pid)
      /\ forall t,
          In t rows <->
          In t (tasks (store w))
          /\ has_membership (store w) user (Task.project_id t)
          /\ meets_int project_id (Some (Task.project_id t))
          /\ meets_int assignee_id (Task.assignee_id t)
          /\ meets_str status (Some (Task.status t))
          /\ meets_str priority (Task.priority t)
          /\ meets_int parent_task_id (Task.parent_task_id t)
          /\ Task.is_archived t = Some false
  | (Raise e, w') =>
      w' = w
      /\ e = HTTPException 403 "No access to this project"
      /\ exists pid, project_id = Some pid /\ pid <> 0
                     /\ ~ has_membership (store w) user pid
  end.
Proof.
  rewrite get_tasks_outcome. unfold meets_int at 1.
  destruct (truthy_int project_id) eqn:Et.
  - destruct project_id as [pid|]; [|discriminate].
    destruct (is_member pid user (store w)) eqn:Em.
    + split; [reflexivity|]. apply is_member_spec in Em.
      split; [intros q [= <-] _; exact Em|].
      intros t. rewrite listing_spec, where_In. split.
      * intros [[Hin Hp] H]. injection Hp as Hp. apply Z.eqb_eq in Hp.
        subst pid. tauto.
      * intros [Hin [_ [Hp H]]]. specialize (Hp eq_refl).
        injection Hp as Hp. rewrite Hp, Z.eqb_refl. tauto.
    + split; [reflexivity|]. split; [reflexivity|]. exists pid.
      split; [reflexivity|]. split.
      * unfold truthy_int in Et. apply negb_true_iff in Et.
        now apply Z.eqb_neq.
      * rewrite <- is_member_spec. congruence.
  - split; [reflexivity|].
    split.
    { intros q -> Hq. unfold truthy_int in Et.
      apply negb_false_iff, Z.eqb_eq in Et. contradiction. }
    intros t. rewrite listing_spec, where_In.
    unfold has_membership.
    rewrite <- accessible_projects_spec, <- in_spec. split.
    + intros [[Hin Hp] H]. injection Hp as Hp. intuition discriminate.
    + intros [Hin [Hp H]]. rewrite Hp. tauto.
Qed.

(** *** ORDER BY *)

Lemma insert_by_sorted {A} (le : A -> A -> bool) (x : A) (l : list A) :
  (forall a b, le a b = false -> le b a = true) ->
  Sorted (fun a b => le a b = true) l ->
  Sorted (fun a b => le a b = true) (insert_by le x l).
Proof.
  intros Htot. induction l as [|y l IH]; intros Hs; simpl.
  - repeat constructor.
  - destruct (le x y) eqn:E.
    + constructor; [exact Hs | now constructor].
    + apply Sorted_inv in Hs. destruct Hs as [Hs Hhd].
      constructor; [now apply IH|].
      destruct l as [|z l]; simpl.
      * constructor. now apply Htot.
      * destruct (le x z); constructor.
        -- now apply Htot.
        -- now apply HdRel_inv in Hhd.
Qed.

Lemma order_by_sorted {A} (le : A -> A -> bool) (rows : list A) :
  (forall a b, le a b = false -> le b a = true) ->
  Sorted (fun a b => le a b = true) (order_by le rows).
Proof.
  intros Htot. induction rows as [|x rows IH]; simpl.
  - constructor.
  - now apply insert_by_sorted.
Qed.

(** X9. The result of [get_tasks] is in order of creation time, newest
    first. *)
Theorem get_tasks_newest_first (w w' : World) (sched : list bool)
        (project_id assignee_id : option Z) (status priority : option string)
        (parent_task_id : option Z) (user : Z) (rows : list Task.t) :
  request (Tasks.get_tasks project_id assignee_id status priority
                           parent_task_id user) w sched = (Return rows, w') ->
  Sorted newer_or_same rows.
Proof.
  rewrite get_tasks_outcome. intros H.
  assert (Hl : exists base,
             rows = listing assignee_id status priority parent_task_id base).
  { destruct (truthy_int project_id).
    - destruct project_id as [pid|]; [|discriminate].
      destruct (is_member pid user (store w)); [|discriminate].
      injection H as <- _. eauto.
    - injection H as <- _. eauto. }
  destruct Hl as [base ->]. unfold listing.
  eapply Sorted_ind with (P := fun l => Sorted newer_or_same l);
    [constructor | | apply (order_by_sorted Tasks.created_at_desc)].
  - intros a l _ IH Hhd. constructor; [exact IH|].
    destruct Hhd as [|b l' Hb]; constructor.
    unfold newer_or_same. unfold Tasks.created_at_desc in Hb.
    now apply Z.leb_le.
  - intros a b Hab. unfold Tasks.created_at_desc in *.
    apply Z.leb_gt in Hab. apply Z.leb_le. lia.
Qed.

(** X9, witness: bob's unfiltered list in the example world is the open
    task (created at 11), then the done task (created at 10). *)
Lemma get_tasks_newest_first_witness :
  run (Tasks.get_tasks None None None None None Example.bob) Example.world
  = (Return [Example.open_task; Example.done_task], Example.world)
  /\ Sorted newer_or_same [Example.open_task; Example.done_task].
Proof.
  split; [reflexivity|].
  apply (get_tasks_newest_first Example.world Example.world [] None None None
           None None Example.bob).
  reflexivity.
Defined.

(** ** get_subtasks *)

(** X10. [get_subtasks] filters on the parent id alone. Under the primary
    key on task ids and with every subtask stored in the project of its
    parent, what it returns to a caller, for a non-zero id, is exactly the
    non-archived tasks whose parent is that id, and each of them is in a
    project the caller has a membership in. It writes nothing. *)
Theorem get_subtasks_scope (w : World) (sched : list bool)
        (task_id user : Z) :
  NoDup (map Task.id (tasks (store w))) ->
  parents_in_same_project (store w) ->
  task_id <> 0 ->
  match request (Tasks.get_subtasks task_id user) w sched with
  | (Return rows, w') =>
      w' = w
      /\ forall t,
          In t rows <->
          In t (tasks (store w))
          /\ Task.parent_task_id t = Some task_id
          /\ Task.is_archived t = Some false
          /\ has_membership (store w) user (Task.project_id t)
  | (Raise e, w') => w' = w
  end.
Proof.
  intros Hpk Hinv Hne. rewrite get_subtasks_outcome.
  destruct (Tasks.find_task task_id (store w)) as [p|] eqn:Ef; [|reflexivity].
  destruct (is_member _ user _) eqn:Em; [|reflexivity].
  split; [reflexivity|]. intros t. rewrite order_by_In, where_In.
  apply is_member_spec in Em.
  assert (Hcond :
    sql_and (sql_eq_int (Task.parent_task_id t) task_id)
            (sql_eq_bool (Task.is_archived t) false) = Some true
    <-> Task.parent_task_id t = Some task_id
        /\ Task.is_archived t = Some false).
  { unfold sql_eq_int, sql_eq_bool.
    destruct (Task.parent_task_id t) as [x|],
      (Task.is_archived t) as [[|]|]; simpl;
      try destruct (x =? task_id) eqn:E; simpl;
      try (apply Z.eqb_eq in E; subst x);
      try (apply Z.eqb_neq in E);
      split; try discriminate; try tauto;
      intros [H1 H2]; congruence. }
  rewrite Hcond. split.
  - intros [Hin [Hp Ha]]. repeat split; try assumption.
    destruct (Hinv t task_id Hin Hp Hne) as [q [Hq [Hid Hproj]]].
    rewrite (find_task_unique _ _ p q Hpk Ef Hq Hid) in Hproj.
    now rewrite <- Hproj.
  - tauto.
Qed.

(** X10, witness: bob lists the subtasks of the open task in the second
    world and gets the one there is. *)
Lemma get_subtasks_scope_witness :
  run (Tasks.get_subtasks 2 Example.bob) Example2.world
  = (Return [Example2.subtask], Example2.world)
  /\ has_membership Example2.db Example.bob
                    (Task.project_id Example2.subtask).
Proof.
  split; [reflexivity|].
  assert (Hpk : NoDup (map Task.id (tasks (store Example2.world)))).
  { simpl. repeat constructor; simpl; intuition discriminate. }
  assert (Hinv : parents_in_same_project (store Example2.world)).
  { intros t p Hin Hp Hne. simpl in Hin.
    destruct Hin as [<-|[<-|[<-|[<-|[<-|[]]]]]]; try discriminate Hp.
    injection Hp as <-. exists Example.open_task. simpl. auto. }
  pose proof (get_subtasks_scope Example2.world [] 2 Example.bob Hpk Hinv)
    as H.
  change (request (Tasks.get_subtasks 2 Example.bob) Example2.world [])
    with (Return [Example2.subtask], Example2.world) in H.
  apply (H ltac:(discriminate)). simpl. auto.
Defined.
(** ** The outcomes of the project handlers *)

Lemma create_project_outcome (w : World) (sched : list bool) (now : Z)
      (data : ProjectCreate.t) (creator : Z) :
  request (Projects.create_project now data creator) w sched
  = let p := new_project_row now data creator (store w) in
    let m := owner_row now (Project.id p) creator (store w) in
    let with_project := with_projects (projects (store w) ++ [p]) (store w) in
    if accepted sched 0
    then if accepted sched 1
         then (Return p,
               mkWorld (with_project_members
                          (project_members (store w) ++ [m]) with_project)
                       (files w))
         else (Raise DBAPIError, mkWorld with_project (files w))
    else (Raise DBAPIError, w).
Proof.
  destruct w as [db fs].
  unfold Projects.create_project, accepted, new_project_row, owner_row.
  open_handler.
  destruct sched as [|[|] [|[|] rest]]; reflexivity.
Qed.

Lemma get_project_outcome (w : World) (sched : list bool)
      (project_id user : Z) :
  request (Projects.get_project project_id user) w sched
  = match Projects.find_project project_id (store w) with
    | None => (Raise (HTTPException 404 "Project not found"), w)
    | Some p =>
        if is_member project_id user (store w)
        then (Return p, w)
        else (Raise (HTTPException 403 "Not a member of this project"), w)
    end.
Proof.
  destruct w as [db fs]. unfold Projects.get_project, is_member.
  open_handler. crunch.
Qed.

Lemma update_project_outcome (w : World) (sched : list bool)
      (project_id : Z) (u : ProjectUpdate.t) (user : Z) :
  request (Projects.update_project project_id u user) w sched
  = match Projects.find_project project_id (store w) with
    | None => (Raise (HTTPException 404 "Project not found"), w)
    | Some p =>
        if is_admin project_id user (store w)
        then if accepted sched 0
             then let p' := fold_left Projects.apply_item
                              (ProjectUpdate.dict_exclude_unset u) p in
                  (Return p',
                   mkWorld (Projects.save_project p' (store w)) (files w))
             else (Raise DBAPIError, w)
        else (Raise (HTTPException 403 "Insufficient permissions"), w)
    end.
Proof.
  destruct w as [db fs]. unfold Projects.update_project, is_admin, accepted.
  open_handler. crunch.
Qed.

Lemma delete_project_outcome (w : World) (sched : list bool)
      (project_id user : Z) :
  request (Projects.delete_project project_id user) w sched
  = match Projects.find_project project_id (store w) with
    | None => (Raise (HTTPException 404 "Project not found"), w)
    | Some p =>
        if Project.owner_id p =? user
        then if accepted sched 0
             then (Return "Project archived successfully",
                   mkWorld (Projects.save_project
                              (Project.set_is_archived (Some true) p)
                              (store w)) (files w))
             else (Raise DBAPIError, w)
        else (Raise (HTTPException 403
                       "Only project owner can delete the project"), w)
    end.
Proof.
  destruct w as [db fs]. unfold Projects.delete_project, accepted.
  open_handler. crunch.
Qed.

Lemma add_project_member_outcome (w : World) (sched : list bool)
      (users : list User.t) (now project_id : Z)
      (data : ProjectMemberCreate.t) (user : Z) :
  request (Projects.add_project_member users now project_id data user) w sched
  = match Projects.find_project project_id (store w) with
    | None => (Raise (HTTPException 404 "Project not found"), w)
    | Some _ =>
        if negb (is_admin project_id user (store w))
        then (Raise (HTTPException 403 "Insufficient permissions"), w)
        else if is_member project_id (ProjectMemberCreate.user_id data)
                          (store w)
        then (Raise (HTTPException 400 "User is already a member"), w)
        else if negb (user_exists users (ProjectMemberCreate.user_id data))
        then (Raise (HTTPException 404 "User not found"), w)
        else if accepted sched 0
        then let m := new_member_row now project_id data (store w) in
             (Return m,
              mkWorld (with_project_members (project_members (store w) ++ [m])
                                            (store w)) (files w))
        else (Raise DBAPIError, w)
    end.
Proof.
  destruct w as [db fs].
  unfold Projects.add_project_member, is_admin, is_member, user_exists,
    accepted, new_member_row.
  open_handler. crunch.
Qed.

Lemma get_project_members_outcome (w : World) (sched : list bool)
      (project_id user : Z) :
  request (Projects.get_project_members project_id user) w sched
  = if is_member project_id user (store w)
    then (Return (where_ (fun m => Some (ProjectMember.project_id m
                                         =? project_id))
                         (project_members (store w))), w)
    else (Raise (HTTPException 403 "Not a member of this project"), w).
Proof.
  destruct w as [db fs]. unfold Projects.get_project_members, is_member.
  open_handler. crunch.
Qed.

Lemma is_admin_spec (db : Db) (pid user : Z) :
  is_admin pid user db = true <-> has_admin_membership db user pid.
Proof.
  unfold is_admin, has_admin_membership, Projects.admin_membership_of, first.
  assert (Hrole : forall r, py_in r ["owner"; "admin"] = true
                            <-> r = "owner" \/ r = "admin").
  { intros r. unfold py_in. simpl. rewrite !orb_true_iff, !String.eqb_eq.
    intuition discriminate. }
  split.
  - destruct (find _ _) as [m|] eqn:E; [|discriminate]. intros _.
    apply find_some in E. destruct E as [Hin Hb].
    rewrite !andb_true_iff, !Z.eqb_eq, Hrole in Hb. exists m. tauto.
  - intros [m [Hin [Hu [Hp Hr]]]].
    destruct (find _ _) as [m'|] eqn:E; [reflexivity|].
    apply (find_none _ _ E) in Hin.
    rewrite Hu, Hp, !Z.eqb_refl in Hin. apply Hrole in Hr.
    rewrite Hr in Hin. discriminate.
Qed.

Lemma has_admin_is_member (db : Db) (user pid : Z) :
  has_admin_membership db user pid -> has_membership db user pid.
Proof. intros [m [H1 [H2 [H3 _]]]]. now exists m. Qed.

(** ** add_project_member: what is checked and what is stored *)

(** X11. A membership is added only to a stored project, by a caller with
    role owner or admin in it, for a user of the users table who has no
    membership in it yet; the new row carries the requested role as given
    and is appended to the table while nothing else changes. A refused
    request changes nothing. *)
Theorem add_project_member_checks_and_stores (w : World) (sched : list bool)
        (users : list User.t) (now project_id : Z)
        (data : ProjectMemberCreate.t) (user : Z) :
  match request (Projects.add_project_member users now project_id data user)
                w sched with
  | (Return m, w') =>
      In project_id (map Project.id (projects (store w)))
      /\ has_admin_membership (store w) user project_id
      /\ ~ has_membership (store w) (ProjectMemberCreate.user_id data)
                          project_id
      /\ In (ProjectMemberCreate.user_id data) (map User.id users)
      /\ ProjectMember.project_id m = project_id
      /\ ProjectMember.user_id m = ProjectMemberCreate.user_id data
      /\ ProjectMember.role m = ProjectMemberCreate.role data
      /\ store w' = with_project_members (project_members (store w) ++ [m])
                                         (store w)
      /\ files w' = files w
  | (Raise e, w') => w' = w
  end.
Proof.
  rewrite add_project_member_outcome.
  destruct (Projects.find_project project_id (store w)) as [p|] eqn:Ep;
    [|reflexivity].
  destruct (is_admin _ _ _) eqn:Ea; cbn [negb]; [|reflexivity].
  destruct (is_member _ _ _) eqn:Em; [reflexivity|].
  destruct (user_exists _ _) eqn:Eu; cbn [negb]; [|reflexivity].
  destruct (accepted sched 0); [|reflexivity].
  cbv zeta. cbn [store files new_member_row ProjectMember.project_id
                 ProjectMember.user_id ProjectMember.role].
  repeat split.
  - unfold Projects.find_project, first in Ep. apply find_some in Ep.
    destruct Ep as [Hin Hid]. apply Z.eqb_eq in Hid. rewrite <- Hid.
    now apply in_map.
  - now apply is_admin_spec.
  - rewrite <- is_member_spec. congruence.
  - unfold user_exists, first in Eu.
    destruct (find _ users) as [u|] eqn:E; [|discriminate].
    apply find_some in E. destruct E as [Hin Hid]. apply Z.eqb_eq in Hid.
    rewrite <- Hid. now apply in_map.
Qed.

(** ** A project from creation to archive *)

Lemma get_user_projects_outcome (w : World) (sched : list bool) (user : Z) :
  request (Projects.get_user_projects user) w sched
  = (Return
       (where_ (fun p =>
                  sql_and
                    (Some (existsb
                             (fun m => (ProjectMember.project_id m
                                        =? Project.id p)
                                       && (ProjectMember.user_id m =? user))
                             (project_members (store w))))
                    (sql_eq_bool (Project.is_archived p) false))
               (projects (store w))), w).
Proof. destruct w as [db fs]. reflexivity. Qed.

Lemma find_none_when {A} (f : A -> bool) (l : list A) :
  (forall x, In x l -> f x = false) -> find f l = None.
Proof.
  intros H. destruct (find f l) as [x|] eqn:E; [|reflexivity].
  apply find_some in E. destruct E as [Hin Hf]. rewrite (H x Hin) in Hf.
  discriminate.
Qed.

Lemma fresh_project_no_member (db : Db) (x : ProjectMember.t) :
  members_reference_projects db ->
  In x (project_members db) ->
  (ProjectMember.project_id x =? next_id (map Project.id (projects db)))
  = false.
Proof.
  intros Hfk Hin. apply Z.eqb_neq. intros Hp. apply Hfk in Hin.
  rewrite Hp in Hin. now apply next_id_fresh in Hin.
Qed.

Lemma find_project_appended_new (rows : list Project.t) (p : Project.t) :
  Project.id p = next_id (map Project.id rows) ->
  find (fun x => Project.id x =? Project.id p) (rows ++ [p]) = Some p.
Proof.
  intros Hid. rewrite find_app_fresh, Hid.
  rewrite (find_none_fresh_id Project.id). now rewrite Z.eqb_refl.
Qed.

Lemma map_replace_fresh {A} (key : A -> Z) (x' : A) (l : list A) :
  ~ In (key x') (map key l) ->
  map (fun x => if key x =? key x' then x' else x) l = l.
Proof.
  induction l as [|x l IH]; simpl; intros H; [reflexivity|].
  destruct (key x =? key x') eqn:E.
  - apply Z.eqb_eq in E. exfalso. apply H. now left.
  - f_equal. apply IH. intros Hin. apply H. now right.
Qed.

(** X12. The life of a project, on any store whose memberships refer to
    stored projects. After [a] creates a project, [a] reads it, is its one
    member (an owner), and [b] is refused with 403. After [a] adds [b] with
    any role, [b] reads the project and sees it in the project list, cannot
    archive it (only [owner_id] may), and [a] can. Once archived, the
    project is gone from the list and is still returned by id. *)
Theorem project_life_cycle (w : World) (users : list User.t) (now now' : Z)
        (data : ProjectCreate.t) (a b : Z) (role : string) :
  members_reference_projects (store w) ->
  a <> b ->
  user_exists users b = true ->
  let p := new_project_row now data a (store w) in
  let pid := Project.id p in
  let w1 := snd (run (Projects.create_project now data a) w) in
  let added := run (Projects.add_project_member
                      users now' pid (ProjectMemberCreate.mk b role) a) w1 in
  let w2 := snd added in
  let w3 := snd (run (Projects.delete_project pid a) w2) in
  run (Projects.get_project pid a) w1 = (Return p, w1)
  /\ run (Projects.get_project pid b) w1
     = (Raise (HTTPException 403 "Not a member of this project"), w1)
  /\ run (Projects.get_project_members pid a) w1
     = (Return [owner_row now pid a (store w)], w1)
  /\ (exists mb, fst added = Return mb
                 /\ ProjectMember.user_id mb = b
                 /\ ProjectMember.role mb = role)
  /\ run (Projects.get_project pid b) w2 = (Return p, w2)
  /\ (exists rows, run (Projects.get_user_projects b) w2 = (Return rows, w2)
                   /\ In p rows)
  /\ run (Projects.delete_project pid b) w2
     = (Raise (HTTPException 403
                 "Only project owner can delete the project"), w2)
  /\ fst (run (Projects.delete_project pid a) w2)
     = Return "Project archived successfully"
  /\ run (Projects.get_project pid b) w3
     = (Return (Project.set_is_archived (Some true) p), w3)
  /\ (exists rows, run (Projects.get_user_projects b) w3 = (Return rows, w3)
                   /\ ~ In pid (map Project.id rows)).
Proof.
  intros Hfk Hab Hb. destruct w as [db fs]. cbn [store] in *.
  set (p := new_project_row now data a db).
  set (m := owner_row now (Project.id p) a db).
  set (db1 := with_project_members (project_members db ++ [m])
                (with_projects (projects db ++ [p]) db)).
  assert (Hw1 : snd (run (Projects.create_project now data a) (mkWorld db fs))
                = mkWorld db1 fs).
  { unfold run. rewrite create_project_outcome. reflexivity. }
  cbv zeta. rewrite Hw1. fold p.
  assert (Hpid : Project.id p = next_id (map Project.id (projects db)))
    by reflexivity.
  assert (Hfp1 : Projects.find_project (Project.id p) db1 = Some p).
  { unfold Projects.find_project, first, db1. cbn [projects with_projects
      with_project_members]. now apply find_project_appended_new. }
  assert (Hmem : forall u, membership_of (Project.id p) u db = None).
  { intros u. unfold membership_of, first. apply find_none_when.
    intros x Hx. rewrite Hpid.
    now rewrite (fresh_project_no_member db x Hfk Hx). }
  assert (Hma1 : membership_of (Project.id p) a db1 = Some m).
  { unfold membership_of, first, db1 in *.
    cbn [project_members with_project_members].
    rewrite find_app_fresh, Hmem. cbn [m owner_row ProjectMember.project_id
      ProjectMember.user_id]. now rewrite !Z.eqb_refl. }
  assert (Hmb1 : membership_of (Project.id p) b db1 = None).
  { unfold membership_of, first, db1 in *.
    cbn [project_members with_project_members].
    rewrite find_app_fresh, Hmem. cbn [m owner_row ProjectMember.project_id
      ProjectMember.user_id]. apply Z.eqb_neq in Hab. now rewrite Hab, andb_false_r. }
  assert (Had1 : is_admin (Project.id p) a db1 = true).
  { unfold is_admin, Projects.admin_membership_of, first, db1.
    cbn [project_members with_project_members]. rewrite find_app_fresh.
    rewrite find_none_when.
    - cbn [m owner_row ProjectMember.project_id ProjectMember.user_id
           ProjectMember.role]. now rewrite !Z.eqb_refl.
    - intros x Hx. rewrite Hpid.
      now rewrite (fresh_project_no_member db x Hfk Hx). }
  set (mb := new_member_row now' (Project.id p)
               (ProjectMemberCreate.mk b role) db1).
  set (db2 := with_project_members (project_members db1 ++ [mb]) db1).
  assert (Hadded : run (Projects.add_project_member users now' (Project.id p)
                          (ProjectMemberCreate.mk b role) a) (mkWorld db1 fs)
                   = (Return mb, mkWorld db2 fs)).
  { unfold run. rewrite add_project_member_outcome. cbn [store files].
    rewrite Hfp1, Had1. unfold is_member.
    cbn [ProjectMemberCreate.user_id]. rewrite Hmb1, Hb. reflexivity. }
  rewrite Hadded. cbn [fst snd].
  assert (Hfp2 : Projects.find_project (Project.id p) db2 = Some p)
    by exact Hfp1.
  assert (Hmb2 : is_member (Project.id p) b db2 = true).
  { unfold is_member, membership_of, first, db2 in *.
    cbn [project_members with_project_members].
    rewrite find_app_fresh, Hmb1.
    cbn [mb new_member_row ProjectMember.project_id ProjectMember.user_id
         ProjectMemberCreate.user_id]. now rewrite !Z.eqb_refl. }
  set (p' := Project.set_is_archived (Some true) p).
  set (db3 := Projects.save_project p' db2).
  assert (Hdel : run (Projects.delete_project (Project.id p) a)
                     (mkWorld db2 fs)
                 = (Return "Project archived successfully", mkWorld db3 fs)).
  { unfold run. rewrite delete_project_outcome. cbn [store files].
    rewrite Hfp2. cbn [p new_project_row Project.owner_id].
    now rewrite Z.eqb_refl. }
  rewrite Hdel. cbn [fst snd].
  assert (Hprojects3 : projects db3 = projects db ++ [p']).
  { unfold db3, Projects.save_project, db2, db1.
    cbn [projects with_projects with_project_members].
    rewrite map_app. cbn [map]. change (Project.id p') with (Project.id p).
    rewrite Z.eqb_refl. f_equal.
    apply (map_replace_fresh Project.id p').
    change (Project.id p') with (Project.id p). rewrite Hpid.
    apply next_id_fresh. }
  assert (Hfp3 : Projects.find_project (Project.id p) db3 = Some p').
  { unfold Projects.find_project, first. rewrite Hprojects3.
    change (Project.id p) with (Project.id p').
    now apply find_project_appended_new. }
  assert (Hmb3 : is_member (Project.id p) b db3 = true) by exact Hmb2.
  unfold run. rewrite !get_project_outcome, !get_project_members_outcome,
    !get_user_projects_outcome, !delete_project_outcome.
  cbn [store files]. rewrite Hfp1, Hfp2, Hfp3, Hmb2, Hmb3.
  unfold is_member at 1 2 3. rewrite Hma1, Hmb1.
  split; [reflexivity|]. split; [reflexivity|]. split.
  { f_equal. f_equal. unfold where_, db1.
    cbn [project_members with_project_members]. rewrite filter_app.
    pose proof (members_in_fresh_project db Hfk) as Hnone.
    unfold members_in in Hnone. rewrite <- Hpid in Hnone.
    replace (filter _ (project_members db)) with (@nil ProjectMember.t).
    - cbn [m owner_row ProjectMember.project_id filter app is_true_sql].
      now rewrite Z.eqb_refl.
    - rewrite <- Hnone. apply filter_ext. intros x. now destruct (_ =? _). }
  split; [now exists mb|]. split; [reflexivity|]. split.
  { eexists. split; [reflexivity|]. apply where_In. split.
    - unfold db2, db1. cbn [projects with_projects with_project_members].
      apply in_or_app. right. now left.
    - replace (existsb _ (project_members db2)) with true; [reflexivity|].
      symmetry. apply existsb_exists. exists mb. split.
      + unfold db2. cbn [project_members with_project_members].
        apply in_or_app. right. now left.
      + cbn [mb new_member_row ProjectMember.project_id
             ProjectMember.user_id ProjectMemberCreate.user_id].
        now rewrite !Z.eqb_refl. }
  split.
  { cbn [p new_project_row Project.owner_id]. apply Z.eqb_neq in Hab.
    now rewrite Hab. }
  split; [reflexivity|]. split; [reflexivity|].
  eexists. split; [reflexivity|].
  intros Hin. apply in_map_iff in Hin. destruct Hin as [x [Hid Hx]].
  apply where_In in Hx. destruct Hx as [Hx Hcond].
  rewrite Hprojects3 in Hx. apply in_app_or in Hx. destruct Hx as [Hx|Hx].
  - apply (next_id_fresh (map Project.id (projects db))).
    rewrite <- Hpid, <- Hid. now apply in_map.
  - destruct Hx as [<-|[]]. cbn [p' Project.set_is_archived
      Project.is_archived sql_eq_bool option_map Bool.eqb] in Hcond.
    destruct (existsb _ _); discriminate.
Qed.

(** X12, witness: grace creates a project in the second world, adds carol
    as a member, and carol can read it but not archive it. *)
Lemma project_life_cycle_witness :
  let w1 := snd (run (Projects.create_project 30 Example.new_project
                        Example2.grace) Example2.world) in
  let w2 := snd (run (Projects.add_project_member
                        Example2.users 31 3
                        (ProjectMemberCreate.mk Example.carol "member")
                        Example2.grace) w1) in
  run (Projects.get_project 3 Example.carol) w1
  = (Raise (HTTPException 403 "Not a member of this project"), w1)
  /\ run (Projects.get_project 3 Example.carol) w2
     = (Return (new_project_row 30 Example.new_project Example2.grace
                                Example2.db), w2)
  /\ run (Projects.delete_project 3 Example.carol) w2
     = (Raise (HTTPException 403
                 "Only project owner can delete the project"), w2).
Proof.
  assert (Hfk : members_reference_projects (store Example2.world)).
  { intros m Hin. simpl in Hin.
    destruct Hin as [<-|[<-|[<-|[<-|[<-|[]]]]]]; simpl; auto. }
  assert (Hne : Example2.grace <> Example.carol) by discriminate.
  pose proof (project_life_cycle Example2.world Example2.users 30 31
                Example.new_project Example2.grace Example.carol "member"
                Hfk Hne eq_refl) as H.
  cbv zeta in H. destruct H as [_ [H1 [_ [_ [H2 [_ [H3 _]]]]]]].
  cbv zeta. split; [exact H1|]. split; [exact H2 | exact H3].
Defined.

(** ** update_project *)

Lemma find_project_save_project (db : Db) (project_id : Z)
      (p p' : Project.t) :
  Projects.find_project project_id db = Some p ->
  Project.id p' = Project.id p ->
  Projects.find_project project_id (Projects.save_project p' db) = Some p'.
Proof.
  unfold Projects.find_project, Projects.save_project, first.
  cbn [projects with_projects].
  induction (projects db) as [|x l IH]; simpl; intros H Hid; [discriminate|].
  destruct (Project.id x =? project_id) eqn:E.
  - injection H as ->. rewrite Hid, Z.eqb_refl.
    apply Z.eqb_eq in E. now rewrite Hid, E, Z.eqb_refl.
  - destruct (Project.id x =? Project.id p') eqn:E'.
    + apply Z.eqb_eq in E'. apply find_some in H. destruct H as [_ Hb].
      apply Z.eqb_eq in Hb. rewrite E', Hid, Hb, Z.eqb_refl in E.
      discriminate.
    + rewrite E. now apply IH.
Qed.

(** X13. [update_project] is open to owners and admins only, and
    [is_archived] is one of the fields it writes: an admin who is not the
    project's [owner_id] archives the project through PUT, although DELETE
    refuses the same caller; a caller without an owner or admin membership
    gets 403 from PUT and nothing changes. *)
Theorem update_project_archives_for_admin (w : World) (project_id user : Z)
        (p : Project.t) :
  Projects.find_project project_id (store w) = Some p ->
  (has_admin_membership (store w) user project_id ->
   Project.owner_id p <> user ->
   let p' := Project.set_is_archived (Some true) p in
   run (Projects.update_project project_id archive_project_body user) w
   = (Return p', mkWorld (Projects.save_project p' (store w)) (files w))
   /\ Projects.find_project project_id
        (Projects.save_project p' (store w)) = Some p'
   /\ run (Projects.delete_project project_id user) w
      = (Raise (HTTPException 403
                  "Only project owner can delete the project"), w))
  /\ (~ has_admin_membership (store w) user project_id ->
      forall u sched,
        request (Projects.update_project project_id u user) w sched
        = (Raise (HTTPException 403 "Insufficient permissions"), w)).
Proof.
  intros Hf. split.
  - intros Ha Ho. apply is_admin_spec in Ha. cbv zeta.
    unfold run. rewrite update_project_outcome, delete_project_outcome.
    rewrite Hf, Ha. apply Z.eqb_neq in Ho. rewrite Ho.
    split; [reflexivity|]. split; [|reflexivity].
    now apply (find_project_save_project _ _ p).
  - intros Ha u sched. rewrite update_project_outcome, Hf.
    destruct (is_admin _ _ _) eqn:E; [|reflexivity].
    apply is_admin_spec in E. contradiction.
Qed.

(** X13, witness: erin, admin of alice's project in the second world,
    archives it through PUT; bob, a member, is refused. *)
Lemma update_project_archives_for_admin_witness :
  run (Projects.update_project 1 archive_project_body Example2.erin)
      Example2.world
  = (Return (Project.set_is_archived (Some true) Example.project),
     mkWorld (Projects.save_project
                (Project.set_is_archived (Some true) Example.project)
                Example2.db) (files Example2.world))
  /\ run (Projects.update_project 1 archive_project_body Example.bob)
         Example2.world
     = (Raise (HTTPException 403 "Insufficient permissions"), Example2.world).
Proof.
  destruct (update_project_archives_for_admin Example2.world 1 Example2.erin
              Example.project eq_refl) as [Hadmin _].
  destruct (update_project_archives_for_admin Example2.world 1 Example.bob
              Example.project eq_refl) as [_ Hmember].
  split.
  - apply Hadmin.
    + exists (ProjectMember.mk 4 1 Example2.erin "admin" 21). simpl.
      intuition.
    + discriminate.
  - apply Hmember. intros [m [Hin [Hu [Hp Hr]]]]. simpl in Hin.
    destruct Hin as [<-|[<-|[<-|[<-|[<-|[]]]]]]; simpl in *;
      try discriminate; destruct Hr; discriminate.
Defined.
(** ** The outcomes of the comment and attachment handlers *)

Lemma check_task_access_outcome (task_id user : Z) (s : Session) :
  Comments.check_task_access task_id user s
  = match Tasks.find_task task_id (view s) with
    | Some t =>
        if is_member (Task.project_id t) user (view s)
        then (Return t, s)
        else (Raise (HTTPException 403 "No access to this task"), s)
    | None => (Raise (HTTPException 404 "Task not found"), s)
    end.
Proof.
  unfold Comments.check_task_access, is_member.
  cbv [bind query ret raise]. crunch.
Qed.

Lemma create_comment_outcome (w : World) (sched : list bool) (now : Z)
      (data : TaskCommentCreate.t) (user : Z) :
  request (Comments.create_comment now data user) w sched
  = if task_accessible (TaskCommentCreate.task_id data) user (store w)
    then if accepted sched 0
         then let c := new_comment_row now data user (store w) in
              (Return c,
               mkWorld (with_task_comments (task_comments (store w) ++ [c])
                                           (store w)) (files w))
         else (Raise DBAPIError, w)
    else (Raise (task_access_error (TaskCommentCreate.task_id data) (store w)),
          w).
Proof.
  destruct w as [db fs].
  unfold Comments.create_comment, Comments.check_task_access,
    task_accessible, task_access_error, is_member, accepted, new_comment_row.
  open_handler. crunch.
Qed.

Lemma get_task_comments_outcome (w : World) (sched : list bool)
      (task_id user : Z) :
  request (Comments.get_task_comments task_id user) w sched
  = if task_accessible task_id user (store w)
    then (Return
            (order_by Comments.comment_created_at_asc
               (where_ (fun c => Some (TaskComment.task_id c =? task_id))
                       (task_comments (store w)))), w)
    else (Raise (task_access_error task_id (store w)), w).
Proof.
  destruct w as [db fs].
  unfold Comments.get_task_comments, Comments.check_task_access,
    task_accessible, task_access_error, is_member.
  open_handler. crunch.
Qed.

Lemma update_comment_outcome (w : World) (sched : list bool)
      (comment_id : Z) (u : TaskCommentUpdate.t) (user : Z) :
  request (Comments.update_comment comment_id u user) w sched
  = match Comments.find_comment comment_id (store w) with
    | None => (Raise (HTTPException 404 "Comment not found"), w)
    | Some c =>
        if negb (TaskComment.user_id c =? user)
        then (Raise (HTTPException 403 "Only comment author can edit"), w)
        else if task_accessible (TaskComment.task_id c) user (store w)
        then if accepted sched 0
             then let c' := Comments.apply_comment_update u c in
                  (Return c',
                   mkWorld (Comments.save_comment c' (store w)) (files w))
             else (Raise DBAPIError, w)
        else (Raise (task_access_error (TaskComment.task_id c) (store w)), w)
    end.
Proof.
  destruct w as [db fs].
  unfold Comments.update_comment, Comments.check_task_access,
    task_accessible, task_access_error, is_member, accepted.
  open_handler. crunch.
Qed.

Lemma upload_attachment_outcome (w : World) (sched : list bool) (now : Z)
      (uuid file_extension : string) (task_id : Z) (file : UploadFile.t)
      (user : Z) :
  request (Comments.upload_attachment now uuid file_extension task_id file
                                      user) w sched
  = if task_accessible task_id user (store w)
    then if Comments.max_file_size
            <? Z.of_nat (List.length (UploadFile.content file))
         then (Raise (HTTPException 413
                        "File size too large. Maximum size is 10MB."), w)
         else
           let fs' := with_file (upload_path uuid file_extension) (files w) in
           if accepted sched 0
           then let a := new_attachment_row now uuid file_extension task_id
                                            file user (store w) in
                (Return a,
                 mkWorld (with_task_attachments
                            (task_attachments (store w) ++ [a]) (store w))
                         fs')
           else (Raise DBAPIError, mkWorld (store w) fs')
    else (Raise (task_access_error task_id (store w)), w).
Proof.
  destruct w as [db fs].
  unfold Comments.upload_attachment, Comments.check_task_access,
    Comments.write_file, task_accessible, task_access_error, is_member,
    accepted, new_attachment_row, with_file, upload_path.
  open_handler. crunch.
Qed.

Lemma get_task_attachments_outcome (w : World) (sched : list bool)
      (task_id user : Z) :
  request (Comments.get_task_attachments task_id user) w sched
  = if task_accessible task_id user (store w)
    then (Return
            (order_by Comments.attachment_created_at_asc
               (where_ (fun a => Some (TaskAttachment.task_id a =? task_id))
                       (task_attachments (store w)))), w)
    else (Raise (task_access_error task_id (store w)), w).
Proof.
  destruct w as [db fs].
  unfold Comments.get_task_attachments, Comments.check_task_access,
    task_accessible, task_access_error, is_member.
  open_handler. crunch.
Qed.

Lemma delete_attachment_outcome (w : World) (sched : list bool)
      (attachment_id user : Z) :
  request (Comments.delete_attachment attachment_id user) w sched
  = match Comments.find_attachment attachment_id (store w) with
    | None => (Raise (HTTPException 404 "Attachment not found"), w)
    | Some a =>
        match Tasks.find_task (TaskAttachment.task_id a) (store w) with
        | None =>
            (Raise (AttributeError
                      "'NoneType' object has no attribute 'project_id'"), w)
        | Some t =>
            let membership :=
              membership_of (Task.project_id t) user (store w) in
            if negb (TaskAttachment.user_id a =? user)
               && negb (is_member (Task.project_id t) user (store w))
            then (Raise role_of_None, w)
            else if allowed_to_delete (TaskAttachment.user_id a) user
                                      membership
            then
              let fs' := without_file (TaskAttachment.file_path a) (files w) in
              if accepted sched 0
              then (Return "Attachment deleted successfully",
                    mkWorld (Comments.drop_attachment a (store w)) fs')
              else (Raise DBAPIError, mkWorld (store w) fs')
            else (Raise (HTTPException 403
                    "Insufficient permissions to delete this attachment"), w)
        end
    end.
Proof.
  destruct w as [db fs].
  unfold Comments.delete_attachment, Comments.not_owner_nor_admin,
    project_id_of, role_of, role_of_None, allowed_to_delete, is_member,
    except_FileNotFoundError_pass, os_remove, without_file, accepted.
  open_handler. cbv zeta. crunch.
Qed.
(** ** Comments: create, list, edit *)

Lemma task_accessible_spec (task_id user : Z) (db : Db) :
  task_accessible task_id user db = true <->
  exists t, Tasks.find_task task_id db = Some t
            /\ has_membership db user (Task.project_id t).
Proof.
  unfold task_accessible. destruct (Tasks.find_task task_id db) as [t|].
  - rewrite is_member_spec. split.
    + intros H. now exists t.
    + intros [t' [[= <-] H]]. exact H.
  - split; [discriminate | intros [t [H _]]; discriminate].
Qed.

(** X14. A comment is created only on a stored task of a project the caller
    has a membership in; it is the caller's, it is not marked edited, and
    right after, [get_task_comments] of that task, by the same caller,
    succeeds, contains it, and returns comments of that task only. *)
Theorem create_comment_then_list (w w' : World) (sched sched' : list bool)
        (now : Z) (data : TaskCommentCreate.t) (user : Z)
        (c : TaskComment.t) :
  request (Comments.create_comment now data user) w sched = (Return c, w') ->
  TaskComment.user_id c = user
  /\ TaskComment.task_id c = TaskCommentCreate.task_id data
  /\ TaskComment.content c = TaskCommentCreate.content data
  /\ TaskComment.is_edited c = Some false
  /\ (exists t, Tasks.find_task (TaskCommentCreate.task_id data) (store w)
                = Some t
                /\ has_membership (store w) user (Task.project_id t))
  /\ exists rows,
      request (Comments.get_task_comments (TaskCommentCreate.task_id data)
                                          user) w' sched'
      = (Return rows, w')
      /\ In c rows
      /\ forall r, In r rows ->
                   TaskComment.task_id r = TaskCommentCreate.task_id data.
Proof.
  rewrite create_comment_outcome.
  destruct (task_accessible _ user (store w)) eqn:Ea; [|discriminate].
  destruct (accepted sched 0); [|discriminate].
  cbv zeta. intros [= <- <-].
  cbn [new_comment_row TaskComment.user_id TaskComment.task_id
       TaskComment.content TaskComment.is_edited].
  repeat (split; [reflexivity|]).
  split; [now apply task_accessible_spec|].
  rewrite get_task_comments_outcome. cbn [store].
  change (task_accessible (TaskCommentCreate.task_id data) user
            (with_task_comments _ (store w)))
    with (task_accessible (TaskCommentCreate.task_id data) user (store w)).
  rewrite Ea. eexists. split; [reflexivity|]. split.
  - apply order_by_In, where_In. cbn [task_comments with_task_comments].
    split; [apply in_or_app; right; now left|].
    cbn [TaskComment.task_id]. now rewrite Z.eqb_refl.
  - intros r Hr. apply order_by_In, where_In in Hr. destruct Hr as [_ Hr].
    injection Hr as Hr. now apply Z.eqb_eq.
Qed.

(** X14, witness: dave, a viewer, comments on the open task. *)
Lemma create_comment_then_list_witness :
  let data := TaskCommentCreate.mk "Figures attached" 2 in
  let c := new_comment_row 80 data Example.dave Example.db in
  let w' := mkWorld (with_task_comments (task_comments Example.db ++ [c])
                                        Example.db) (files Example.world) in
  run (Comments.create_comment 80 data Example.dave) Example.world
  = (Return c, w')
  /\ exists rows,
      run (Comments.get_task_comments 2 Example.dave) w' = (Return rows, w')
      /\ In c rows.
Proof.
  cbv zeta. split; [reflexivity|].
  destruct (create_comment_then_list Example.world _ [] [] 80
              (TaskCommentCreate.mk "Figures attached" 2) Example.dave _
              eq_refl) as [_ [_ [_ [_ [_ [rows [Hrun [Hin _]]]]]]]].
  exists rows. split; [exact Hrun | exact Hin].
Defined.

Lemma find_comment_save_comment (db : Db) (comment_id : Z)
      (c c' : TaskComment.t) :
  Comments.find_comment comment_id db = Some c ->
  TaskComment.id c' = TaskComment.id c ->
  Comments.find_comment comment_id (Comments.save_comment c' db) = Some c'.
Proof.
  unfold Comments.find_comment, Comments.save_comment, first.
  cbn [task_comments with_task_comments].
  induction (task_comments db) as [|x l IH]; simpl; intros H Hid;
    [discriminate|].
  destruct (TaskComment.id x =? comment_id) eqn:E.
  - injection H as ->. rewrite Hid, Z.eqb_refl.
    apply Z.eqb_eq in E. now rewrite Hid, E, Z.eqb_refl.
  - destruct (TaskComment.id x =? TaskComment.id c') eqn:E'.
    + apply Z.eqb_eq in E'. apply find_some in H. destruct H as [_ Hb].
      apply Z.eqb_eq in Hb. rewrite E', Hid, Hb, Z.eqb_refl in E.
      discriminate.
    + rewrite E. now apply IH.
Qed.

(** X15. Only the author edits a comment: any other caller, whatever the
    role, gets 403 and nothing changes. For the author, with access to the
    task: a non-empty new content replaces the old one and marks the
    comment edited, leaving its other columns; an absent or empty content
    is accepted and leaves the comment as it is. *)
Theorem update_comment_author_only (w : World) (comment_id user : Z)
        (c : TaskComment.t) :
  Comments.find_comment comment_id (store w) = Some c ->
  (TaskComment.user_id c <> user ->
   forall u sched,
     request (Comments.update_comment comment_id u user) w sched
     = (Raise (HTTPException 403 "Only comment author can edit"), w))
  /\ (TaskComment.user_id c = user ->
      task_accessible (TaskComment.task_id c) user (store w) = true ->
      (forall s, s <> "" ->
         let c' := TaskComment.mk (TaskComment.id c) (TaskComment.task_id c)
                     (TaskComment.user_id c) s (Some true)
                     (TaskComment.created_at c) (TaskComment.updated_at c) in
         run (Comments.update_comment comment_id
                (TaskCommentUpdate.mk (Some s)) user) w
         = (Return c',
            mkWorld (Comments.save_comment c' (store w)) (files w))
         /\ Comments.find_comment comment_id
              (Comments.save_comment c' (store w)) = Some c')
      /\ (forall u, truthy_str (TaskCommentUpdate.content u) = false ->
            run (Comments.update_comment comment_id u user) w
            = (Return c,
               mkWorld (Comments.save_comment c (store w)) (files w))
            /\ Comments.find_comment comment_id
                 (Comments.save_comment c (store w)) = Some c)).
Proof.
  intros Hf. split.
  - intros Hne u sched. rewrite update_comment_outcome, Hf.
    apply Z.eqb_neq in Hne. now rewrite Hne.
  - intros Hu Ha. apply Z.eqb_eq in Hu. split.
    + intros s Hs. cbv zeta. unfold run.
      rewrite update_comment_outcome, Hf, Hu, Ha. cbn [negb accepted nth].
      unfold Comments.apply_comment_update.
      cbn [TaskCommentUpdate.content].
      apply String.eqb_neq in Hs. rewrite Hs. cbn [negb].
      split; [reflexivity|].
      now apply (find_comment_save_comment _ _ c).
    + intros u Hfalsy. unfold run.
      rewrite update_comment_outcome, Hf, Hu, Ha. cbn [negb accepted nth].
      replace (Comments.apply_comment_update u c) with c.
      * split; [reflexivity|].
        now apply (find_comment_save_comment _ _ c).
      * unfold Comments.apply_comment_update. unfold truthy_str in Hfalsy.
        destruct (TaskCommentUpdate.content u) as [s|]; [|reflexivity].
        now rewrite Hfalsy.
Qed.

(** X15, witness: alice owns the project but may not edit bob's comment;
    bob rewrites it. *)
Lemma update_comment_author_only_witness :
  run (Comments.update_comment 1 (TaskCommentUpdate.mk (Some "Rewritten"))
                               Example.alice) Example.world
  = (Raise (HTTPException 403 "Only comment author can edit"), Example.world)
  /\ fst (run (Comments.update_comment 1
                 (TaskCommentUpdate.mk (Some "Rewritten")) Example.bob)
              Example.world)
     = Return (TaskComment.mk 1 1 Example.bob "Rewritten" (Some true) 12 12).
Proof.
  destruct (update_comment_author_only Example.world 1 Example.alice
              Example.comment eq_refl) as [Hother _].
  destruct (update_comment_author_only Example.world 1 Example.bob
              Example.comment eq_refl) as [_ Hauthor].
  split.
  - apply Hother. discriminate.
  - destruct (Hauthor eq_refl eq_refl) as [Hedit _].
    destruct (Hedit "Rewritten") as [Hrun _]; [discriminate|].
    now rewrite Hrun.
Defined.
(** ** Attachments: the size cap, the files, the round trip *)

(** X16. For a caller with access to the task, an upload of more than
    10 MiB (10485760 bytes) is refused with 413 before anything is written:
    no file, no row. An upload of at most that size, once committed, stores
    a row with the size of the content and the original file name, under a
    path made of the upload directory, the fresh uuid and the extension,
    and that file exists. *)
Theorem upload_attachment_size_limit (w : World) (sched : list bool)
        (now : Z) (uuid file_extension : string) (task_id : Z)
        (file : UploadFile.t) (user : Z) :
  task_accessible task_id user (store w) = true ->
  let size := Z.of_nat (List.length (UploadFile.content file)) in
  (10485760 < size ->
   request (Comments.upload_attachment now uuid file_extension task_id file
                                       user) w sched
   = (Raise (HTTPException 413 "File size too large. Maximum size is 10MB."),
      w))
  /\ (size <= 10485760 -> accepted sched 0 = true ->
      exists a w',
        request (Comments.upload_attachment now uuid file_extension task_id
                                            file user) w sched
        = (Return a, w')
        /\ TaskAttachment.file_size a = size
        /\ TaskAttachment.user_id a = user
        /\ TaskAttachment.task_id a = task_id
        /\ TaskAttachment.original_filename a = UploadFile.filename file
        /\ TaskAttachment.file_path a
           = ("uploads/attachments/" ++ uuid ++ file_extension)%string
        /\ In (TaskAttachment.file_path a) (files w')
        /\ task_attachments (store w') = task_attachments (store w) ++ [a]).
Proof.
  intros Ha size. split.
  - intros Hbig. rewrite upload_attachment_outcome, Ha.
    replace (Comments.max_file_size <? _) with true; [reflexivity|].
    symmetry. apply Z.ltb_lt. exact Hbig.
  - intros Hsmall Hok. eexists. eexists.
    rewrite upload_attachment_outcome, Ha, Hok.
    replace (Comments.max_file_size <? _) with false.
    + cbv zeta. split; [reflexivity|].
      cbn [new_attachment_row TaskAttachment.file_size TaskAttachment.user_id
           TaskAttachment.task_id TaskAttachment.original_filename
           TaskAttachment.file_path files store task_attachments
           with_task_attachments].
      repeat (split; [reflexivity|]). split; [|reflexivity].
      unfold with_file, upload_path.
      destruct (existsb _ (files w)) eqn:E.
      * apply existsb_exists in E. destruct E as [x [Hx He]].
        apply String.eqb_eq in He. now subst x.
      * apply in_or_app. right. now left.
    + symmetry. apply Z.ltb_ge. exact Hsmall.
Qed.

(** X16, witness: bob attaches a three-byte file to the open task; the
    same upload with one byte more than 10 MiB is refused. *)
Lemma upload_attachment_size_limit_witness :
  (exists a w',
      run (Comments.upload_attachment 90 "9b2f" ".txt" 2
             (UploadFile.mk "notes.txt" (Some "text/plain")
                            [Byte.x61; Byte.x62; Byte.x63])
             Example.bob) Example.world = (Return a, w')
      /\ TaskAttachment.file_size a = 3
      /\ In "uploads/attachments/9b2f.txt" (files w'))
  /\ run (Comments.upload_attachment 90 "9b2f" ".bin" 2
            (UploadFile.mk "dump.bin" None
                           (repeat Byte.x78 (Z.to_nat 10485761)))
            Example.bob) Example.world
     = (Raise (HTTPException 413
                 "File size too large. Maximum size is 10MB."),
        Example.world).
Proof.
  split.
  - destruct (upload_attachment_size_limit Example.world [] 90 "9b2f" ".txt"
                2 (UploadFile.mk "notes.txt" (Some "text/plain")
                                 [Byte.x61; Byte.x62; Byte.x63])
                Example.bob eq_refl) as [_ H].
    destruct H as [a [w' [Hrun [Hsize [_ [_ [_ [Hpath [Hin _]]]]]]]]].
    + simpl. lia.
    + reflexivity.
    + exists a, w'. split; [exact Hrun|]. split; [exact Hsize|].
      rewrite Hpath in Hin. exact Hin.
  - destruct (upload_attachment_size_limit Example.world [] 90 "9b2f" ".bin"
                2 (UploadFile.mk "dump.bin" None
                                 (repeat Byte.x78 (Z.to_nat 10485761)))
                Example.bob eq_refl) as [H _].
    apply H. cbn [UploadFile.content]. rewrite repeat_length, Z2Nat.id; lia.
Defined.

Lemma find_attachment_appended_new (db : Db) (a : TaskAttachment.t) :
  TaskAttachment.id a
  = next_id (map TaskAttachment.id (task_attachments db)) ->
  Comments.find_attachment (TaskAttachment.id a)
    (with_task_attachments (task_attachments db ++ [a]) db) = Some a.
Proof.
  intros Hid. unfold Comments.find_attachment, first.
  cbn [task_attachments with_task_attachments].
  rewrite find_app_fresh, Hid.
  rewrite (find_none_fresh_id TaskAttachment.id). now rewrite Z.eqb_refl.
Qed.

Lemma without_with_file (path : string) (fs : list string) :
  ~ In path fs -> without_file path (with_file path fs) = fs.
Proof.
  intros Hnot. unfold with_file.
  destruct (existsb (String.eqb path) fs) eqn:E.
  - apply existsb_exists in E. destruct E as [x [Hx He]].
    apply String.eqb_eq in He. subst x. contradiction.
  - unfold without_file. rewrite existsb_app, E. cbn [existsb].
    rewrite String.eqb_refl. cbn [orb]. rewrite filter_app.
    cbn [filter]. rewrite String.eqb_refl. cbn [negb].
    rewrite app_nil_r. clear E.
    induction fs as [|x fs IH]; [reflexivity|]. cbn [filter].
    destruct (path =? x)%string eqn:Ex.
    + apply String.eqb_eq in Ex. subst x. exfalso. apply Hnot. now left.
    + cbn [negb]. f_equal. apply IH. intros H. apply Hnot. now right.
Qed.

(** X17. Upload, then delete: when the new path was not on disk before, a
    successful upload followed by [delete_attachment] of the new id by the
    uploader gives back the world as it was, rows and files. *)
Theorem upload_then_delete_restores_world (w w' : World) (now : Z)
        (uuid file_extension : string) (task_id : Z) (file : UploadFile.t)
        (user : Z) (a : TaskAttachment.t) :
  run (Comments.upload_attachment now uuid file_extension task_id file user) w
  = (Return a, w') ->
  ~ In (upload_path uuid file_extension) (files w) ->
  run (Comments.delete_attachment (TaskAttachment.id a) user) w'
  = (Return "Attachment deleted successfully", w).
Proof.
  unfold run. rewrite upload_attachment_outcome.
  destruct (task_accessible task_id user (store w)) eqn:Ea; [|discriminate].
  destruct (_ <? _); [discriminate|]. cbn [accepted nth]. cbv zeta.
  intros [= <- <-] Hfresh.
  rewrite delete_attachment_outcome. cbn [store files].
  rewrite find_attachment_appended_new by reflexivity.
  cbn [new_attachment_row TaskAttachment.task_id TaskAttachment.user_id
       TaskAttachment.file_path].
  unfold task_accessible in Ea.
  change (Tasks.find_task task_id (with_task_attachments _ (store w)))
    with (Tasks.find_task task_id (store w)).
  destruct (Tasks.find_task task_id (store w)) as [t|]; [|discriminate].
  cbv zeta. rewrite Z.eqb_refl. cbn [negb andb].
  unfold allowed_to_delete. rewrite Z.eqb_refl. cbn [orb accepted nth].
  rewrite without_with_file by exact Hfresh.
  f_equal. destruct w as [db fs]. cbn [store files]. f_equal.
  destruct db as [p m t' g tt c att n].
  unfold Comments.drop_attachment, with_task_attachments.
  cbn [projects project_members tasks tags task_tags task_comments
       task_attachments notifications TaskAttachment.id].
  f_equal.
  rewrite filter_app. cbn [filter TaskAttachment.id].
  rewrite Z.eqb_refl. cbn [negb]. rewrite app_nil_r.
  apply (filter_drop_fresh TaskAttachment.id). apply next_id_fresh.
Qed.

(** X17, witness: bob uploads a file to the open task and deletes it
    again. *)
Lemma upload_then_delete_restores_world_witness :
  let file := UploadFile.mk "notes.txt" (Some "text/plain")
                            [Byte.x61; Byte.x62; Byte.x63] in
  let a := new_attachment_row 90 "9b2f" ".txt" 2 file Example.bob
                              Example.db in
  let w' := mkWorld (with_task_attachments
                       (task_attachments Example.db ++ [a]) Example.db)
                    (files Example.world
                     ++ ["uploads/attachments/9b2f.txt"]) in
  run (Comments.upload_attachment 90 "9b2f" ".txt" 2 file Example.bob)
      Example.world = (Return a, w')
  /\ run (Comments.delete_attachment 2 Example.bob) w'
     = (Return "Attachment deleted successfully", Example.world).
Proof.
  cbv zeta. split; [reflexivity|].
  apply (upload_then_delete_restores_world Example.world _ 90 "9b2f" ".txt" 2
           (UploadFile.mk "notes.txt" (Some "text/plain")
                          [Byte.x61; Byte.x62; Byte.x63])
           Example.bob
           (new_attachment_row 90 "9b2f" ".txt" 2
              (UploadFile.mk "notes.txt" (Some "text/plain")
                             [Byte.x61; Byte.x62; Byte.x63])
              Example.bob Example.db)).
  - reflexivity.
  - simpl. intros [H|[]]. discriminate H.
Defined.

(** X18. The file system is outside the transaction. If the store refuses
    the commit of an upload, the file has been written and no row refers to
    it; if it refuses the commit of [delete_attachment] by the uploader,
    the file has been removed and the row is still there. *)
Theorem attachment_files_outlive_refused_commits (w : World)
        (sched : list bool) (user : Z) :
  accepted sched 0 = false ->
  (forall now uuid file_extension task_id file,
      task_accessible task_id user (store w) = true ->
      Z.of_nat (List.length (UploadFile.content file)) <= 10485760 ->
      request (Comments.upload_attachment now uuid file_extension task_id
                                          file user) w sched
      = (Raise DBAPIError,
         mkWorld (store w)
                 (with_file (upload_path uuid file_extension) (files w))))
  /\ (forall attachment_id a t,
      Comments.find_attachment attachment_id (store w) = Some a ->
      Tasks.find_task (TaskAttachment.task_id a) (store w) = Some t ->
      TaskAttachment.user_id a = user ->
      request (Comments.delete_attachment attachment_id user) w sched
      = (Raise DBAPIError,
         mkWorld (store w)
                 (without_file (TaskAttachment.file_path a) (files w)))).
Proof.
  intros Hno. split.
  - intros now uuid file_extension task_id file Ha Hsize.
    rewrite upload_attachment_outcome, Ha, Hno.
    replace (Comments.max_file_size <? _) with false; [reflexivity|].
    symmetry. apply Z.ltb_ge. exact Hsize.
  - intros attachment_id a t Hfa Hft Hu.
    rewrite delete_attachment_outcome, Hfa, Hft, Hno. cbv zeta.
    apply Z.eqb_eq in Hu. unfold allowed_to_delete. rewrite Hu.
    reflexivity.
Qed.

(** X18, witness: the store refuses bob's upload and bob's delete. *)
Lemma attachment_files_outlive_refused_commits_witness :
  request (Comments.upload_attachment 90 "9b2f" ".txt" 2
             (UploadFile.mk "notes.txt" None [Byte.x61]) Example.bob)
          Example.world [false]
  = (Raise DBAPIError,
     mkWorld Example.db ["uploads/attachments/f3a1.txt";
                         "uploads/attachments/9b2f.txt"])
  /\ request (Comments.delete_attachment 1 Example.bob) Example.world [false]
     = (Raise DBAPIError, mkWorld Example.db []).
Proof.
  destruct (attachment_files_outlive_refused_commits Example.world [false]
              Example.bob eq_refl) as [Hup Hdel].
  split.
  - apply (Hup 90 "9b2f" ".txt" 2 (UploadFile.mk "notes.txt" None [Byte.x61])).
    + reflexivity.
    + simpl. lia.
  - apply (Hdel 1 Example.attachment Example.done_task); reflexivity.
Defined.
(** ** Tags: creation and listing *)

Lemma create_tag_outcome (w : World) (sched : list bool) (now : Z)
      (data : TagCreate.t) (user : Z) :
  request (Tags.create_tag now data user) w sched
  = if negb (tag_scope_open (TagCreate.project_id data) user (store w))
    then (Raise (HTTPException 403 "No access to this project"), w)
    else if tag_taken (TagCreate.name data) (TagCreate.project_id data)
                      (store w)
    then (Raise (HTTPException 400
                   "Tag with this name already exists in this project"), w)
    else if accepted sched 0
    then let t := new_tag_row now data user (store w) in
         (Return t,
          mkWorld (with_tags (tags (store w) ++ [t]) (store w)) (files w))
    else (Raise DBAPIError, w).
Proof.
  destruct w as [db fs].
  unfold Tags.create_tag, tag_scope_open, tag_taken, is_member, accepted,
    new_tag_row.
  open_handler. crunch.
Qed.

Lemma get_tags_outcome (w : World) (sched : list bool)
      (project_id : option Z) (user : Z) :
  request (Tags.get_tags project_id user) w sched
  = if truthy_int project_id
    then match project_id with
         | Some pid =>
             if is_member pid user (store w)
             then (Return
                     (order_by Tags.name_asc
                        (where_ (fun t =>
                                   sql_or (sql_eq_int (Tag.project_id t) pid)
                                          (Tags.is_null (Tag.project_id t)))
                                (tags (store w)))), w)
             else (Raise (HTTPException 403 "No access to this project"), w)
         | None => (Raise DBAPIError, w)
         end
    else (Return (order_by Tags.name_asc
                    (Tags.accessible_tags user (store w))), w).
Proof.
  destruct w as [db fs].
  unfold Tags.get_tags, is_member, truthy_int.
  open_handler. crunch.
Qed.

Lemma tag_taken_spec (name : string) (project_id : option Z) (db : Db) :
  tag_taken name project_id db = true <-> In (name, project_id) (tag_keys db).
Proof.
  assert (Hp : forall t,
    is_true_sql (sql_and (Some (Tag.name t =? name)%string)
                         (Tags.project_id_is (Tag.project_id t) project_id))
    = true <-> tag_key t = (name, project_id)).
  { intros t. unfold tag_key, Tags.project_id_is, sql_eq_int.
    destruct (Tag.name t =? name)%string eqn:En.
    - apply String.eqb_eq in En. rewrite En.
      destruct project_id as [v|], (Tag.project_id t) as [x|]; simpl;
        try destruct (x =? v) eqn:Ex; simpl;
        try (apply Z.eqb_eq in Ex; subst x);
        try (apply Z.eqb_neq in Ex);
        split; try discriminate; try reflexivity; intros [=]; congruence.
    - apply String.eqb_neq in En.
      destruct project_id as [v|], (Tag.project_id t) as [x|]; simpl;
        try destruct (x =? v); simpl;
        split; try discriminate; intros [=]; congruence. }
  unfold tag_taken, tag_keys, first. rewrite in_map_iff. split.
  - destruct (find _ _) as [t|] eqn:E; [|discriminate]. intros _.
    apply find_some in E. destruct E as [Hin Ht]. exists t.
    split; [now apply Hp | exact Hin].
  - intros [t [Hk Hin]]. destruct (find _ _) as [t'|] eqn:E; [reflexivity|].
    apply (find_none _ _ E) in Hin. apply Hp in Hk. congruence.
Qed.

(** X19. A tag is created only in a scope open to the caller (a project tag
    needs a membership in the project) and only when no stored tag has the
    same name in the same scope, global tags forming a scope of their own;
    the new tag is the caller's and is appended to the table. A refused
    creation changes nothing. *)
Theorem create_tag_checks_and_stores (w : World) (sched : list bool)
        (now : Z) (data : TagCreate.t) (user : Z) :
  match request (Tags.create_tag now data user) w sched with
  | (Return t, w') =>
      (forall p, Tag.project_id t = Some p -> p <> 0 ->
                 has_membership (store w) user p)
      /\ ~ In (tag_key t) (tag_keys (store w))
      /\ tag_key t = (TagCreate.name data, TagCreate.project_id data)
      /\ Tag.created_by t = user
      /\ ~ In (Tag.id t) (map Tag.id (tags (store w)))
      /\ store w' = with_tags (tags (store w) ++ [t]) (store w)
      /\ files w' = files w
  | (Raise e, w') => w' = w
  end.
Proof.
  rewrite create_tag_outcome.
  destruct (tag_scope_open _ user _) eqn:Eo; cbn [negb]; [|reflexivity].
  destruct (tag_taken _ _ _) eqn:Et; [reflexivity|].
  destruct (accepted sched 0); [|reflexivity].
  cbv zeta. cbn [store files new_tag_row tag_key Tag.name Tag.project_id
                 Tag.created_by Tag.id].
  split; [|split; [|split; [reflexivity|split; [reflexivity|split;
    [apply next_id_fresh | split; reflexivity]]]]].
  - intros p Hp Hne. unfold tag_scope_open in Eo. rewrite Hp in Eo.
    apply Z.eqb_neq in Hne. rewrite Hne in Eo. now apply is_member_spec.
  - intros Hin.
    apply (tag_taken_spec (TagCreate.name data) (TagCreate.project_id data))
      in Hin.
    congruence.
Qed.

(** X20. A name is taken once: after a successful [create_tag], a later
    [create_tag] with the same name and scope, by any caller to whom the
    scope is open and with any colour, is refused with 400 and changes
    nothing. *)
Theorem create_tag_twice_refused (w w' : World) (sched sched' : list bool)
        (now now' : Z) (data : TagCreate.t) (color' : string)
        (user user' : Z) (t : Tag.t) :
  request (Tags.create_tag now data user) w sched = (Return t, w') ->
  tag_scope_open (TagCreate.project_id data) user' (store w') = true ->
  request (Tags.create_tag now'
             (TagCreate.mk (TagCreate.name data) color'
                           (TagCreate.project_id data)) user') w' sched'
  = (Raise (HTTPException 400
              "Tag with this name already exists in this project"), w').
Proof.
  rewrite create_tag_outcome.
  destruct (tag_scope_open _ user _); cbn [negb]; [|discriminate].
  destruct (tag_taken _ _ _); [discriminate|].
  destruct (accepted sched 0); [|discriminate].
  cbv zeta. intros [= <- <-] Hopen.
  rewrite create_tag_outcome. cbn [TagCreate.name TagCreate.project_id].
  rewrite Hopen. cbn [negb].
  replace (tag_taken _ _ _) with true; [reflexivity|].
  symmetry. apply tag_taken_spec. unfold tag_keys. cbn [store tags with_tags].
  rewrite map_app. apply in_or_app. right. now left.
Qed.

(** X20, witness: alice creates the tag "blocked" in her project; bob, a
    member, then asks for the same name there. *)
Lemma create_tag_twice_refused_witness :
  let data := TagCreate.mk "blocked" "#e74c3c" (Some 1) in
  let t := new_tag_row 95 data Example.alice Example.db in
  let w' := mkWorld (with_tags (tags Example.db ++ [t]) Example.db)
                    (files Example.world) in
  run (Tags.create_tag 95 data Example.alice) Example.world = (Return t, w')
  /\ run (Tags.create_tag 96 (TagCreate.mk "blocked" "#000000" (Some 1))
                          Example.bob) w'
     = (Raise (HTTPException 400
                 "Tag with this name already exists in this project"), w').
Proof.
  cbv zeta. split; [reflexivity|].
  apply (create_tag_twice_refused Example.world _ [] [] 95 96
           (TagCreate.mk "blocked" "#e74c3c" (Some 1)) "#000000"
           Example.alice Example.bob
           (new_tag_row 95 (TagCreate.mk "blocked" "#e74c3c" (Some 1))
                        Example.alice Example.db));
    reflexivity.
Defined.

(** X21. [get_tags] writes nothing and fails only with 403, exactly when a
    non-zero project filter names a project without the caller: it raises
    only then, and it returns only when the filter is absent, zero, or names
    a project the caller has a membership in. Otherwise a tag is
    in the result exactly when it is stored and either global, or of a
    project the caller has a membership in and, when a project filter is
    set, of that very project. *)
Theorem get_tags_scope (w : World) (sched : list bool)
        (project_id : option Z) (user : Z) :
  match request (Tags.get_tags project_id user) w sched with
  | (Return rows, w') =>
      w' = w
      /\ (forall pid, project_id = Some pid -> pid <> 0 ->
                      has_membership (store w) user pid)
      /\ forall t,
          In t rows <->
          In t (tags (store w))
          /\ match Tag.project_id t with
             | None => True
             | Some p => has_membership (store w) user p
                         /\ meets_int project_id (Some p)
             end
  | (Raise e, w') =>
      w' = w
      /\ e = HTTPException 403 "No access to this project"
      /\ exists pid, project_id = Some pid /\ pid <> 0
                     /\ ~ has_membership (store w) user pid
  end.
Proof.
  rewrite get_tags_outcome. unfold meets_int.
  destruct (truthy_int project_id) eqn:Et.
  - destruct project_id as [pid|]; [|discriminate].
    destruct (is_member pid user (store w)) eqn:Em.
    + split; [reflexivity|]. apply is_member_spec in Em.
      split; [intros q [= <-] _; exact Em|].
      intros t. rewrite order_by_In, where_In.
      unfold sql_eq_int, Tags.is_null.
      destruct (Tag.project_id t) as [p|]; simpl.
      * destruct (p =? pid) eqn:E; simpl.
        -- apply Z.eqb_eq in E. subst p. tauto.
        -- apply Z.eqb_neq in E. split; [intros [_ H]; discriminate|].
           intros [_ [_ H]]. specialize (H eq_refl). congruence.
      * tauto.
    + split; [reflexivity|]. split; [reflexivity|]. exists pid.
      split; [reflexivity|]. split.
      * unfold truthy_int in Et. apply negb_true_iff in Et.
        now apply Z.eqb_neq.
      * rewrite <- is_member_spec. congruence.
  - split; [reflexivity|].
    split.
    { intros q -> Hq. unfold truthy_int in Et.
      apply negb_false_iff, Z.eqb_eq in Et. contradiction. }
    intros t.
    unfold Tags.accessible_tags. rewrite order_by_In, where_In.
    unfold Tags.sql_in, Tags.is_null, has_membership.
    destruct (Tag.project_id t) as [p|]; simpl.
    + rewrite <- accessible_projects_spec, <- in_spec.
      destruct (in_ p (accessible_projects (store w) user)); simpl.
      * split; [intros [H _]; split; [exact H|]|tauto].
        split; [reflexivity | discriminate].
      * split; [intros [_ H]; discriminate | intros [_ [H _]]; discriminate].
    + tauto.
Qed.

(** ** Notifications: reading and marking *)

Lemma get_notifications_outcome (w : World) (sched : list bool)
      (unread_only : bool) (user : Z) :
  request (Tags.get_notifications unread_only user) w sched
  = (Return
       (order_by Tags.notification_created_at_desc
          (let rows :=
             where_ (fun n => Some (Notification.user_id n =? user))
                    (notifications (store w)) in
           if unread_only
           then where_ (fun n => sql_eq_bool (Notification.is_read n) false)
                       rows
           else rows)), w).
Proof. destruct w as [db fs]. reflexivity. Qed.

Lemma get_notifications_In (db : Db) (unread_only : bool) (user : Z)
      (n : Notification.t) :
  In n (let rows :=
          where_ (fun n => Some (Notification.user_id n =? user))
                 (notifications db) in
        if unread_only
        then where_ (fun n => sql_eq_bool (Notification.is_read n) false) rows
        else rows)
  <-> In n (notifications db)
      /\ Notification.user_id n = user
      /\ (unread_only = true -> Notification.is_read n = Some false).
Proof.
  cbv zeta. destruct unread_only.
  - rewrite !where_In. unfold sql_eq_bool. split.
    + intros [[Hin Hu] Hr]. injection Hu as Hu. apply Z.eqb_eq in Hu.
      split; [exact Hin|]. split; [exact Hu|]. intros _.
      destruct (Notification.is_read n) as [[|]|]; simpl in Hr;
        congruence.
    + intros [Hin [Hu Hr]]. rewrite (Hr eq_refl), Hu, Z.eqb_refl. auto.
  - rewrite where_In. split.
    + intros [Hin Hu]. injection Hu as Hu. apply Z.eqb_eq in Hu.
      split; [exact Hin|]. split; [exact Hu | discriminate].
    + intros [Hin [Hu _]]. now rewrite Hu, Z.eqb_refl.
Qed.

(** X22. [get_notifications] always succeeds and writes nothing; it returns
    exactly the stored notifications of the caller, restricted, when
    [unread_only] is set, to those whose [is_read] is false. *)
Theorem get_notifications_scope (w : World) (sched : list bool)
        (unread_only : bool) (user : Z) :
  exists rows,
    request (Tags.get_notifications unread_only user) w sched
    = (Return rows, w)
    /\ forall n,
        In n rows <->
        In n (notifications (store w))
        /\ Notification.user_id n = user
        /\ (unread_only = true -> Notification.is_read n = Some false).
Proof.
  rewrite get_notifications_outcome. eexists. split; [reflexivity|].
  intros n. rewrite order_by_In. apply get_notifications_In.
Qed.

Lemma mark_all_run (w : World) (user : Z) :
  run (Tags.mark_all_notifications_read user) w
  = (Return "All notifications marked as read",
     mkWorld (with_notifications
                (Tags.mark_all_rows user (notifications (store w)))
                (store w)) (files w)).
Proof. destruct w as [db fs]. reflexivity. Qed.

Lemma where_nil_when {A} (cond : A -> option bool) (rows : list A) :
  (forall x, In x rows -> cond x <> Some true) -> where_ cond rows = [].
Proof.
  intros H. unfold where_.
  induction rows as [|x rows IH]; [reflexivity|]. cbn [filter].
  destruct (is_true_sql (cond x)) eqn:E.
  - exfalso. apply (H x); [now left|]. unfold is_true_sql in E.
    destruct (cond x) as [[|]|]; congruence.
  - apply IH. intros y Hy. apply H. now right.
Qed.

(** X23. After [mark_all_notifications_read], the caller has no unread
    notification left, and what any other user reads, unread or all, is
    what it was before. *)
Theorem mark_all_then_no_unread (w : World) (user : Z) :
  let w' := snd (run (Tags.mark_all_notifications_read user) w) in
  run (Tags.get_notifications true user) w' = (Return [], w')
  /\ forall other unread_only,
      other <> user ->
      fst (run (Tags.get_notifications unread_only other) w')
      = fst (run (Tags.get_notifications unread_only other) w).
Proof.
  cbv zeta. rewrite mark_all_run. cbn [snd]. unfold run.
  rewrite !get_notifications_outcome. cbn [store fst].
  cbn [notifications with_notifications]. split.
  - f_equal. f_equal. cbv zeta.
    rewrite where_nil_when; [reflexivity|].
    intros x Hx Hc. apply where_In in Hx. destruct Hx as [Hx Hu].
    unfold Tags.mark_all_rows in Hx. apply in_map_iff in Hx.
    destruct Hx as [n [<- Hn]].
    destruct (Tags.unread_of user n) eqn:E.
    + discriminate Hc.
    + assert (Hnot : Tags.unread_of user n = true).
      { unfold Tags.unread_of. injection Hu as Hu. rewrite Hu.
        unfold sql_eq_bool in *.
        destruct (Notification.is_read n) as [[|]|]; simpl in *;
          congruence. }
      congruence.
  - intros other unread_only Hne. rewrite !get_notifications_outcome.
    cbn [store fst notifications with_notifications]. f_equal. f_equal.
    cbv zeta.
    assert (Hsame :
      where_ (fun n => Some (Notification.user_id n =? other))
             (Tags.mark_all_rows user (notifications (store w)))
      = where_ (fun n => Some (Notification.user_id n =? other))
               (notifications (store w))).
    { unfold where_, Tags.mark_all_rows.
      induction (notifications (store w)) as [|n l IH]; [reflexivity|].
      cbn [map filter].
      destruct (Tags.unread_of user n) eqn:E.
      - apply unread_of_spec in E. destruct E as [Hu _].
        cbn [Notification.set_is_read Notification.user_id].
        rewrite Hu. apply Z.eqb_neq in Hne.
        rewrite Z.eqb_sym, Hne. cbn [is_true_sql]. exact IH.
      - destruct (is_true_sql _); [f_equal|]; exact IH. }
    now rewrite Hsame.
Qed.

Lemma find_notification_unique (rows : list Notification.t) (nid user : Z)
      (n x : Notification.t) :
  NoDup (map Notification.id rows) ->
  first (fun y => (Notification.id y =? nid)
                  && (Notification.user_id y =? user)) rows = Some n ->
  In x rows -> Notification.id x = nid -> x = n.
Proof.
  unfold first. intros Hpk Hf Hin Hid.
  apply find_some in Hf. destruct Hf as [Hn Hb].
  apply andb_true_iff in Hb. destruct Hb as [Hnid _]. apply Z.eqb_eq in Hnid.
  assert (Hsame : Notification.id x = Notification.id n) by congruence.
  clear Hid Hnid. induction rows as [|y l IH]; [contradiction|].
  cbn [map] in Hpk. apply NoDup_cons_iff in Hpk. destruct Hpk as [Hy Hl].
  destruct Hin as [->|Hin], Hn as [->|Hn]; try reflexivity.
  - exfalso. apply Hy. rewrite Hsame. now apply in_map.
  - exfalso. apply Hy. rewrite <- Hsame. now apply in_map.
  - now apply IH.
Qed.

(** X24. Under the primary key on notification ids,
    [mark_notification_read] changes at most the one row with the given id,
    and only when it is the caller's: that row gets [is_read] true and
    keeps its other columns, every other row is untouched. On an id that is
    unknown or belongs to another user it answers 404 and changes
    nothing. *)
Theorem mark_notification_read_scoped (w : World) (sched : list bool)
        (notification_id user : Z) :
  NoDup (map Notification.id (notifications (store w))) ->
  let w' := snd (request (Tags.mark_notification_read notification_id user)
                         w sched) in
  Forall2 (fun n n' =>
             same_but_is_read n n'
             /\ (Notification.id n <> notification_id
                 \/ Notification.user_id n <> user -> n' = n))
          (notifications (store w)) (notifications (store w'))
  /\ (forall n, In n (notifications (store w)) ->
                Notification.id n = notification_id ->
                Notification.user_id n <> user ->
                request (Tags.mark_notification_read notification_id user)
                        w sched
                = (Raise (HTTPException 404 "Notification not found"), w)).
Proof.
  intros Hpk. cbv zeta. destruct w as [db fs]. cbn [store] in *.
  unfold request, Tags.mark_notification_read.
  cbv [bind query ret raise modify commit].
  cbn [view durable disk faults store files fst snd].
  destruct (first _ (notifications db)) as [n|] eqn:Ef.
  - assert (Huniq := fun x => find_notification_unique _ _ _ n x Hpk Ef).
    pose proof Ef as Hn. unfold first in Hn. apply find_some in Hn.
    destruct Hn as [Hn Hb]. apply andb_true_iff in Hb.
    destruct Hb as [Hnid Hnu]. apply Z.eqb_eq in Hnid.
    apply Z.eqb_eq in Hnu. split.
    + assert (Hrows :
        Forall2 (fun x x' =>
                   same_but_is_read x x'
                   /\ (Notification.id x <> notification_id
                       \/ Notification.user_id x <> user -> x' = x))
                (notifications db)
                (notifications
                   (Tags.save_notification
                      (Notification.set_is_read (Some true) n) db))).
      { unfold Tags.save_notification.
        cbn [notifications with_notifications Notification.set_is_read
             Notification.id].
        clear Ef Hpk Hn. revert Huniq.
        induction (notifications db) as [|x l IH]; intros Huniq;
          cbn [map]; constructor.
        - destruct (Notification.id x =? Notification.id n) eqn:E.
          + apply Z.eqb_eq in E.
            assert (x = n) by (apply Huniq; [now left | congruence]).
            subst x. split; [apply set_is_read_same|].
            intros [H|H]; contradiction.
          + split; [unfold same_but_is_read; repeat split | reflexivity].
        - apply IH. intros y Hy. apply Huniq. now right. }
      destruct sched as [|[|] rest]; cbn [faults view durable disk];
        try exact Hrows.
      apply Forall2_same. intros x _.
      split; [unfold same_but_is_read; repeat split | reflexivity].
    + intros x Hx Hid Hu. rewrite (Huniq x Hx Hid) in Hu. contradiction.
  - split.
    + apply Forall2_same. intros x _.
      split; [unfold same_but_is_read; repeat split | reflexivity].
    + reflexivity.
Qed.

(** X24, witness: alice tries to mark bob's notification 3 and gets 404;
    she marks her own notification 1. *)
Lemma mark_notification_read_scoped_witness :
  run (Tags.mark_notification_read 3 Example.alice) Example.world
  = (Raise (HTTPException 404 "Notification not found"), Example.world)
  /\ Forall2 (fun n n' =>
                same_but_is_read n n'
                /\ (Notification.id n <> 1
                    \/ Notification.user_id n <> Example.alice -> n' = n))
             Example.inbox
             (notifications
                (store (snd (run (Tags.mark_notification_read 1 Example.alice)
                                 Example.world)))).
Proof.
  assert (Hpk : NoDup (map Notification.id (notifications
                                              (store Example.world)))).
  { simpl. repeat constructor; simpl; intuition discriminate. }
  split.
  - apply (proj2 (mark_notification_read_scoped Example.world [] 3
                    Example.alice Hpk)
                 (Notification.mk 3 Example.bob (Some 2) "task_assigned"
                                  "Assigned" None (Some false) None None 18)).
    + simpl. auto.
    + reflexivity.
    + discriminate.
  - exact (proj1 (mark_notification_read_scoped Example.world [] 1
                    Example.alice Hpk)).
Defined.
(** ** What every reachable world satisfies *)

Lemma NoDup_map_app_fresh {A B} (key : A -> B) (l : list A) (x : A) :
  NoDup (map key l) -> ~ In (key x) (map key l) ->
  NoDup (map key (l ++ [x])).
Proof.
  intros Hnd Hfresh. rewrite map_app. cbn [map].
  apply NoDup_app; [exact Hnd | repeat constructor; intros [] |].
  intros y Hy [<-|[]]. contradiction.
Qed.

Lemma NoDup_map_filter {A B} (key : A -> B) (keep : A -> bool) (l : list A) :
  NoDup (map key l) -> NoDup (map key (filter keep l)).
Proof.
  induction l as [|x l IH]; cbn [map filter]; intros H; [constructor|].
  apply NoDup_cons_iff in H. destruct H as [Hx Hl].
  destruct (keep x); [|now apply IH].
  cbn [map]. constructor; [|now apply IH].
  intros Hin. apply Hx. apply in_map_iff in Hin.
  destruct Hin as [y [Hy Hfy]]. apply filter_In in Hfy.
  rewrite <- Hy. apply in_map. tauto.
Qed.

Lemma in_app_l {A} (l : list A) (x y : A) : In y l -> In y (l ++ [x]).
Proof. intros H. apply in_or_app. now left. Qed.

Lemma in_app_last {A} (l : list A) (x : A) : In x (l ++ [x]).
Proof. apply in_or_app. right. now left. Qed.

Lemma in_ids_app {A} (key : A -> Z) (l : list A) (x : A) (k : Z) :
  In k (map key l) -> In k (map key (l ++ [x])).
Proof. intros H. rewrite map_app. apply in_or_app. now left. Qed.

Lemma has_membership_grows (db db' : Db) (m : ProjectMember.t) (u p : Z) :
  project_members db' = project_members db ++ [m] ->
  has_membership db u p -> has_membership db' u p.
Proof.
  intros Hm [x [Hin H]]. exists x. rewrite Hm. split; [|exact H].
  now apply in_app_l.
Qed.

Lemma assignees_grow (db db' : Db) (m : ProjectMember.t) :
  tasks db' = tasks db ->
  project_members db' = project_members db ++ [m] ->
  assignees_are_members db -> assignees_are_members db'.
Proof.
  intros Ht Hm H t a Hin Ha Hne. rewrite Ht in Hin.
  apply (has_membership_grows db db' m); [exact Hm|]. now apply (H t a).
Qed.

Lemma has_membership_pair (db : Db) (u p : Z) :
  has_membership db u p <-> In (p, u) (membership_pairs db).
Proof.
  unfold has_membership, membership_pairs. rewrite in_map_iff. split.
  - intros [m [Hin [Hu Hp]]]. exists m. now rewrite Hu, Hp.
  - intros [m [[= Hp Hu] Hin]]. now exists m.
Qed.

Lemma Forall2_In_r {A} (R : A -> A -> Prop) (l l' : list A) (x' : A) :
  Forall2 R l l' -> In x' l' -> exists x, In x l /\ R x x'.
Proof.
  induction 1 as [|a b l l' Hab _ IH]; intros Hin; [contradiction|].
  destruct Hin as [<-|Hin].
  - exists a. split; [now left | exact Hab].
  - destruct (IH Hin) as [x [Hx Hr]]. exists x. split; [now right | exact Hr].
Qed.

Lemma Forall2_In_l {A} (R : A -> A -> Prop) (l l' : list A) (x : A) :
  Forall2 R l l' -> In x l -> exists x', In x' l' /\ R x x'.
Proof.
  induction 1 as [|a b l l' Hab _ IH]; intros Hin; [contradiction|].
  destruct Hin as [<-|Hin].
  - exists b. split; [now left | exact Hab].
  - destruct (IH Hin) as [x' [Hx Hr]]. exists x'.
    split; [now right | exact Hr].
Qed.

(** *** Projects and memberships *)

Lemma project_appended_keeps (db : Db) (p : Project.t) :
  Project.id p = next_id (map Project.id (projects db)) ->
  well_formed db ->
  well_formed (with_projects (projects db ++ [p]) db).
Proof.
  intros Hid [H1 H2 H3 H4 H5 H6 H7 H8 H9 H10 H11 H12 H13].
  constructor; cbn [projects with_projects]; try assumption.
  - apply NoDup_map_app_fresh; [exact H1|]. rewrite Hid.
    apply next_id_fresh.
  - intros m Hm. apply in_ids_app. now apply H7.
  - intros t Ht. apply in_ids_app. now apply H9.
Qed.

Lemma member_appended_keeps (db : Db) (m : ProjectMember.t) :
  ProjectMember.id m
  = next_id (map ProjectMember.id (project_members db)) ->
  In (ProjectMember.project_id m) (map Project.id (projects db)) ->
  ~ has_membership db (ProjectMember.user_id m) (ProjectMember.project_id m) ->
  well_formed db ->
  well_formed (with_project_members (project_members db ++ [m]) db).
Proof.
  intros Hid Hp Hnew [H1 H2 H3 H4 H5 H6 H7 H8 H9 H10 H11 H12 H13].
  constructor; cbn [project_members with_project_members]; try assumption.
  - apply NoDup_map_app_fresh; [exact H2|]. rewrite Hid.
    apply next_id_fresh.
  - intros x Hx. cbn [project_members with_project_members] in Hx.
    apply in_app_or in Hx. destruct Hx as [Hx|[<-|[]]];
      [now apply H7 | exact Hp].
  - unfold membership_pairs. cbn [project_members with_project_members].
    apply (NoDup_map_app_fresh
             (fun x => (ProjectMember.project_id x, ProjectMember.user_id x)));
      [exact H8|].
    intros Hin. apply Hnew. now apply has_membership_pair.
  - apply (assignees_grow db _ m); [reflexivity | reflexivity | exact H11].
Qed.

Lemma project_saved_keeps (db : Db) (p' : Project.t) :
  well_formed db -> well_formed (Projects.save_project p' db).
Proof.
  intros [H1 H2 H3 H4 H5 H6 H7 H8 H9 H10 H11 H12 H13].
  assert (Hids : map Project.id (projects (Projects.save_project p' db))
                 = map Project.id (projects db)).
  { unfold Projects.save_project. cbn [projects with_projects].
    apply (map_id_rewrite Project.id). }
  constructor; try assumption.
  - now rewrite Hids.
  - intros m Hm. rewrite Hids. now apply H7.
  - intros t Ht. rewrite Hids. now apply H9.
Qed.

Lemma create_project_keeps (w : World) (sched : list bool) (now : Z)
      (data : ProjectCreate.t) (user : Z) :
  well_formed (store w) ->
  well_formed
    (store (snd (request (Projects.create_project now data user) w sched))).
Proof.
  intros Hwf. rewrite create_project_outcome. cbv zeta.
  destruct (accepted sched 0); [|exact Hwf].
  pose proof (project_appended_keeps (store w)
                (new_project_row now data user (store w)) eq_refl Hwf) as H1.
  destruct (accepted sched 1); cbn [snd store]; [|exact H1].
  apply (member_appended_keeps
           (with_projects
              (projects (store w)
               ++ [new_project_row now data user (store w)]) (store w))
           (owner_row now (Project.id (new_project_row now data user
                                                       (store w)))
                      user (store w)));
    [reflexivity | | | exact H1].
  - cbn [owner_row ProjectMember.project_id projects with_projects].
    rewrite map_app. apply in_or_app. right. now left.
  - cbn [owner_row ProjectMember.project_id ProjectMember.user_id].
    intros [m [Hin [_ Hp]]]. cbn [project_members with_projects] in Hin.
    apply (members_of_stored_projects _ Hwf) in Hin. rewrite Hp in Hin.
    now apply next_id_fresh in Hin.
Qed.

Lemma update_project_keeps (w : World) (sched : list bool) (project_id : Z)
      (u : ProjectUpdate.t) (user : Z) :
  well_formed (store w) ->
  well_formed
    (store (snd (request (Projects.update_project project_id u user)
                         w sched))).
Proof.
  intros Hwf. rewrite update_project_outcome.
  destruct (Projects.find_project _ _); [|exact Hwf].
  destruct (is_admin _ _ _); [|exact Hwf].
  destruct (accepted sched 0); [|exact Hwf].
  now apply project_saved_keeps.
Qed.

Lemma delete_project_keeps (w : World) (sched : list bool)
      (project_id user : Z) :
  well_formed (store w) ->
  well_formed
    (store (snd (request (Projects.delete_project project_id user) w sched))).
Proof.
  intros Hwf. rewrite delete_project_outcome.
  destruct (Projects.find_project _ _); [|exact Hwf].
  destruct (_ =? _); [|exact Hwf].
  destruct (accepted sched 0); [|exact Hwf].
  now apply project_saved_keeps.
Qed.

Lemma add_project_member_keeps (w : World) (sched : list bool)
      (users : list User.t) (now project_id : Z)
      (data : ProjectMemberCreate.t) (user : Z) :
  well_formed (store w) ->
  well_formed
    (store (snd (request (Projects.add_project_member users now project_id
                                                      data user) w sched))).
Proof.
  intros Hwf. rewrite add_project_member_outcome.
  destruct (Projects.find_project _ _) as [p|] eqn:Ep; [|exact Hwf].
  destruct (negb (is_admin _ _ _)); [exact Hwf|].
  destruct (is_member _ _ _) eqn:Em; [exact Hwf|].
  destruct (negb (user_exists _ _)); [exact Hwf|].
  destruct (accepted sched 0); [|exact Hwf].
  cbv zeta. cbn [snd store].
  apply member_appended_keeps; [reflexivity | | | exact Hwf].
  - cbn [new_member_row ProjectMember.project_id].
    unfold Projects.find_project, first in Ep. apply find_some in Ep.
    destruct Ep as [Hin Hid]. apply Z.eqb_eq in Hid. rewrite <- Hid.
    now apply in_map.
  - cbn [new_member_row ProjectMember.project_id ProjectMember.user_id].
    rewrite <- is_member_spec. congruence.
Qed.
(** *** Tasks *)

Lemma create_task_keeps (w : World) (sched : list bool) (now : Z)
      (data : TaskCreate.t) (user : Z) :
  well_formed (store w) ->
  well_formed (store (snd (request (Tasks.create_task now data user)
                                   w sched))).
Proof.
  intros Hwf. rewrite create_task_outcome.
  destruct (is_member _ user _) eqn:Em; cbn [negb]; [|exact Hwf].
  destruct (parent_accepted data (store w)) eqn:Ep; cbn [negb]; [|exact Hwf].
  destruct (assignee_is_member _ _ _) eqn:Ea; cbn [negb]; [|exact Hwf].
  destruct (accepted sched 0); [|exact Hwf].
  cbv zeta. cbn [snd store].
  set (t := new_task_row now data user (store w)).
  destruct Hwf as [H1 H2 H3 H4 H5 H6 H7 H8 H9 H10 H11 H12 H13].
  apply is_member_spec in Em.
  constructor; cbn [tasks with_tasks]; try assumption.
  - apply NoDup_map_app_fresh; [exact H3 | apply next_id_fresh].
  - intros x Hx. apply in_app_or in Hx. destruct Hx as [Hx|[<-|[]]];
      [now apply H9|].
    destruct Em as [m [Hm [_ Hp]]]. apply H7 in Hm.
    cbn [t new_task_row Task.project_id]. now rewrite <- Hp.
  - intros x p Hx Hp Hne. cbn [tasks with_tasks] in *.
    apply in_app_or in Hx. destruct Hx as [Hx|[<-|[]]].
    + destruct (H10 x p Hx Hp Hne) as [q [Hq Hqp]].
      exists q. split; [now apply in_app_l | exact Hqp].
    + cbn [t new_task_row Task.parent_task_id Task.project_id] in *.
      unfold parent_accepted in Ep. rewrite Hp in Ep.
      apply Z.eqb_neq in Hne. rewrite Hne in Ep. cbn [orb] in Ep.
      destruct (Tasks.find_task p (store w)) as [q|] eqn:Eq; [|discriminate].
      apply Z.eqb_eq in Ep. unfold Tasks.find_task, first in Eq.
      apply find_some in Eq. destruct Eq as [Hq Hid].
      apply Z.eqb_eq in Hid. exists q.
      split; [now apply in_app_l | split; assumption].
  - intros x a Hx Ha Hne. cbn [tasks with_tasks] in Hx.
    apply in_app_or in Hx. destruct Hx as [Hx|[<-|[]]].
    + now apply (H11 x a).
    + cbn [t new_task_row Task.assignee_id Task.project_id] in *.
      unfold assignee_is_member in Ea. rewrite Ha in Ea.
      apply Z.eqb_neq in Hne. rewrite Hne in Ea. cbn [orb] in Ea.
      now apply is_member_spec.
  - intros c Hc. apply in_ids_app. now apply H12.
  - intros a Ha. apply in_ids_app. now apply H13.
Qed.

Lemma task_saved_keeps (db : Db) (task_id : Z) (t t' : Task.t) :
  Tasks.find_task task_id db = Some t ->
  same_identity t t' ->
  (forall a, Task.assignee_id t' = Some a -> a <> 0 ->
             has_membership db a (Task.project_id t)) ->
  well_formed db -> well_formed (Tasks.save_task t' db).
Proof.
  intros Hf Hsame Hassignee [H1 H2 H3 H4 H5 H6 H7 H8 H9 H10 H11 H12 H13].
  pose proof (save_task_rows db task_id t t' H3 Hf Hsame) as Hrows.
  assert (Hids : map Task.id (tasks (Tasks.save_task t' db))
                 = map Task.id (tasks db)).
  { unfold Tasks.save_task. cbn [tasks with_tasks].
    apply (map_id_rewrite Task.id). }
  assert (Hback : forall x', In x' (tasks (Tasks.save_task t' db)) ->
            exists x, In x (tasks db)
                      /\ same_identity x x'
                      /\ (x' = x \/ (x = t /\ x' = t'))).
  { intros x' Hx'. destruct (Forall2_In_r _ _ _ x' Hrows Hx')
      as [x [Hx [[Ex Ex']|[_ Ex']]]]; exists x; (split; [exact Hx|]).
    - split; [rewrite Ex, Ex'; exact Hsame | now right].
    - split; [rewrite Ex'; apply same_identity_refl | now left]. }
  assert (Hforth : forall x, In x (tasks db) ->
            exists x', In x' (tasks (Tasks.save_task t' db))
                       /\ same_identity x x').
  { intros x Hx. destruct (Forall2_In_l _ _ _ x Hrows Hx)
      as [x' [Hx' [[Ex Ex']|[_ Ex']]]]; exists x'; (split; [exact Hx'|]).
    - rewrite Ex, Ex'; exact Hsame.
    - rewrite Ex'. apply same_identity_refl. }
  constructor; try assumption.
  - now rewrite Hids.
  - intros x' Hx'. destruct (Hback x' Hx') as [x [Hx [[_ [Hp _]] _]]].
    rewrite Hp. now apply H9.
  - intros x' p Hx' Hp Hne.
    destruct (Hback x' Hx') as [x [Hx [[_ [Hproj [_ [Hpar _]]]] _]]].
    rewrite Hpar in Hp. destruct (H10 x p Hx Hp Hne) as [q [Hq [Hid Hqp]]].
    destruct (Hforth q Hq) as [q' [Hq' [Hid' [Hproj' _]]]].
    exists q'. split; [exact Hq'|]. split; congruence.
  - intros x' a Hx' Ha Hne.
    destruct (Hback x' Hx') as [x [Hx [[_ [Hproj _]] [->|[-> ->]]]]].
    + now apply (H11 x a).
    + rewrite Hproj. now apply Hassignee.
  - intros c Hc. rewrite Hids. now apply H12.
  - intros a Ha. rewrite Hids. now apply H13.
Qed.

Lemma update_task_keeps (w : World) (sched : list bool) (now task_id : Z)
      (u : TaskUpdate.t) (user : Z) :
  well_formed (store w) ->
  well_formed (store (snd (request (Tasks.update_task now task_id u user)
                                   w sched))).
Proof.
  intros Hwf. rewrite update_task_outcome.
  destruct (Tasks.find_task task_id (store w)) as [t|] eqn:Ef; [|exact Hwf].
  destruct (negb (is_member _ _ _)); [exact Hwf|].
  destruct (assignee_is_member _ _ _) eqn:Ea; cbn [negb]; [|exact Hwf].
  destruct (accepted sched 0); [|exact Hwf].
  cbv zeta. cbn [snd store].
  apply (task_saved_keeps _ task_id t); try assumption.
  - apply apply_update_same_identity.
  - intros a Ha Hne. rewrite apply_update_assignee in Ha.
    destruct (TaskUpdate.assignee_id u) as [|v] eqn:Eu.
    + apply (assignees_in_the_project _ Hwf t a); try assumption.
      unfold Tasks.find_task, first in Ef. apply find_some in Ef. tauto.
    + subst v. cbn [field_value] in Ea. unfold assignee_is_member in Ea.
      apply Z.eqb_neq in Hne. rewrite Hne in Ea. cbn [orb] in Ea.
      now apply is_member_spec.
Qed.

Lemma delete_task_keeps (w : World) (sched : list bool) (task_id user : Z) :
  well_formed (store w) ->
  well_formed (store (snd (request (Tasks.delete_task task_id user)
                                   w sched))).
Proof.
  intros Hwf. rewrite delete_task_outcome.
  destruct (Tasks.find_task task_id (store w)) as [t|] eqn:Ef; [|exact Hwf].
  destruct (membership_of _ _ _); [|exact Hwf].
  destruct (_ || _); [|exact Hwf].
  destruct (accepted sched 0); [|exact Hwf].
  cbn [snd store].
  apply (task_saved_keeps _ task_id t); try assumption.
  - unfold same_identity. simpl. auto.
  - intros a Ha Hne. cbn [Task.set_is_archived Task.assignee_id] in Ha.
    apply (assignees_in_the_project _ Hwf t a); try assumption.
    unfold Tasks.find_task, first in Ef. apply find_some in Ef. tauto.
Qed.

(** *** Comments and attachments *)

Lemma task_accessible_stored (task_id user : Z) (db : Db) :
  task_accessible task_id user db = true -> In task_id (map Task.id (tasks db)).
Proof.
  unfold task_accessible, Tasks.find_task, first.
  destruct (find _ _) as [t|] eqn:E; [|discriminate]. intros _.
  apply find_some in E. destruct E as [Hin Hid]. apply Z.eqb_eq in Hid.
  rewrite <- Hid. now apply in_map.
Qed.

Lemma create_comment_keeps (w : World) (sched : list bool) (now : Z)
      (data : TaskCommentCreate.t) (user : Z) :
  well_formed (store w) ->
  well_formed (store (snd (request (Comments.create_comment now data user)
                                   w sched))).
Proof.
  intros Hwf. rewrite create_comment_outcome.
  destruct (task_accessible _ _ _) eqn:Ea; [|exact Hwf].
  destruct (accepted sched 0); [|exact Hwf].
  cbv zeta. cbn [snd store].
  destruct Hwf as [H1 H2 H3 H4 H5 H6 H7 H8 H9 H10 H11 H12 H13].
  constructor; cbn [task_comments with_task_comments]; try assumption.
  - apply NoDup_map_app_fresh; [exact H4 | apply next_id_fresh].
  - intros c Hc. cbn [tasks with_task_comments].
    apply in_app_or in Hc. destruct Hc as [Hc|[<-|[]]]; [now apply H12|].
    cbn [new_comment_row TaskComment.task_id].
    now apply (task_accessible_stored _ user).
Qed.

Lemma update_comment_keeps (w : World) (sched : list bool) (comment_id : Z)
      (u : TaskCommentUpdate.t) (user : Z) :
  well_formed (store w) ->
  well_formed (store (snd (request (Comments.update_comment comment_id u user)
                                   w sched))).
Proof.
  intros Hwf. rewrite update_comment_outcome.
  destruct (Comments.find_comment _ _) as [c|] eqn:Ef; [|exact Hwf].
  destruct (negb _); [exact Hwf|].
  destruct (task_accessible _ _ _) eqn:Ea; [|exact Hwf].
  destruct (accepted sched 0); [|exact Hwf].
  cbv zeta. cbn [snd store].
  set (c' := Comments.apply_comment_update u c).
  assert (Hc' : TaskComment.id c' = TaskComment.id c
                /\ TaskComment.task_id c' = TaskComment.task_id c).
  { unfold c', Comments.apply_comment_update.
    destruct (TaskCommentUpdate.content u) as [s|];
      [destruct (negb _)|]; auto. }
  destruct Hwf as [H1 H2 H3 H4 H5 H6 H7 H8 H9 H10 H11 H12 H13].
  constructor; try assumption.
  - unfold Comments.save_comment. cbn [task_comments with_task_comments].
    now rewrite (map_id_rewrite TaskComment.id).
  - intros x Hx. unfold Comments.save_comment in *.
    cbn [task_comments tasks with_task_comments] in *.
    apply in_map_iff in Hx. destruct Hx as [y [<- Hy]].
    destruct (TaskComment.id y =? TaskComment.id c'); [|now apply H12].
    rewrite (proj2 Hc'). apply (task_accessible_stored _ user). exact Ea.
Qed.

Lemma delete_comment_after (w : World) (sched : list bool)
      (comment_id user : Z) :
  store (snd (request (Comments.delete_comment comment_id user) w sched))
  = store w
  \/ exists c,
      store (snd (request (Comments.delete_comment comment_id user) w sched))
      = Comments.drop_comment c (store w).
Proof.
  destruct w as [db fs].
  unfold Comments.delete_comment, Comments.not_owner_nor_admin,
    project_id_of, role_of.
  open_handler.
  repeat (cbn [view durable disk faults store files fst snd negb andb orb];
          first [ now left
                | right; eexists; reflexivity
                | split_on_scrutinee ]).
Qed.

Lemma delete_comment_keeps (w : World) (sched : list bool)
      (comment_id user : Z) :
  well_formed (store w) ->
  well_formed (store (snd (request (Comments.delete_comment comment_id user)
                                   w sched))).
Proof.
  intros Hwf.
  destruct (delete_comment_after w sched comment_id user) as [-> | [c ->]];
    [exact Hwf|].
  destruct Hwf as [H1 H2 H3 H4 H5 H6 H7 H8 H9 H10 H11 H12 H13].
  constructor; try assumption.
  - unfold Comments.drop_comment. cbn [task_comments with_task_comments].
    now apply NoDup_map_filter.
  - intros x Hx. unfold Comments.drop_comment in *.
    cbn [task_comments tasks with_task_comments] in *.
    apply filter_In in Hx. now apply H12.
Qed.

Lemma upload_attachment_keeps (w : World) (sched : list bool) (now : Z)
      (uuid file_extension : string) (task_id : Z) (file : UploadFile.t)
      (user : Z) :
  well_formed (store w) ->
  well_formed
    (store (snd (request (Comments.upload_attachment now uuid file_extension
                                                     task_id file user)
                         w sched))).
Proof.
  intros Hwf. rewrite upload_attachment_outcome.
  destruct (task_accessible _ _ _) eqn:Ea; [|exact Hwf].
  destruct (_ <? _); [exact Hwf|]. cbv zeta.
  destruct (accepted sched 0); cbn [snd store]; [|exact Hwf].
  destruct Hwf as [H1 H2 H3 H4 H5 H6 H7 H8 H9 H10 H11 H12 H13].
  constructor; cbn [task_attachments with_task_attachments]; try assumption.
  - apply NoDup_map_app_fresh; [exact H5 | apply next_id_fresh].
  - intros a Ha. cbn [tasks with_task_attachments].
    apply in_app_or in Ha. destruct Ha as [Ha|[<-|[]]]; [now apply H13|].
    cbn [new_attachment_row TaskAttachment.task_id].
    now apply (task_accessible_stored _ user).
Qed.

Lemma delete_attachment_keeps (w : World) (sched : list bool)
      (attachment_id user : Z) :
  well_formed (store w) ->
  well_formed
    (store (snd (request (Comments.delete_attachment attachment_id user)
                         w sched))).
Proof.
  intros Hwf. rewrite delete_attachment_outcome.
  destruct (Comments.find_attachment _ _) as [a|]; [|exact Hwf].
  destruct (Tasks.find_task _ _) as [t|]; [|exact Hwf].
  cbv zeta. destruct (_ && _); [exact Hwf|].
  destruct (allowed_to_delete _ _ _); [|exact Hwf].
  destruct (accepted sched 0); cbn [snd store]; [|exact Hwf].
  destruct Hwf as [H1 H2 H3 H4 H5 H6 H7 H8 H9 H10 H11 H12 H13].
  constructor; try assumption.
  - unfold Comments.drop_attachment.
    cbn [task_attachments with_task_attachments].
    now apply NoDup_map_filter.
  - intros x Hx. unfold Comments.drop_attachment in *.
    cbn [task_attachments tasks with_task_attachments] in *.
    apply filter_In in Hx. now apply H13.
Qed.

(** *** Tags and notifications *)

Lemma create_tag_keeps (w : World) (sched : list bool) (now : Z)
      (data : TagCreate.t) (user : Z) :
  well_formed (store w) ->
  well_formed (store (snd (request (Tags.create_tag now data user) w sched))).
Proof.
  intros Hwf. rewrite create_tag_outcome.
  destruct (negb _); [exact Hwf|].
  destruct (tag_taken _ _ _); [exact Hwf|].
  destruct (accepted sched 0); [|exact Hwf].
  cbv zeta. cbn [snd store].
  destruct Hwf as [H1 H2 H3 H4 H5 H6 H7 H8 H9 H10 H11 H12 H13].
  constructor; cbn [tags with_tags]; try assumption.
  apply NoDup_map_app_fresh; [exact H6 | apply next_id_fresh].
Qed.

Lemma delete_tag_after (w : World) (sched : list bool) (tag_id user : Z) :
  store (snd (request (Tags.delete_tag tag_id user) w sched)) = store w
  \/ exists t,
      store (snd (request (Tags.delete_tag tag_id user) w sched))
      = Tags.drop_tag t (store w).
Proof.
  destruct w as [db fs]. unfold Tags.delete_tag. open_handler.
  destruct (Tags.find_tag tag_id db) as [t|]; [|now left].
  pose proof (check_delete_permission_spec t user
                (mkSession db db fs sched)) as Hperm.
  destruct (may_delete_tag t user _).
  - rewrite Hperm. cbn [view durable disk faults fst snd store].
    destruct (_ <? _)%nat; [now left|].
    destruct sched as [|[|] rest];
      cbn [view durable disk faults fst snd store];
      try (now left); right; now exists t.
  - destruct Hperm as [detail ->]. now left.
Qed.

Lemma delete_tag_keeps (w : World) (sched : list bool) (tag_id user : Z) :
  well_formed (store w) ->
  well_formed (store (snd (request (Tags.delete_tag tag_id user) w sched))).
Proof.
  intros Hwf.
  destruct (delete_tag_after w sched tag_id user) as [-> | [t ->]];
    [exact Hwf|].
  destruct Hwf as [H1 H2 H3 H4 H5 H6 H7 H8 H9 H10 H11 H12 H13].
  constructor; try assumption.
  unfold Tags.drop_tag. cbn [tags with_tags]. now apply NoDup_map_filter.
Qed.

Lemma notifications_only_keeps (db : Db) (rows : list Notification.t) :
  well_formed db -> well_formed (with_notifications rows db).
Proof.
  intros [H1 H2 H3 H4 H5 H6 H7 H8 H9 H10 H11 H12 H13].
  constructor; assumption.
Qed.

Lemma mark_notification_read_keeps (w : World) (sched : list bool)
      (notification_id user : Z) :
  well_formed (store w) ->
  well_formed
    (store (snd (request (Tags.mark_notification_read notification_id user)
                         w sched))).
Proof.
  intros Hwf. destruct w as [db fs]. unfold Tags.mark_notification_read.
  open_handler.
  destruct (first _ (notifications db)) as [n|]; [|exact Hwf].
  destruct sched as [|[|] rest]; cbn [view durable disk faults fst snd store];
    try exact Hwf; now apply notifications_only_keeps.
Qed.

Lemma mark_all_notifications_read_keeps (w : World) (sched : list bool)
      (user : Z) :
  well_formed (store w) ->
  well_formed
    (store (snd (request (Tags.mark_all_notifications_read user) w sched))).
Proof.
  intros Hwf. destruct w as [db fs]. unfold Tags.mark_all_notifications_read.
  open_handler.
  destruct sched as [|[|] rest]; cbn [view durable disk faults fst snd store];
    try exact Hwf; now apply notifications_only_keeps.
Qed.

Lemma empty_db_well_formed : well_formed empty_db.
Proof.
  constructor; cbn; try apply NoDup_nil;
    unfold members_reference_projects, parents_in_same_project,
      assignees_are_members; cbn; intros; contradiction.
Qed.

(** X25. Every writing request of the four routers but [update_tag] keeps
    the store well formed, whatever the store answers to its commits, and
    so does every history of such requests on a well-formed store (the
    empty database is one: [empty_db_well_formed]). Well formed means: ids are unique in the tables the handlers
    insert into; every membership is of a stored project and no user has
    two memberships in one project; every task is in a stored project, has
    its parent (when it names a non-zero one) stored in the same project,
    and is assigned (when to a non-zero user) to a member of its project;
    every comment and attachment is on a stored task. *)
Theorem writes_keep_store_well_formed (history : list (Write * list bool))
        (w : World) :
  well_formed (store w) -> well_formed (store (perform_all history w)).
Proof.
  unfold perform_all. revert w.
  induction history as [|[r sched] history IH]; intros w Hwf; [exact Hwf|].
  cbn [fold_left fst snd]. apply IH.
  destruct r; cbn [perform].
  - now apply create_project_keeps.
  - now apply update_project_keeps.
  - now apply delete_project_keeps.
  - now apply add_project_member_keeps.
  - now apply create_task_keeps.
  - now apply update_task_keeps.
  - now apply delete_task_keeps.
  - now apply create_comment_keeps.
  - now apply update_comment_keeps.
  - now apply delete_comment_keeps.
  - now apply upload_attachment_keeps.
  - now apply delete_attachment_keeps.
  - now apply create_tag_keeps.
  - now apply delete_tag_keeps.
  - now apply mark_notification_read_keeps.
  - now apply mark_all_notifications_read_keeps.
Qed.

(** X25, witness: the second example world is well formed, and stays so
    through a history in which alice creates a project (its second commit
    refused) and a task, erin archives the open task, frank archives his
    project, and alice marks her notifications read. *)
Lemma writes_keep_store_well_formed_witness :
  let history :=
    [ (CreateProject 30 Example.new_project Example.alice, [true; false]);
      (CreateTask 31 Example.created_done Example.alice, []);
      (DeleteTask 2 Example2.erin, []);
      (DeleteProject 2 Example2.frank, []);
      (MarkAllNotificationsRead Example.alice, []) ] in
  well_formed (store Example2.world)
  /\ well_formed (store (perform_all history Example2.world)).
Proof.
  cbv zeta.
  assert (H : well_formed (store Example2.world)).
  { constructor;
      try (repeat (apply NoDup_cons; [cbn; intuition discriminate|]);
           apply NoDup_nil).
    - intros m Hm. cbn in Hm. cbn. intuition (subst; cbn; auto).
    - intros t Ht. cbn in Ht. cbn. intuition (subst; cbn; auto).
    - intros t p Ht Hp Hne. cbn in Ht.
      repeat (destruct Ht as [<-|Ht]; [try discriminate Hp|]);
        [|contradiction].
      injection Hp as <-. exists Example.open_task.
      cbn. intuition auto.
    - intros t a Ht Ha Hne. cbn in Ht.
      repeat (destruct Ht as [<-|Ht]; [try discriminate Ha|]);
        [| |contradiction];
        injection Ha as <-;
        exists (ProjectMember.mk 2 1 Example.bob "member" 6);
        cbn; intuition auto.
    - intros c Hc. cbn in Hc. cbn. intuition (subst; cbn; auto).
    - intros a Ha. cbn in Ha. cbn. intuition (subst; cbn; auto). }
  split; [exact H|].
  apply (writes_keep_store_well_formed
           [ (CreateProject 30 Example.new_project Example.alice,
              [true; false]);
             (CreateTask 31 Example.created_done Example.alice, []);
             (DeleteTask 2 Example2.erin, []);
             (DeleteProject 2 Example2.frank, []);
             (MarkAllNotificationsRead Example.alice, []) ]
           Example2.world H).
Defined.

(** ** Attachments listed, comments withdrawn *)

Lemma delete_comment_by_author (w : World) (sched : list bool)
      (comment_id user : Z) (c : TaskComment.t) (t : Task.t) :
  Comments.find_comment comment_id (store w) = Some c ->
  Tasks.find_task (TaskComment.task_id c) (store w) = Some t ->
  TaskComment.user_id c = user ->
  request (Comments.delete_comment comment_id user) w sched
  = if accepted sched 0
    then (Return "Comment deleted successfully",
          mkWorld (Comments.drop_comment c (store w)) (files w))
    else (Raise DBAPIError, w).
Proof.
  destruct w as [db fs]. cbn [store files]. intros Hc Ht Hu.
  unfold Comments.delete_comment, Comments.not_owner_nor_admin,
    project_id_of, role_of, accepted.
  open_handler. rewrite Hc. cbn [view durable disk faults fst snd].
  rewrite Ht. cbn [view durable disk faults fst snd].
  rewrite Hu, Z.eqb_refl. cbn [negb view durable disk faults fst snd].
  destruct sched as [|[|] rest]; reflexivity.
Qed.

Lemma find_comment_appended_new (db : Db) (c : TaskComment.t) :
  TaskComment.id c = next_id (map TaskComment.id (task_comments db)) ->
  Comments.find_comment (TaskComment.id c)
    (with_task_comments (task_comments db ++ [c]) db) = Some c.
Proof.
  intros Hid. unfold Comments.find_comment, first.
  cbn [task_comments with_task_comments].
  rewrite find_app_fresh, Hid.
  rewrite (find_none_fresh_id TaskComment.id). now rewrite Z.eqb_refl.
Qed.

(** X26. What is uploaded is listed: after a successful
    [upload_attachment], [get_task_attachments] of that task, by the
    uploader, succeeds and writes nothing; it returns exactly the stored
    attachments of that task, the new one among them, oldest first. *)
Theorem upload_attachment_then_list (w w' : World) (sched sched' : list bool)
        (now : Z) (uuid file_extension : string) (task_id : Z)
        (file : UploadFile.t) (user : Z) (a : TaskAttachment.t) :
  request (Comments.upload_attachment now uuid file_extension task_id file
                                      user) w sched = (Return a, w') ->
  exists rows,
    request (Comments.get_task_attachments task_id user) w' sched'
    = (Return rows, w')
    /\ In a rows
    /\ (forall r, In r rows <->
                  In r (task_attachments (store w'))
                  /\ TaskAttachment.task_id r = task_id)
    /\ Sorted (fun x y => TaskAttachment.created_at x
                          <= TaskAttachment.created_at y) rows.
Proof.
  rewrite upload_attachment_outcome.
  destruct (task_accessible task_id user (store w)) eqn:Ea; [|discriminate].
  destruct (_ <? _); [discriminate|]. cbv zeta.
  destruct (accepted sched 0); [|discriminate].
  intros [= <- <-].
  rewrite get_task_attachments_outcome. cbn [store].
  change (task_accessible task_id user (with_task_attachments _ (store w)))
    with (task_accessible task_id user (store w)).
  rewrite Ea. eexists. split; [reflexivity|].
  assert (Hiff : forall r,
             In r (order_by Comments.attachment_created_at_asc
                     (where_ (fun a => Some (TaskAttachment.task_id a
                                             =? task_id))
                             (task_attachments
                                (with_task_attachments
                                   (task_attachments (store w)
                                    ++ [new_attachment_row now uuid
                                          file_extension task_id file user
                                          (store w)])
                                   (store w)))))
             <-> In r (task_attachments
                         (with_task_attachments
                            (task_attachments (store w)
                             ++ [new_attachment_row now uuid file_extension
                                   task_id file user (store w)])
                            (store w)))
                 /\ TaskAttachment.task_id r = task_id).
  { intros r. rewrite order_by_In, where_In. split; intros [Hin Hr].
    - split; [exact Hin|]. injection Hr as Hr. now apply Z.eqb_eq.
    - split; [exact Hin|]. f_equal. now apply Z.eqb_eq. }
  split; [|split; [exact Hiff|]].
  - apply Hiff. cbn [task_attachments with_task_attachments].
    split; [apply in_or_app; right; now left | reflexivity].
  - eapply Sorted_ind
      with (P := fun l => Sorted (fun x y => TaskAttachment.created_at x
                                             <= TaskAttachment.created_at y)
                                 l);
      [constructor | |
       apply (order_by_sorted Comments.attachment_created_at_asc)].
    + intros x l _ IH Hhd. constructor; [exact IH|].
      destruct Hhd as [|y l' Hy]; constructor.
      unfold Comments.attachment_created_at_asc in Hy. now apply Z.leb_le.
    + intros x y Hxy. unfold Comments.attachment_created_at_asc in *.
      apply Z.leb_gt in Hxy. apply Z.leb_le. lia.
Qed.

(** X26, witness: bob uploads a second attachment to the done task and
    lists both. *)
Lemma upload_attachment_then_list_witness :
  let file := UploadFile.mk "figures.csv" (Some "text/csv")
                            [Byte.x61; Byte.x62] in
  let a := new_attachment_row 90 "c41d" ".csv" 1 file Example.bob
                              Example.db in
  let w' := mkWorld (with_task_attachments
                       (task_attachments Example.db ++ [a]) Example.db)
                    (files Example.world
                     ++ ["uploads/attachments/c41d.csv"]) in
  run (Comments.upload_attachment 90 "c41d" ".csv" 1 file Example.bob)
      Example.world = (Return a, w')
  /\ exists rows,
      run (Comments.get_task_attachments 1 Example.bob) w' = (Return rows, w')
      /\ In a rows.
Proof.
  cbv zeta. split; [reflexivity|].
  destruct (upload_attachment_then_list Example.world _ [] [] 90 "c41d"
              ".csv" 1
              (UploadFile.mk "figures.csv" (Some "text/csv")
                             [Byte.x61; Byte.x62])
              Example.bob _ eq_refl) as [rows [Hrun [Hin _]]].
  exists rows. split; [exact Hrun | exact Hin].
Defined.

(** X27. Comment, then withdraw: a successful [create_comment] followed by
    [delete_comment] of the new id by its author gives back the world as it
    was; the author needs no role for it, a viewer's membership is
    enough. *)
Theorem create_comment_then_delete_restores_world (w w' : World) (now : Z)
        (data : TaskCommentCreate.t) (user : Z) (c : TaskComment.t) :
  run (Comments.create_comment now data user) w = (Return c, w') ->
  run (Comments.delete_comment (TaskComment.id c) user) w'
  = (Return "Comment deleted successfully", w).
Proof.
  unfold run. rewrite create_comment_outcome.
  destruct (task_accessible _ user (store w)) eqn:Ea; [|discriminate].
  cbn [accepted nth]. cbv zeta. intros [= <- <-].
  unfold task_accessible in Ea.
  destruct (Tasks.find_task (TaskCommentCreate.task_id data) (store w))
    as [t|] eqn:Et; [|discriminate].
  rewrite (delete_comment_by_author _ _ _ _
             (new_comment_row now data user (store w)) t).
  - cbn [accepted nth store files]. f_equal.
    destruct w as [db fs]. cbn [store files]. f_equal.
    destruct db as [p m t' g tt cs att n].
    unfold Comments.drop_comment, with_task_comments.
    cbn [projects project_members tasks tags task_tags task_comments
         task_attachments notifications].
    f_equal. rewrite filter_app. cbn [filter].
    rewrite Z.eqb_refl. cbn [negb]. rewrite app_nil_r.
    apply (filter_drop_fresh TaskComment.id).
    cbn [new_comment_row TaskComment.id task_comments].
    apply next_id_fresh.
  - cbn [store]. now apply find_comment_appended_new.
  - cbn [store new_comment_row TaskComment.task_id]. exact Et.
  - reflexivity.
Qed.

(** X27, witness: dave, a viewer, comments on the open task and withdraws
    the comment. *)
Lemma create_comment_then_delete_restores_world_witness :
  let data := TaskCommentCreate.mk "Figures attached" 2 in
  let c := new_comment_row 80 data Example.dave Example.db in
  let w' := mkWorld (with_task_comments (task_comments Example.db ++ [c])
                                        Example.db) (files Example.world) in
  run (Comments.create_comment 80 data Example.dave) Example.world
  = (Return c, w')
  /\ run (Comments.delete_comment 2 Example.dave) w'
     = (Return "Comment deleted successfully", Example.world).
Proof.
  cbv zeta. split; [reflexivity|].
  apply (create_comment_then_delete_restores_world Example.world _ 80
           (TaskCommentCreate.mk "Figures attached" 2) Example.dave
           (new_comment_row 80 (TaskCommentCreate.mk "Figures attached" 2)
                            Example.dave Example.db)).
  reflexivity.
Defined.
